(** * Event classification scripts: prompt engineering versus DSPy

    A shallow embedding of [prompt_engineering.py] and [dspy_example.py]
    together with the properties their specification states about them.

    Layout of the development:
    - [Py]      : the Python built-ins the scripts rely on ([str] methods)
                  and what the decoding of JSON owes to the interpreter;
    - [Json]    : the [json] module of the Python standard library
                  ([json.loads], [json.dump] with [indent=2]);
    - [Runtime] : the effects of the scripts (files, console, the hosted
                  completion service, exceptions) as a state-and-error monad;
    - [PromptEngineering], [Dspy] : the two scripts, function by function;
    - [FallbackView], [EvaluatorView], [DatasetView] : the loops and the
                  dataset read as list functions, for the statements that
                  describe them;
    - [Scenario] : the concrete inputs of the examples;
    - the lemmas and theorems, component by component. *)

From Stdlib Require Import NArith ZArith QArith List String Ascii Bool Lia.
From stdpp Require Import base decidable list gmap.
Import ListNotations.

Set Warnings "-register-all".

Local Open Scope N_scope.
Local Open Scope list_scope.

(* ===================================================================== *)
(** * Python strings *)
(* ===================================================================== *)

Module Py.

(** A Python [str] is a sequence of Unicode code points. *)
Abbreviation str := (list N).

(** An ASCII literal of the development as a Python [str]. *)
Fixpoint py (s : string) : str :=
  match s with
  | EmptyString => []
  | String a r => N_of_ascii a :: py r
  end.

(** The double-quote character. *)
Definition dq : N := 34.

(** [str.isspace] on one code point: CPython's [_PyUnicode_IsWhitespace]. *)
Definition isspace (c : N) : bool :=
  ((9 <=? c) && (c <=? 13)) || ((28 <=? c) && (c <=? 32))
  || (c =? 133) || (c =? 160) || (c =? 5760)
  || ((8192 <=? c) && (c <=? 8202))
  || (c =? 8232) || (c =? 8233) || (c =? 8239) || (c =? 8287)
  || (c =? 12288).

(** Line boundaries of [str.splitlines]: CPython's [_PyUnicode_IsLinebreak]. *)
Definition islinebreak (c : N) : bool :=
  ((10 <=? c) && (c <=? 13)) || ((28 <=? c) && (c <=? 30))
  || (c =? 133) || (c =? 8232) || (c =? 8233).

(** [c in chars] for a single character. *)
Definition char_in (chars : str) (c : N) : bool := existsb (N.eqb c) chars.

Fixpoint lstrip_with (p : N -> bool) (s : str) : str :=
  match s with
  | [] => []
  | c :: r => if p c then lstrip_with p r else s
  end.

Definition rstrip_with (p : N -> bool) (s : str) : str :=
  rev (lstrip_with p (rev s)).

Definition strip_with (p : N -> bool) (s : str) : str :=
  rstrip_with p (lstrip_with p s).

(** [s.strip()] *)
Definition strip (s : str) : str := strip_with isspace s.

(** [s.lstrip(chars)] *)
Definition lstrip_chars (chars s : str) : str := lstrip_with (char_in chars) s.

(** [s.strip(chars)] *)
Definition strip_chars (chars s : str) : str := strip_with (char_in chars) s.

(** [s.startswith(prefix)] *)
Fixpoint startswith (prefix s : str) : bool :=
  match prefix, s with
  | [], _ => true
  | _ :: _, [] => false
  | a :: p, b :: r => (a =? b) && startswith p r
  end.

(** [s.endswith(suffix)] *)
Definition endswith (suffix s : str) : bool :=
  startswith (rev suffix) (rev s).

(** [s.startswith((p1, p2, ...))] and [s.endswith((p1, p2, ...))] *)
Definition startswith_any (prefixes : list str) (s : str) : bool :=
  existsb (fun p => startswith p s) prefixes.
Definition endswith_any (suffixes : list str) (s : str) : bool :=
  existsb (fun p => endswith p s) suffixes.

(** [needle in hay] on strings: substring test. *)
Fixpoint contains (needle hay : str) : bool :=
  match hay with
  | [] => startswith needle []
  | _ :: r => startswith needle hay || contains needle r
  end.

(** [x in l] on a list of strings. *)
Definition str_in_list (x : str) (l : list str) : bool :=
  existsb (fun y => bool_decide (x = y)) l.

(** [s.split()]: maximal runs of non-whitespace characters.
    [cur] holds the token being read, reversed. *)
Fixpoint split_aux (cur : str) (s : str) : list str :=
  match s with
  | [] => match cur with [] => [] | _ => [rev cur] end
  | c :: r =>
      if isspace c
      then match cur with
           | [] => split_aux [] r
           | _ => rev cur :: split_aux [] r
           end
      else split_aux (c :: cur) r
  end.

Definition split (s : str) : list str := split_aux [] s.

(** [s.splitlines()]: a carriage return followed by a line feed is one
    boundary; no empty last line is produced after a final boundary. *)
Fixpoint splitlines_aux (cur : str) (s : str) : list str :=
  match s with
  | [] => match cur with [] => [] | _ => [rev cur] end
  | c :: r =>
      if c =? 13
      then match r with
           | c' :: r' =>
               if c' =? 10 then rev cur :: splitlines_aux [] r'
               else rev cur :: splitlines_aux [] r
           | [] => rev cur :: splitlines_aux [] r
           end
      else if islinebreak c
           then rev cur :: splitlines_aux [] r
           else splitlines_aux (c :: cur) r
  end.

Definition splitlines (s : str) : list str := splitlines_aux [] s.

(** [s[1:-1]] *)
Definition slice_1_m1 (s : str) : str := removelast (tl s).

(** [sep.join(parts)] *)
Fixpoint join (sep : str) (parts : list str) : str :=
  match parts with
  | [] => []
  | [x] => x
  | x :: rest => x ++ sep ++ join sep rest
  end.

(** [l[-1]] when [l] is not empty. *)
Definition last_item {A} (l : list A) : option A := head (rev l).

(** Decimal rendering of a natural number, as [str(n)] gives it. *)
Definition digit_char (d : N) : N := 48 + d.

Fixpoint str_of_N_aux (fuel : nat) (n : N) (acc : str) : str :=
  match fuel with
  | O => acc
  | S f =>
      let acc' := digit_char (n mod 10) :: acc in
      if n / 10 =? 0 then acc' else str_of_N_aux f (n / 10) acc'
  end.

Definition str_of_nat (n : nat) : str :=
  str_of_N_aux (S n) (N.of_nat n) [].

(** The interpreter that runs a script, as far as the decoding of JSON
    depends on it.  The scripts set neither of the two, and nothing is
    assumed about them.
    - [exhausts_recursion text]: whether the interpreter runs out of
      recursion depth while the script decodes [text] with [json.loads]
      or [json.load], which then raises [RecursionError].  The decoder
      asks for one more level for every array or object nested in
      another, so this is what a deeply nested text comes to; how deep
      depends on [sys.getrecursionlimit()], on the frames in use at the
      call and on the version of the interpreter.
    - [int_max_str_digits]: [sys.get_int_max_str_digits()], the longest
      decimal literal [int] converts; [0] when there is no such limit. *)
Record interpreter : Type := Interpreter {
  exhausts_recursion : str -> bool;
  int_max_str_digits : nat
}.

End Py.

Import Py.

(* ===================================================================== *)
(** * The [json] module *)
(* ===================================================================== *)

Module Json.

(** A decoded JSON document.  A number keeps its lexeme: the scripts only
    ask whether a value is a [str], a [list] or a [dict].  An object is a
    Python [dict]: insertion-ordered, one entry per key. *)
Inductive value : Type :=
| JNull
| JBool (b : bool)
| JNumber (lexeme : str)
| JString (s : str)
| JArray (items : list value)
| JObject (members : list (str * value)).

(** [d[k] = v] on an insertion-ordered dict: a key already present keeps
    its place and takes the new value. *)
Fixpoint dict_set {V} (k : str) (v : V) (d : list (str * V)) : list (str * V) :=
  match d with
  | [] => [(k, v)]
  | (k', v') :: r =>
      if bool_decide (k = k') then (k, v) :: r else (k', v') :: dict_set k v r
  end.

(** [d.get(k)] *)
Fixpoint dict_get {V} (k : str) (d : list (str * V)) : option V :=
  match d with
  | [] => None
  | (k', v') :: r => if bool_decide (k = k') then Some v' else dict_get k r
  end.

(** ** Decoding: [json.loads] (the C scanner, [strict=True]) *)

Definition is_ws (c : N) : bool :=
  (c =? 32) || (c =? 9) || (c =? 10) || (c =? 13).

Definition skip_ws (s : str) : str := lstrip_with is_ws s.

Definition is_digit (c : N) : bool := (48 <=? c) && (c <=? 57).

Definition hex_val (c : N) : option N :=
  if (48 <=? c) && (c <=? 57) then Some (c - 48)
  else if (97 <=? c) && (c <=? 102) then Some (c - 87)
  else if (65 <=? c) && (c <=? 70) then Some (c - 55)
  else None.

(** Four hexadecimal digits of a [\uXXXX] escape. *)
Definition hex4 (s : str) : option (N * str) :=
  match s with
  | a :: b :: c :: d :: r =>
      match hex_val a, hex_val b, hex_val c, hex_val d with
      | Some x, Some y, Some z, Some w =>
          Some (((x * 16 + y) * 16 + z) * 16 + w, r)
      | _, _, _, _ => None
      end
  | _ => None
  end.

Definition is_high_surrogate (c : N) : bool := (55296 <=? c) && (c <=? 56319).
Definition is_low_surrogate (c : N) : bool := (56320 <=? c) && (c <=? 57343).
Definition join_surrogates (hi lo : N) : N :=
  65536 + ((hi - 55296) * 1024 + (lo - 56320)).

(** The one-character escapes after a backslash. *)
Definition unescape (e : N) : option N :=
  if e =? 34 then Some 34          (* quote *)
  else if e =? 92 then Some 92     (* backslash *)
  else if e =? 47 then Some 47     (* slash *)
  else if e =? 98 then Some 8      (* b *)
  else if e =? 102 then Some 12    (* f *)
  else if e =? 110 then Some 10    (* n *)
  else if e =? 114 then Some 13    (* r *)
  else if e =? 116 then Some 9     (* t *)
  else None.

(** The body of a string literal, after its opening quote: the decoded
    text and what follows the closing quote.  [None] is the decoder's
    error (unterminated string, control character, invalid escape). *)
Fixpoint scanstring_aux (fuel : nat) (acc s : str) : option (str * str) :=
  match fuel with
  | O => None
  | S f =>
      match s with
      | [] => None
      | c :: r =>
          if c =? 34 then Some (rev acc, r)
          else if c =? 92 then
            match r with
            | [] => None
            | e :: r1 =>
                if e =? 117 then
                  match hex4 r1 with
                  | None => None
                  | Some (c1, r2) =>
                      if is_high_surrogate c1 then
                        match r2 with
                        | a :: b :: r3 =>
                            if (a =? 92) && (b =? 117) then
                              match hex4 r3 with
                              | None => None
                              | Some (c2, r4) =>
                                  if is_low_surrogate c2
                                  then scanstring_aux f
                                         (join_surrogates c1 c2 :: acc) r4
                                  else scanstring_aux f (c1 :: acc) r2
                              end
                            else scanstring_aux f (c1 :: acc) r2
                        | _ => scanstring_aux f (c1 :: acc) r2
                        end
                      else scanstring_aux f (c1 :: acc) r2
                  end
                else
                  match unescape e with
                  | Some x => scanstring_aux f (x :: acc) r1
                  | None => None
                  end
            end
          else if c <? 32 then None
          else scanstring_aux f (c :: acc) r
      end
  end.

Definition scanstring (s : str) : option (str * str) :=
  scanstring_aux (S (length s)) [] s.

(** The longest prefix of digits and the rest. *)
Fixpoint span_digits (s : str) : str * str :=
  match s with
  | c :: r =>
      if is_digit c then let '(ds, r') := span_digits r in (c :: ds, r')
      else ([], s)
  | [] => ([], [])
  end.

(** A number: optional minus, integer part without leading zero, optional
    fraction, optional exponent; a fraction or exponent that lacks its
    digits is left unread. *)
Definition match_number (s : str) : option (str * str) :=
  let '(sign, s1) :=
    match s with
    | c :: r => if c =? 45 then ([45], r) else ([], s)
    | [] => ([], s)
    end in
  match s1 with
  | [] => None
  | c :: r =>
      let int_part :=
        if (49 <=? c) && (c <=? 57)
        then let '(ds, r') := span_digits r in Some (sign ++ c :: ds, r')
        else if c =? 48 then Some (sign ++ [48], r)
        else None in
      match int_part with
      | None => None
      | Some (lex, rest) =>
          let '(lex1, rest1) :=
            match rest with
            | dot :: d :: r' =>
                if (dot =? 46) && is_digit d
                then let '(ds, r'') := span_digits r' in
                     (lex ++ 46 :: d :: ds, r'')
                else (lex, rest)
            | _ => (lex, rest)
            end in
          match rest1 with
          | e :: r' =>
              if (e =? 101) || (e =? 69) then
                let '(sg, r1) :=
                  match r' with
                  | x :: r'' =>
                      if (x =? 45) || (x =? 43) then ([x], r'') else ([], r')
                  | [] => ([], r')
                  end in
                match span_digits r1 with
                | ([], _) => Some (lex1, rest1)
                | (ds, r2) => Some (lex1 ++ e :: sg ++ ds, r2)
                end
              else Some (lex1, rest1)
          | [] => Some (lex1, rest1)
          end
      end
  end.

(** What stops the decoder: a text that is not JSON
    ([json.JSONDecodeError]); an integer literal that [int] refuses for
    its number of digits ([ValueError]); the recursion depth of the
    interpreter ([RecursionError]). *)
Inductive failure : Type :=
| Malformed
| IntegerTooLong (digits : nat)
| TooDeep.

Inductive result (A : Type) : Type :=
| Ok (a : A)
| Error (f : failure).
Arguments Ok {A} a.
Arguments Error {A} f.

(** The digits of an integer literal; [None] for a literal with a
    fraction or an exponent, which the scanner converts with [float]. *)
Definition integer_digits (lexeme : str) : option nat :=
  if forallb (fun c => is_digit c || (c =? 45)) lexeme
  then Some (length (List.filter is_digit lexeme))
  else None.

(** [int(lexeme)] refuses a literal of more than [max_digits] digits when
    this limit is set; a literal of at most 640 digits is converted
    whatever the limit. *)
Definition exceeds_int_limit (max_digits digits : nat) : bool :=
  (640 <? digits)%nat && (0 <? max_digits)%nat && (max_digits <? digits)%nat.

(** The conversion of a number literal once it is matched. *)
Definition number_value (max_digits : nat) (lexeme rest : str)
    : result (value * str) :=
  match integer_digits lexeme with
  | Some digits =>
      if exceeds_int_limit max_digits digits
      then Error (IntegerTooLong digits)
      else Ok (JNumber lexeme, rest)
  | None => Ok (JNumber lexeme, rest)
  end.

(** The elements of an array after the first position, [scan] reading one
    value. *)
Fixpoint array_items (fuel : nat) (scan : str -> result (value * str))
    (acc : list value) (s : str) : result (value * str) :=
  match fuel with
  | O => Error Malformed
  | S f =>
      match scan s with
      | Error e => Error e
      | Ok (v, r) =>
          match skip_ws r with
          | c :: r1 =>
              if c =? 93 then Ok (JArray (rev (v :: acc)), r1)
              else if c =? 44 then array_items f scan (v :: acc) (skip_ws r1)
              else Error Malformed
          | [] => Error Malformed
          end
      end
  end.

(** The members of an object, positioned on the quote of a key. *)
Fixpoint object_members (fuel : nat) (scan : str -> result (value * str))
    (acc : list (str * value)) (s : str) : result (value * str) :=
  match fuel with
  | O => Error Malformed
  | S f =>
      match s with
      | q :: r =>
          if q =? 34 then
            match scanstring r with
            | None => Error Malformed
            | Some (k, r1) =>
                match skip_ws r1 with
                | colon :: r2 =>
                    if colon =? 58 then
                      match scan (skip_ws r2) with
                      | Error e => Error e
                      | Ok (v, r3) =>
                          match skip_ws r3 with
                          | c :: r4 =>
                              if c =? 125
                              then Ok (JObject (dict_set k v acc), r4)
                              else if c =? 44
                              then object_members f scan (dict_set k v acc)
                                     (skip_ws r4)
                              else Error Malformed
                          | [] => Error Malformed
                          end
                      end
                    else Error Malformed
                | [] => Error Malformed
                end
            end
          else Error Malformed
      | [] => Error Malformed
      end
  end.

(** One JSON value at the head of [s]; the text is read from left to
    right and the first failure met is the result. *)
Fixpoint scan_once (max_digits : nat) (fuel : nat) (s : str)
    : result (value * str) :=
  match fuel with
  | O => Error Malformed
  | S f =>
      match s with
      | [] => Error Malformed
      | c :: r =>
          if c =? 34 then
            match scanstring r with
            | Some (x, r') => Ok (JString x, r')
            | None => Error Malformed
            end
          else if c =? 123 then
            match skip_ws r with
            | c0 :: r' =>
                if c0 =? 125 then Ok (JObject [], r')
                else object_members f (scan_once max_digits f) [] (c0 :: r')
            | [] => Error Malformed
            end
          else if c =? 91 then
            match skip_ws r with
            | c0 :: r' =>
                if c0 =? 93 then Ok (JArray [], r')
                else array_items f (scan_once max_digits f) [] (c0 :: r')
            | [] => Error Malformed
            end
          else if startswith (py "null") s then Ok (JNull, drop 4 s)
          else if startswith (py "true") s then Ok (JBool true, drop 4 s)
          else if startswith (py "false") s then Ok (JBool false, drop 5 s)
          else if startswith (py "NaN") s then Ok (JNumber (py "NaN"), drop 3 s)
          else if startswith (py "Infinity") s
               then Ok (JNumber (py "Infinity"), drop 8 s)
          else if startswith (py "-Infinity") s
               then Ok (JNumber (py "-Infinity"), drop 9 s)
          else
            match match_number s with
            | Some (lex, r') => number_value max_digits lex r'
            | None => Error Malformed
            end
      end
  end.

(** The decoder when the interpreter has the depth it needs.
    [Malformed]: a text that starts with a byte-order mark, no value at
    the start, or something other than white space after the value.  The
    counter given to [scan_once] exceeds the length of the text, which is
    enough ([loads_fuel_independent] below). *)
Definition decode (max_digits : nat) (s : str) : result value :=
  if startswith [65279] s then Error Malformed
  else
    match scan_once max_digits (S (length s)) (skip_ws s) with
    | Ok (v, r) =>
        match skip_ws r with
        | [] => Ok v
        | _ => Error Malformed
        end
    | Error e => Error e
    end.

(** [json.loads(s)] on the interpreter [interp]. *)
Definition loads (interp : interpreter) (s : str) : result value :=
  if exhausts_recursion interp s then Error TooDeep
  else decode (int_max_str_digits interp) s.

(** ** Encoding: [json.dumps(obj, indent=2)] (with [ensure_ascii]) *)

Definition hex_digit (d : N) : N := if d <? 10 then 48 + d else 87 + d.

(** [\uXXXX] with four lower-case hexadecimal digits. *)
Definition u_escape (c : N) : str :=
  [92; 117; hex_digit (c / 4096 mod 16); hex_digit (c / 256 mod 16);
   hex_digit (c / 16 mod 16); hex_digit (c mod 16)].

Definition escape_char (c : N) : str :=
  if c =? 34 then [92; 34]
  else if c =? 92 then [92; 92]
  else if c =? 10 then [92; 110]
  else if c =? 13 then [92; 114]
  else if c =? 9 then [92; 116]
  else if c =? 8 then [92; 98]
  else if c =? 12 then [92; 102]
  else if (32 <=? c) && (c <=? 126) then [c]
  else if c <? 65536 then u_escape c
  else u_escape (55296 + ((c - 65536) / 1024 mod 1024))
       ++ u_escape (56320 + ((c - 65536) mod 1024)).

Definition encode_string (s : str) : str :=
  [34] ++ concat (map escape_char s) ++ [34].

(** A line feed followed by the indentation of [level]. *)
Definition newline_indent (level : nat) : str :=
  10 :: repeat 32 (2 * level)%nat.

Fixpoint encode (level : nat) (v : value) : str :=
  match v with
  | JNull => py "null"
  | JBool true => py "true"
  | JBool false => py "false"
  | JNumber lex => lex
  | JString s => encode_string s
  | JArray [] => py "[]"
  | JArray items =>
      py "[" ++ newline_indent (S level)
      ++ join (py "," ++ newline_indent (S level)) (map (encode (S level)) items)
      ++ newline_indent level ++ py "]"
  | JObject [] => py "{}"
  | JObject members =>
      py "{" ++ newline_indent (S level)
      ++ join (py "," ++ newline_indent (S level))
           (map (fun kv => encode_string (fst kv) ++ py ": "
                           ++ encode (S level) (snd kv)) members)
      ++ newline_indent level ++ py "}"
  end.

Definition dumps_indent2 (v : value) : str := encode 0 v.

End Json.

Import Json.

(* ===================================================================== *)
(** * Effects of the scripts *)
(* ===================================================================== *)

Module Runtime.

(** The exceptions the scripts can meet.  [APIError] is any failure of a
    call to the hosted model (network, authentication, quota). *)
Inductive exn : Type :=
| JSONDecodeError
| ValueError (msg : str)
| IndexError
| KeyError (key : str)
| TypeError
| AttributeError (name : str)
| ZeroDivisionError
| FileNotFoundError (path : str)
| RecursionError
| APIError (detail : str).

(** [except (json.JSONDecodeError, ValueError)]: [RecursionError] derives
    from [RuntimeError] and is not caught by this clause. *)
Definition is_json_or_value_error (e : exn) : bool :=
  match e with
  | JSONDecodeError | ValueError _ => true
  | _ => false
  end.

(** [except Exception]: every exception above derives from [Exception]. *)
Definition is_exception (e : exn) : bool := true.

Inductive outcome (A : Type) : Type :=
| Return (a : A)
| Raise (e : exn).
Arguments Return {A} a.
Arguments Raise {A} e.

(** One message of a chat request. *)
Record message : Type := Message { role : str; content : str }.

(** A call to the hosted model: the chat-completions endpoint of the
    OpenAI client, or one call of a DSPy [Predict] module. *)
Inductive request : Type :=
| ChatCompletion (model : str) (messages : list message)
    (temperature : Q) (max_tokens : nat)
| DspyPredict (lm : str) (signature : str) (input : str).

(** What the scripts print.  The wording of each line is fixed by the
    constructor; wall-clock durations are not part of the model. *)
Inductive line : Type :=
| FailedToParseJSON (category : str) (e : exn)
| RawOutput (raw : str)
| FallbackExtracted (n : nat)
| GeneratedTotal (n : nat)
| TrainingFileExists
| ErrorProcessingExample (e : exn)
| ReportFunction (name : str)
| ReportDspyModel (name : str)
| ReportAccuracy (accuracy : Q)
| ReportElapsed
| BlankLine.

(** The state the scripts act on: the files of the working directory,
    the console, and the calls made to the hosted model so far. *)
Record world : Type := World {
  fs : gmap str str;
  stdout : list line;
  lm_log : list request
}.

Definition set_fs (f : gmap str str) (w : world) : world :=
  World f (stdout w) (lm_log w).
Definition add_stdout (l : line) (w : world) : world :=
  World (fs w) (stdout w ++ [l]) (lm_log w).
Definition add_lm_log (r : request) (w : world) : world :=
  World (fs w) (stdout w) (lm_log w ++ [r]).

(** A computation: from a state to an outcome and the state it leaves. *)
Definition M (A : Type) : Type := world -> outcome A * world.

Definition ret {A} (a : A) : M A := fun w => (Return a, w).

Definition raise {A} (e : exn) : M A := fun w => (Raise e, w).

Definition bind {A B} (m : M A) (k : A -> M B) : M B :=
  fun w =>
    match m w with
    | (Return a, w') => k a w'
    | (Raise e, w') => (Raise e, w')
    end.

(** [try: m  except <handles> as e: handler e]; what [m] did before it
    raised stays done. *)
Definition try_except {A} (m : M A) (handles : exn -> bool)
    (handler : exn -> M A) : M A :=
  fun w =>
    match m w with
    | (Return a, w') => (Return a, w')
    | (Raise e, w') => if handles e then handler e w' else (Raise e, w')
    end.

Definition lift {A} (o : outcome A) : M A := fun w => (o, w).

Declare Scope py_scope.
Delimit Scope py_scope with py.
Notation "'let*' x ':=' m 'in' k" := (bind m (fun x => k))
  (at level 10, x name, m at level 100, k at level 200) : py_scope.
Notation "m '>>' k" := (bind m (fun _ => k))
  (at level 100, k at level 200, right associativity) : py_scope.
Local Open Scope py_scope.

(** [for x in l: acc = body acc x] with the variables the loop updates as
    the accumulator. *)
Fixpoint for_each {A S} (l : list A) (body : S -> A -> M S) (acc : S) : M S :=
  match l with
  | [] => ret acc
  | x :: rest => let* acc' := body acc x in for_each rest body acc'
  end.

Definition print (l : line) : M unit := fun w => (Return tt, add_stdout l w).

(** [os.path.exists(path)] *)
Definition os_path_exists (path : str) : M bool :=
  fun w => (Return (bool_decide (is_Some (fs w !! path))), w).

(** [open(path).read()] *)
Definition read_file (path : str) : M str :=
  fun w =>
    match fs w !! path with
    | Some text => (Return text, w)
    | None => (Raise (FileNotFoundError path), w)
    end.

(** [open(path, "w").write(text)] *)
Definition write_file (path text : str) : M unit :=
  fun w => (Return tt, set_fs (<[path := text]> (fs w)) w).

(** The message of the [ValueError] that [int] raises for a literal of
    too many digits. *)
Definition int_digits_message (interp : interpreter) (digits : nat) : str :=
  py "Exceeds the limit (" ++ str_of_nat (int_max_str_digits interp)
  ++ py " digits) for integer string conversion: value has "
  ++ str_of_nat digits
  ++ py " digits; use sys.set_int_max_str_digits() to increase the limit".

(** [json.loads] as the scripts see it: the value, or the exception of
    the first failure met. *)
Definition json_loads (interp : interpreter) (text : str) : outcome value :=
  match Json.loads interp text with
  | Ok v => Return v
  | Error Malformed => Raise JSONDecodeError
  | Error (IntegerTooLong digits) =>
      Raise (ValueError (int_digits_message interp digits))
  | Error TooDeep => Raise RecursionError
  end.

(** [json.load(open(path))] *)
Definition json_load (interp : interpreter) (path : str) : M value :=
  let* text := read_file path in lift (json_loads interp text).

(** [json.dump(v, open(path, "w"), indent=2)] *)
Definition json_dump (v : value) (path : str) : M unit :=
  write_file path (dumps_indent2 v).

(** [d[key]] on a dict with string values. *)
Definition getitem (d : list (str * str)) (key : str) : M str :=
  match dict_get key d with
  | Some v => ret v
  | None => raise (KeyError key)
  end.

(** [a / b] on integers: the exact quotient (of which Python's float is
    the rounding), [ZeroDivisionError] when [b] is zero. *)
Definition true_divide (a b : nat) : M Q :=
  match b with
  | O => raise ZeroDivisionError
  | S _ => ret (Qmake (Z.of_nat a) (Pos.of_nat b))
  end.

Section Service.

(** The hosted model: what the [n]-th call answers to a request, a text
    or a failure.  Nothing is assumed about it. *)
Variable service : nat -> request -> outcome str.

(** One call: [client.chat.completions.create(...)] followed by
    [.choices[0].message.content], or one call of a DSPy module.  The
    call is recorded whether it succeeds or not. *)
Definition call_lm (r : request) : M str :=
  fun w => (service (length (lm_log w)) r, add_lm_log r w).

End Service.

End Runtime.

Import Runtime.
Local Open Scope py_scope.

(* ===================================================================== *)
(** * prompt_engineering.py *)
(* ===================================================================== *)

Module PromptEngineering.

Definition EVENT_CATEGORIES : list str :=
  [py "Wars"; py "Politics"; py "Science"; py "Culture"].

Definition TRAINING_MODEL_NAME : str := py "gpt-4o".
Definition TRAINING_MODEL_TEMPERATURE : Q := Qmake 7 10.
Definition TRAINING_MAX_RESPONSE_TOKENS : nat := 300.

(** [TRAINSET_PROMPT_TEMPLATE.format(...)], before [.strip()]. *)
Definition TRAINSET_PROMPT_TEMPLATE (number_of_examples : nat)
    (category_label : str) : str :=
  py "
You are a dataset-generation assistant.
Produce exactly " ++ str_of_nat number_of_examples
  ++ py " short, realistic historical
event descriptions that clearly belong to the category: " ++ category_label
  ++ py ".

Return ONLY a valid JSON array of strings, nothing else. Example format:
[" ++ [dq] ++ py "Event one description" ++ [dq] ++ py ", "
  ++ [dq] ++ py "Event two description" ++ [dq] ++ py ", "
  ++ [dq] ++ py "Event three description" ++ [dq] ++ py "]

Do not include any other text, explanations, or formatting - just the JSON array.
".

Definition TRAINSET_SYSTEM_MESSAGE : str :=
  py "You generate high-quality synthetic data. Always respond with valid JSON arrays only.".

(** [isinstance(v, str)], with the string when it is one. *)
Definition as_str (v : value) : option str :=
  match v with
  | JString s => Some s
  | _ => None
  end.

(** The [try] block of [generate_events_for_category]: decode the reply
    and check that it is a list of strings. *)
Definition decode_events (interp : interpreter) (raw_output : str)
    : outcome (list str) :=
  match json_loads interp raw_output with
  | Raise e => Raise e
  | Return (JArray items) =>
      match mapM as_str items with
      | Some events_list => Return events_list
      | None => Raise (ValueError (py "Not all items are strings"))
      end
  | Return _ => Raise (ValueError (py "Response is not a list"))
  end.

(** The characters of [line.lstrip("-*• ")]; the bullet is U+2022. *)
Definition BULLET_CHARS : str := [45; 42; 8226; 32].

Definition SKIPPED_PREFIXES : list str :=
  [py "["; py "]"; py "{"; py "}"; dq :: py "number_"; dq :: py "category_"].

Definition SKIPPED_SUFFIXES : list str := [py ","; [dq]].

(** The fallback loop over the lines of the reply; [events_list] is the
    list the loop appends to. *)
Fixpoint fallback_loop (lines : list str) (events_list : list str) : list str :=
  match lines with
  | [] => events_list
  | line :: rest =>
      let line := strip line in
      let line := strip (lstrip_chars BULLET_CHARS line) in
      if (10 <? length line)%nat
         && negb (startswith_any SKIPPED_PREFIXES line)
         && negb (endswith_any SKIPPED_SUFFIXES line)
      then
        let line :=
          if startswith [dq] line && endswith [dq] line
          then slice_1_m1 line
          else line in
        fallback_loop rest (events_list ++ [line])
      else fallback_loop rest events_list
  end.

Definition CLASSIFICATION_MODEL_NAME : str := py "gpt-4o-mini".
Definition CLASSIFICATION_MODEL_TEMPERATURE : Q := Qmake 0 1.
Definition CLASSIFICATION_MAX_RESPONSE_TOKENS : nat := 50.

(** [BASELINE_PROMPT_TEMPLATE.format(labels=..., event_text=...)] *)
Definition BASELINE_PROMPT_TEMPLATE (labels event_text : str) : str :=
  py "
You are a historical-event classifier.
Allowed labels: " ++ labels ++ py "

TASK:
Given the event description below, respond with **only** the correct label.

EVENT DESCRIPTION:
" ++ event_text ++ py "

RESPONSE FORMAT:
One word: the exact label from the allowed labels.
".

(** [COT_PROMPT_TEMPLATE.format(labels=..., event_text=...)] *)
Definition COT_PROMPT_TEMPLATE (labels event_text : str) : str :=
  py "
You are a historical-event classifier.
Allowed labels: " ++ labels ++ py "

TASK:
Given the event description below, respond with **only** the correct label.

EVENT DESCRIPTION:
" ++ event_text ++ py "

YOUR REASONING:
First, think step by step about the key facts.
1. ...
2. ...
3. ...

Then, at the end, respond with the single label from the allowed labels.

RESPONSE FORMAT:
One word: the exact label from the allowed labels.
".

(** [for label in EVENT_CATEGORIES: if label in raw_reply: return label] *)
Fixpoint first_label_in (labels : list str) (raw_reply : str) : option str :=
  match labels with
  | [] => None
  | label :: rest =>
      if contains label raw_reply then Some label
      else first_label_in rest raw_reply
  end.

(** [EVENT_CATEGORIES[0]] *)
Definition first_category : str :=
  match EVENT_CATEGORIES with
  | label :: _ => label
  | [] => []
  end.

(** A function passed to the evaluator: its [__name__] and its body. *)
Record classifier : Type := Classifier {
  fn_name : str;
  fn_call : str -> M str
}.

(** The dataset file and the number of examples asked per category. *)
Definition DATASET_PATH : str := py "labeled_event_examples.json".
Definition examples_per_category : nat := 15.

(** A labeled example as the script builds it:
    [{"event": ..., "category": ...}]. *)
Definition example_dict (event_description label : str) : list (str * str) :=
  [(py "event", event_description); (py "category", label)].

(** A list of such dicts as the JSON document [json.dump] writes. *)
Definition json_of_examples (examples : list (list (str * str))) : value :=
  JArray (map (fun d => JObject (map (fun kv => (fst kv, JString (snd kv))) d))
              examples).

(** The request [generate_events_for_category] sends: the prompt built
    from the template and stripped, after a fixed system message. *)
Definition trainset_request (category_label : str)
    (number_of_examples : nat) : request :=
  let prompt :=
    strip (TRAINSET_PROMPT_TEMPLATE number_of_examples category_label) in
  ChatCompletion TRAINING_MODEL_NAME
    [Message (py "system") TRAINSET_SYSTEM_MESSAGE;
     Message (py "user") prompt]
    TRAINING_MODEL_TEMPERATURE TRAINING_MAX_RESPONSE_TOKENS.

(** The request of [classify_with_baseline_prompt]. *)
Definition baseline_request (event_text : str) : request :=
  let prompt :=
    strip (BASELINE_PROMPT_TEMPLATE (join (py ", ") EVENT_CATEGORIES)
             event_text) in
  ChatCompletion CLASSIFICATION_MODEL_NAME [Message (py "user") prompt]
    CLASSIFICATION_MODEL_TEMPERATURE CLASSIFICATION_MAX_RESPONSE_TOKENS.

(** The request of [classify_with_chain_of_thought]. *)
Definition cot_request (event_text : str) : request :=
  let prompt :=
    strip (COT_PROMPT_TEMPLATE (join (py ", ") EVENT_CATEGORIES) event_text) in
  ChatCompletion CLASSIFICATION_MODEL_NAME [Message (py "user") prompt]
    CLASSIFICATION_MODEL_TEMPERATURE CLASSIFICATION_MAX_RESPONSE_TOKENS.

Section Service.

(** The interpreter that runs the script, and the hosted model. *)
Variable interp : interpreter.
Variable service : nat -> request -> outcome str.

Definition generate_events_for_category (category_label : str)
    (number_of_examples : nat) : M (list str) :=
  let* response :=
    call_lm service (trainset_request category_label number_of_examples) in
  let raw_output := strip response in
  try_except
    (lift (decode_events interp raw_output))
    is_json_or_value_error
    (fun e =>
       print (FailedToParseJSON category_label e) >>
       print (RawOutput raw_output) >>
       let events_list := fallback_loop (splitlines raw_output) [] in
       print (FallbackExtracted (length events_list)) >>
       ret events_list).

(** Section 1c of the script: build the training set and save it, unless
    the file is already there.  The result is [training_examples]. *)
Definition build_training_examples : M (list (list (str * str))) :=
  let training_examples := [] in
  let* present := os_path_exists DATASET_PATH in
  if negb present then
    let* training_examples :=
      for_each EVENT_CATEGORIES
        (fun training_examples label =>
           let* generated_events :=
             generate_events_for_category label examples_per_category in
           ret (training_examples
                ++ map (fun event_description =>
                          example_dict event_description label)
                       generated_events))
        training_examples in
    print (GeneratedTotal (length training_examples)) >>
    json_dump (json_of_examples training_examples) DATASET_PATH >>
    ret training_examples
  else
    print TrainingFileExists >>
    ret training_examples.

(** Section 5 of the script reads the file back:
    [labeled_event_examples = json.load(open(...))]. *)
Definition load_labeled_event_examples : M value :=
  json_load interp DATASET_PATH.

(** Sections 1c and 5 in sequence: the dataset one run of the script
    works with. *)
Definition materialize_dataset : M value :=
  build_training_examples >> load_labeled_event_examples.

Definition classify_with_baseline_prompt (event_text : str) : M str :=
  let* response := call_lm service (baseline_request event_text) in
  let raw_reply := strip response in
  match split raw_reply with
  | predicted_label :: _ => ret predicted_label
  | [] => raise IndexError
  end.

Definition classify_with_chain_of_thought (event_text : str) : M str :=
  let* response := call_lm service (cot_request event_text) in
  let raw_reply := strip response in
  match first_label_in EVENT_CATEGORIES raw_reply with
  | Some label => ret label
  | None =>
      let words := split raw_reply in
      match last_item words with
      | Some w =>
          let last_word := strip_chars (py ".,!?") w in
          if str_in_list last_word EVENT_CATEGORIES then ret last_word
          else ret first_category
      | None => ret first_category
      end
  end.

End Service.

(** The loop of [evaluate_classification_function]: no handler around
    the call of [classify_fn]. *)
Definition loop_body (classify_fn : classifier) (correct_predictions : nat)
    (example : list (str * str)) : M nat :=
  let* event_description := getitem example (py "event") in
  let* true_label := getitem example (py "category") in
  let* predicted_label := fn_call classify_fn event_description in
  if bool_decide (predicted_label = true_label)
  then ret (S correct_predictions)
  else ret correct_predictions.

Definition count_correct (classify_fn : classifier)
    (examples : list (list (str * str))) : M nat :=
  for_each examples (loop_body classify_fn) O.

Definition evaluate_classification_function (classify_fn : classifier)
    (examples : list (list (str * str))) : M unit :=
  let total_examples := length examples in
  let* correct_predictions := count_correct classify_fn examples in
  let* accuracy := true_divide correct_predictions total_examples in
  print (ReportFunction (fn_name classify_fn)) >>
  print (ReportAccuracy accuracy) >>
  print ReportElapsed >>
  print BlankLine.

End PromptEngineering.

(* ===================================================================== *)
(** * dspy_example.py *)
(* ===================================================================== *)

Module Dspy.

(** A [dspy.Example]: its fields in the order given, and the names
    marked as inputs by [with_inputs]. *)
Record Example : Type := MkExample {
  store : list (str * value);
  input_keys : list str
}.

(** What a DSPy module returns for the [EventClassify] signature. *)
Record Prediction : Type := MkPrediction { category : str }.

Definition DATASET_PATH : str := py "labeled_event_examples.json".
Definition GENERATOR_LM : str := py "openai/gpt-4o".
Definition GENERATOR_SIGNATURE : str := py "category -> synthetic_event".
Definition CATEGORIES : list str :=
  [py "Wars"; py "Politics"; py "Science"; py "Culture"].

(** [dspy.Example] built from the dict [ex] by keyword unpacking, then
    [.with_inputs("event")]: [ex] has to be a dict.  The constructor
    takes a first parameter named [base] before its keyword arguments: a
    key of this name is taken as this parameter, and the store starts as
    a copy of it when it is a dict that is not empty; the other keys are
    then written to the store in their order. *)
Definition example_of_json (ex : value) : outcome Example :=
  match ex with
  | JObject members =>
      let base :=
        match dict_get (py "base") members with
        | Some (JObject entries) => entries
        | _ => []
        end in
      let kwargs :=
        List.filter (fun kv => negb (bool_decide (fst kv = py "base")))
          members in
      Return (MkExample
                (fold_left (fun store kv => dict_set (fst kv) (snd kv) store)
                   kwargs base)
                [py "event"])
  | _ => Raise TypeError
  end.

(** [[f(ex) for ex in items]]: the first failure ends the comprehension. *)
Fixpoint comprehension {A B} (f : A -> outcome B) (items : list A)
    : outcome (list B) :=
  match items with
  | [] => Return []
  | x :: rest =>
      match f x with
      | Raise e => Raise e
      | Return y =>
          match comprehension f rest with
          | Raise e => Raise e
          | Return ys => Return (y :: ys)
          end
      end
  end.

(** The list comprehension over [data] that builds one example per
    element.  Iterating a dict gives its keys and iterating a string its
    characters, neither of which can be unpacked as keyword arguments; a
    number, a boolean or [None] cannot be iterated. *)
Definition examples_of_data (data : value) : outcome (list Example) :=
  match data with
  | JArray items => comprehension example_of_json items
  | JObject [] => Return []
  | JString [] => Return []
  | _ => Raise TypeError
  end.

(** [ex.event], [ex.category]: a field of an example. *)
Definition field (ex : Example) (name : str) : M value :=
  match dict_get name (store ex) with
  | Some v => ret v
  | None => raise (AttributeError name)
  end.

(** The quality metric handed to the optimizer:
    [pred.category == example.category]. *)
Definition accuracy (example : Example) (pred : Prediction) : M bool :=
  let* expected := field example (py "category") in
  ret (match expected with
       | JString label => bool_decide (category pred = label)
       | _ => false
       end).

Section Service.

Variable interp : interpreter.
Variable service : nat -> request -> outcome str.

(** [generator(category=cat).synthetic_event] *)
Definition generator (cat : str) : M str :=
  call_lm service (DspyPredict GENERATOR_LM GENERATOR_SIGNATURE cat).

Definition generate_trainset : M (list Example) :=
  let* present := os_path_exists DATASET_PATH in
  if present then
    let* data := json_load interp DATASET_PATH in
    lift (examples_of_data data)
  else
    let* trainset :=
      for_each CATEGORIES
        (fun trainset cat =>
           for_each (seq 0 15)
             (fun trainset _ =>
                let* ev := generator cat in
                ret (trainset
                     ++ [MkExample [(py "event", JString ev);
                                    (py "category", JString cat)]
                                   [py "event"]]))
             trainset)
        [] in
    let* rows :=
      for_each trainset
        (fun rows ex =>
           let* event := field ex (py "event") in
           let* cat := field ex (py "category") in
           ret (rows ++ [JObject [(py "event", event); (py "category", cat)]]))
        [] in
    json_dump (JArray rows) DATASET_PATH >>
    ret trainset.

End Service.

(** The loop of [evaluate_dspy_model]: every exception raised while an
    example is processed is printed and the loop goes on. *)
Definition try_example (model : str -> M Prediction) (correct : nat)
    (example : list (str * str)) : M nat :=
  let* event := getitem example (py "event") in
  let* pred := model event in
  let* expected := getitem example (py "category") in
  if bool_decide (category pred = expected)
  then ret (S correct)
  else ret correct.

Definition loop_body (model : str -> M Prediction) (correct : nat)
    (example : list (str * str)) : M nat :=
  try_except (try_example model correct example)
    is_exception
    (fun e => print (ErrorProcessingExample e) >> ret correct).

Definition count_correct (model : str -> M Prediction)
    (test_data : list (list (str * str))) : M nat :=
  for_each test_data (loop_body model) O.

Definition evaluate_dspy_model (model : str -> M Prediction)
    (test_data : list (list (str * str))) (model_name : str) : M Q :=
  let total := length test_data in
  let* correct := count_correct model test_data in
  let* accuracy := true_divide correct total in
  print (ReportDspyModel model_name) >>
  print (ReportAccuracy accuracy) >>
  print ReportElapsed >>
  print BlankLine >>
  ret accuracy.

End Dspy.

(* ===================================================================== *)
(** * The fallback loop, line by line *)
(* ===================================================================== *)

Module FallbackView.

Import PromptEngineering.

(** The two assignments at the head of the loop body. *)
Definition clean_line (line : str) : str :=
  strip (lstrip_chars BULLET_CHARS (strip line)).

(** The condition of the loop body on a cleaned line. *)
Definition is_kept (line : str) : bool :=
  (10 <? length line)%nat
  && negb (startswith_any SKIPPED_PREFIXES line)
  && negb (endswith_any SKIPPED_SUFFIXES line).

(** A line wrapped in double quotes, the case the loop means to unwrap. *)
Definition is_quoted (line : str) : bool :=
  startswith [dq] line && endswith [dq] line.

End FallbackView.

(* ===================================================================== *)
(** * The evaluation loop on a classifier without effects *)
(* ===================================================================== *)

Module EvaluatorView.

(** A DSPy module whose answer depends on the event alone and that
    leaves the state as it is. *)
Definition stateless_module (f : str -> outcome str) (event : str)
    : M Dspy.Prediction :=
  fun w =>
    (match f event with
     | Return label => Return (Dspy.MkPrediction label)
     | Raise e => Raise e
     end, w).

(** What processing one example comes to with such a module: the result
    of the comparison, or the exception met on the way. *)
Definition verdict (f : str -> outcome str) (example : list (str * str))
    : outcome bool :=
  match dict_get (py "event") example with
  | None => Raise (KeyError (py "event"))
  | Some event =>
      match f event with
      | Raise e => Raise e
      | Return label =>
          match dict_get (py "category") example with
          | None => Raise (KeyError (py "category"))
          | Some expected => Return (bool_decide (label = expected))
          end
      end
  end.

Definition is_correct (f : str -> outcome str) (example : list (str * str))
    : bool :=
  match verdict f example with
  | Return true => true
  | _ => false
  end.

Definition failure_lines (f : str -> outcome str)
    (example : list (str * str)) : list line :=
  match verdict f example with
  | Raise e => [ErrorProcessingExample e]
  | Return _ => []
  end.

(** A function for [evaluate_classification_function] whose answer
    depends on the event alone and that leaves the state as it is. *)
Definition stateless_classifier (name : str) (f : str -> outcome str)
    : PromptEngineering.classifier :=
  PromptEngineering.Classifier name (fun event w => (f event, w)).

(** What one turn of the loop of [evaluate_classification_function]
    comes to with such a function: both fields are read before the
    function is called. *)
Definition pe_verdict (f : str -> outcome str) (example : list (str * str))
    : outcome bool :=
  match dict_get (py "event") example with
  | None => Raise (KeyError (py "event"))
  | Some event =>
      match dict_get (py "category") example with
      | None => Raise (KeyError (py "category"))
      | Some true_label =>
          match f event with
          | Raise e => Raise e
          | Return label => Return (bool_decide (label = true_label))
          end
      end
  end.

Definition pe_is_correct (f : str -> outcome str)
    (example : list (str * str)) : bool :=
  match pe_verdict f example with
  | Return true => true
  | _ => false
  end.

(** An example with the two fields the evaluators read. *)
Definition has_both_fields (example : list (str * str)) : Prop :=
  is_Some (dict_get (py "event") example)
  /\ is_Some (dict_get (py "category") example).

(** The [event] field of an example, [[]] without one. *)
Definition event_of (example : list (str * str)) : str :=
  default [] (dict_get (py "event") example).

(** A function for [evaluate_classification_function] that answers the
    same label to every event. *)
Definition stub (label : str) : PromptEngineering.classifier :=
  PromptEngineering.Classifier (py "stub") (fun _ => ret label).

End EvaluatorView.

(* ===================================================================== *)
(** * The dataset as a list of labeled events *)
(* ===================================================================== *)

Module DatasetView.

(** The example [generate_trainset] builds from a generated event:
    [dspy.Example(event=ev, category=cat).with_inputs("event")]. *)
Definition dspy_example (pair : str * str) : Dspy.Example :=
  Dspy.MkExample
    [(py "event", JString (fst pair)); (py "category", JString (snd pair))]
    [py "event"].

(** The dict prompt_engineering.py builds from an event and its label. *)
Definition pe_example (pair : str * str) : list (str * str) :=
  PromptEngineering.example_dict (fst pair) (snd pair).

(** The text of the dataset file for a list of (event, label) pairs. *)
Definition file_text (pairs : list (str * str)) : str :=
  dumps_indent2 (PromptEngineering.json_of_examples (map pe_example pairs)).

(** The request of one call of the generator of dspy_example.py. *)
Definition generator_request (cat : str) : request :=
  DspyPredict Dspy.GENERATOR_LM Dspy.GENERATOR_SIGNATURE cat.

(** The labels of the examples [generate_trainset] asks for, in order:
    fifteen times each category. *)
Definition requested_labels : list str :=
  flat_map (fun cat => repeat cat 15) Dspy.CATEGORIES.

(** A code point that is a Unicode scalar value: in range and not a
    surrogate. *)
Definition is_scalar (c : N) : bool :=
  (c <? 1114112) && negb ((55296 <=? c) && (c <=? 57343)).

End DatasetView.

(* ===================================================================== *)
(** * Concrete worlds and services used in the examples *)
(* ===================================================================== *)

Module Scenario.

(** The deepest nesting of brackets and braces met in a text read from
    left to right; [level] is the nesting at the head of [s]. *)
Fixpoint nesting (level deepest : nat) (s : str) : nat :=
  match s with
  | [] => deepest
  | c :: r =>
      if (c =? 91) || (c =? 123)
      then nesting (S level) (Nat.max deepest (S level)) r
      else if (c =? 93) || (c =? 125)
      then nesting (pred level) deepest r
      else nesting level deepest r
  end.

(** An interpreter with the default limit on the digits of an integer
    that runs out of recursion depth on a text with more than 990
    brackets and braces nested in one another, and on no other. *)
Definition cpython : interpreter :=
  Interpreter (fun s => (990 <? nesting 0 0 s)%nat) 4300.

(** A fresh working directory, nothing printed, no call made. *)
Definition fresh : world := World ∅ [] [].

(** A working directory that holds the dataset file with [text]. *)
Definition with_dataset (text : str) : world :=
  World {[ PromptEngineering.DATASET_PATH := text ]} [] [].

(** A model that gives the same reply to every call. *)
Definition always (reply : str) : nat -> request -> outcome str :=
  fun _ _ => Return reply.

(** A model whose first call fails in transport and which answers
    [reply] afterwards. *)
Definition fails_first (reply : str) : nat -> request -> outcome str :=
  fun n _ =>
    match n with
    | O => Raise (APIError (py "connection reset"))
    | S _ => Return reply
    end.

(** The direct variant of the classifier on a model whose first call
    fails, as a function handed to the evaluator. *)
Definition flaky_baseline : PromptEngineering.classifier :=
  PromptEngineering.Classifier (py "classify_with_baseline_prompt")
    (PromptEngineering.classify_with_baseline_prompt (fails_first (py "Science"))).

(** A DSPy module on the same model. *)
Definition flaky_module (event : str) : M Dspy.Prediction :=
  let* label :=
    call_lm (fails_first (py "Science"))
      (DspyPredict (py "openai/gpt-4o-mini") (py "event -> category") event) in
  ret (Dspy.MkPrediction label).

Definition treaty : list (str * str) :=
  PromptEngineering.example_dict (py "Treaty signed ending a war") (py "Wars").

Definition moon_landing : list (str * str) :=
  PromptEngineering.example_dict (py "First crewed landing on the Moon")
    (py "Science").

(** A bullet line whose text is wrapped in double quotes. *)
Definition quoted_bullet : str :=
  py "* " ++ [dq] ++ py "Signing of the Magna Carta in 1215" ++ [dq].

(** The JSON array that holds one empty string. *)
Definition array_of_empty_string : str := py "[" ++ [dq; dq] ++ py "]".

(** A reply that is not JSON: a heading, three bullet lines of which the
    second is too short and the third ends with a comma, and a bracket. *)
Definition bullet_reply : str :=
  py "Here are the events:
- The Battle of Hastings in 1066
* too short
* The Moon landing of 1969,
]".

(** An example that lacks its label. *)
Definition unlabeled : list (str * str) := [(py "event", py "A coup")].

(** The JSON array of two event descriptions. *)
Definition two_events : str :=
  py "[" ++ [dq] ++ py "Armistice of 1918" ++ [dq] ++ py ", "
  ++ [dq] ++ py "Fall of Constantinople" ++ [dq] ++ py "]".

(** Twelve hundred opening brackets. *)
Definition deep_reply : str := repeat 91 1200.

(** The JSON array of one integer of 4301 digits. *)
Definition long_integer_reply : str := py "[" ++ repeat 49 4301 ++ py "]".

End Scenario.

(* ===================================================================== *)
(** * Properties of the string operations *)
(* ===================================================================== *)

Section StringFacts.

Implicit Types (s r needle hay : str) (p : N -> bool).

Lemma startswith_spec needle s :
  startswith needle s = true <-> exists r, s = needle ++ r.
Proof.
  revert s. induction needle as [|a needle IH]; intros s; simpl.
  - split; [intros _; exists s; reflexivity | reflexivity].
  - destruct s as [|b s].
    + split; [discriminate | intros [r Hr]; discriminate].
    + rewrite andb_true_iff, N.eqb_eq, IH. split.
      * intros [-> [r ->]]. exists r. reflexivity.
      * intros [r Hr]. injection Hr as -> ->. split; [reflexivity | eauto].
Qed.

Lemma contains_spec needle hay :
  contains needle hay = true <-> exists a b, hay = a ++ needle ++ b.
Proof.
  induction hay as [|c hay IH]; simpl.
  - rewrite startswith_spec. split.
    + intros [r Hr]. symmetry in Hr. apply app_eq_nil in Hr as [-> _].
      exists [], []. reflexivity.
    + intros (a & b & H). symmetry in H.
      apply app_eq_nil in H as [_ H]. apply app_eq_nil in H as [-> _].
      exists []. reflexivity.
  - rewrite orb_true_iff, IH, startswith_spec. split.
    + intros [[r Hr] | (a & b & ->)].
      * exists [], r. exact Hr.
      * exists (c :: a), b. reflexivity.
    + intros (a & b & H). destruct a as [|x a].
      * left. exists b. exact H.
      * right. injection H as -> ->. eauto.
Qed.

Lemma rstrip_with_snoc p s c :
  rstrip_with p (s ++ [c]) = if p c then rstrip_with p s else s ++ [c].
Proof.
  unfold rstrip_with. rewrite rev_app_distr. simpl.
  destruct (p c); [reflexivity |].
  simpl. rewrite rev_involutive. reflexivity.
Qed.

Lemma rstrip_with_nil p : rstrip_with p [] = [].
Proof. reflexivity. Qed.

(** Stripping on the left keeps every occurrence of a needle whose first
    character is not stripped. *)
Lemma contains_lstrip p c needle hay :
  p c = false ->
  contains (c :: needle) (lstrip_with p hay) = contains (c :: needle) hay.
Proof.
  intros Hc. induction hay as [|x hay IH]; [reflexivity |].
  cbn [lstrip_with]. destruct (p x) eqn:Hx; [| reflexivity].
  rewrite IH. cbn [contains startswith].
  destruct (N.eqb_spec c x) as [-> |]; [congruence | reflexivity].
Qed.

Lemma contains_snoc needle c x hay :
  c <> x ->
  contains (needle ++ [c]) (hay ++ [x]) = contains (needle ++ [c]) hay.
Proof.
  intros Hne. apply eq_true_iff_eq. rewrite !contains_spec. split.
  - intros (a & b & H). destruct b as [|y b _] using rev_ind.
    + rewrite app_nil_r, app_assoc in H.
      apply app_inj_tail in H as [_ H]. congruence.
    + rewrite !app_assoc in H. apply app_inj_tail in H as [H _].
      exists a, b. rewrite H, !app_assoc. reflexivity.
  - intros (a & b & ->). exists a, (b ++ [x]).
    rewrite <- !app_assoc. reflexivity.
Qed.

(** Stripping on the right keeps every occurrence of a needle whose last
    character is not stripped. *)
Lemma contains_rstrip p c needle hay :
  p c = false ->
  contains (needle ++ [c]) (rstrip_with p hay) = contains (needle ++ [c]) hay.
Proof.
  intros Hc. induction hay as [|x hay IH] using rev_ind; [reflexivity |].
  rewrite rstrip_with_snoc. destruct (p x) eqn:Hx; [| reflexivity].
  rewrite IH. symmetry. apply contains_snoc. congruence.
Qed.

(** [label in reply.strip()] is [label in reply] for a word that neither
    starts nor ends with white space. *)
Lemma contains_strip c needle d hay :
  isspace c = false -> isspace d = false ->
  contains (c :: needle ++ [d]) (strip hay) = contains (c :: needle ++ [d]) hay.
Proof.
  intros Hc Hd. unfold strip, strip_with.
  change (c :: needle ++ [d]) with ((c :: needle) ++ [d]).
  rewrite contains_rstrip by exact Hd.
  change ((c :: needle) ++ [d]) with (c :: (needle ++ [d])).
  apply contains_lstrip. exact Hc.
Qed.

Lemma split_aux_snoc_space cur s c :
  isspace c = true -> split_aux cur (s ++ [c]) = split_aux cur s.
Proof.
  intros Hc. revert cur. induction s as [|x s IH]; intros cur; simpl.
  - rewrite Hc. destruct cur; reflexivity.
  - destruct (isspace x); [destruct cur |]; rewrite ?IH; reflexivity.
Qed.

Lemma split_lstrip s : split (lstrip_with isspace s) = split s.
Proof.
  unfold split. induction s as [|c s IH]; [reflexivity |].
  cbn [lstrip_with split_aux]. destruct (isspace c) eqn:Hc; [exact IH |].
  cbn [split_aux]. rewrite Hc. reflexivity.
Qed.

Lemma split_rstrip s : split (rstrip_with isspace s) = split s.
Proof.
  induction s as [|c s IH] using rev_ind; [reflexivity |].
  rewrite rstrip_with_snoc. destruct (isspace c) eqn:Hc; [| reflexivity].
  rewrite IH. unfold split. symmetry. apply split_aux_snoc_space. exact Hc.
Qed.

(** [reply.strip().split()] is [reply.split()]. *)
Lemma split_strip s : split (strip s) = split s.
Proof.
  unfold strip, strip_with. rewrite split_rstrip. apply split_lstrip.
Qed.

Lemma str_in_list_In (x : str) (l : list str) :
  str_in_list x l = true <-> In x l.
Proof.
  unfold str_in_list. rewrite existsb_exists. split.
  - intros (y & Hy & Heq). apply bool_decide_eq_true in Heq. subst. exact Hy.
  - intros H. exists x. split; [exact H | apply bool_decide_eq_true; reflexivity].
Qed.

End StringFacts.

(** The string operations and the [json] functions on a few inputs. *)

Example strip_split_demo :
  strip (py "  Wars. ") = py "Wars."
  /\ split (py "  Wars  and peace ") = [py "Wars"; py "and"; py "peace"]
  /\ strip_chars (py ".,!?") (py "Culture!?") = py "Culture".
Proof. repeat split; reflexivity. Qed.

Example splitlines_demo :
  splitlines [97; 13; 10; 98; 10; 10; 99; 10] = [[97]; [98]; []; [99]].
Proof. reflexivity. Qed.

Example loads_demo :
  Json.loads Scenario.cpython Scenario.two_events
  = Ok (JArray [JString (py "Armistice of 1918");
                JString (py "Fall of Constantinople")])
  /\ Json.loads Scenario.cpython (py "[1, true, null]")
     = Ok (JArray [JNumber (py "1"); JBool true; JNull])
  /\ Json.loads Scenario.cpython (py "[1,]") = Error Malformed
  /\ Json.loads Scenario.cpython (py "- not JSON") = Error Malformed.
Proof. repeat split; reflexivity. Qed.

(** The two failures of [json.loads] that are not errors of syntax: a
    text nested too deep for the interpreter, and an integer of more
    digits than [int] converts. *)
Example loads_limits_demo :
  json_loads Scenario.cpython Scenario.deep_reply = Raise RecursionError
  /\ json_loads Scenario.cpython Scenario.long_integer_reply
     = Raise (ValueError
                (py "Exceeds the limit (4300 digits) for integer string conversion: value has 4301 digits; use sys.set_int_max_str_digits() to increase the limit"))
  /\ json_loads Scenario.cpython (py "[" ++ repeat 49 4300 ++ py "]")
     = Return (JArray [JNumber (repeat 49 4300)])
  /\ json_loads Scenario.cpython (py "[" ++ repeat 49 4301 ++ py ".5]")
     = Return (JArray [JNumber (repeat 49 4301 ++ py ".5")]).
Proof. repeat split; vm_compute; reflexivity. Qed.

(** What [json.dump] writes for one example is read back by
    [json.loads] as the same document. *)
Example dump_load_demo :
  Json.loads Scenario.cpython
    (dumps_indent2 (PromptEngineering.json_of_examples [Scenario.treaty]))
  = Ok (PromptEngineering.json_of_examples [Scenario.treaty]).
Proof. reflexivity. Qed.

(* ===================================================================== *)
(** * The JSON decoder and its fuel *)
(* ===================================================================== *)

(** The decoder recurses on a counter.  Every value it reads is at least
    one character long, so a counter above the length of the text is
    never exhausted: the result is the same for every such counter. *)

Section JsonFuel.

Implicit Types (s r acc : str).

Lemma lstrip_with_length (p : N -> bool) s :
  (length (lstrip_with p s) <= length s)%nat.
Proof.
  induction s as [|c s IH]; cbn [lstrip_with]; [lia |].
  destruct (p c); cbn [length]; lia.
Qed.

Lemma skip_ws_length s : (length (skip_ws s) <= length s)%nat.
Proof. apply lstrip_with_length. Qed.

Lemma hex4_length s c r : hex4 s = Some (c, r) -> length s = (4 + length r)%nat.
Proof.
  unfold hex4. destruct s as [|a [|b [|x [|d t]]]]; try discriminate.
  destruct (hex_val a), (hex_val b), (hex_val x), (hex_val d);
    try discriminate.
  intros [= _ <-]. reflexivity.
Qed.

Lemma scanstring_aux_shrinks n : forall acc s x r,
  scanstring_aux n acc s = Some (x, r) -> (length r < length s)%nat.
Proof.
  induction n as [|n IH]; intros acc s x r; cbn [scanstring_aux];
    [discriminate |].
  destruct s as [|c t]; [discriminate |]. cbn [length].
  destruct (c =? 34); [intros [= _ <-]; lia |].
  destruct (c =? 92).
  - destruct t as [|e t1]; [discriminate |]. cbn [length].
    destruct (e =? 117).
    + destruct (hex4 t1) as [[c1 t2]|] eqn:Hhex; [| discriminate].
      apply hex4_length in Hhex.
      destruct (is_high_surrogate c1).
      * destruct t2 as [|a [|b t3]];
          try (intros H; apply IH in H; cbn [length] in *; lia).
        destruct ((a =? 92) && (b =? 117));
          [| intros H; apply IH in H; cbn [length] in *; lia].
        destruct (hex4 t3) as [[c2 t4]|] eqn:Hhex2; [| discriminate].
        apply hex4_length in Hhex2.
        destruct (is_low_surrogate c2); intros H; apply IH in H;
          cbn [length] in *; lia.
      * intros H; apply IH in H; lia.
    + destruct (unescape e); [| discriminate].
      intros H; apply IH in H; lia.
  - destruct (c <? 32); [discriminate |].
    intros H; apply IH in H; lia.
Qed.

Lemma scanstring_aux_fuel n : forall m acc s,
  (length s < n)%nat -> (length s < m)%nat ->
  scanstring_aux n acc s = scanstring_aux m acc s.
Proof.
  induction n as [|n IH]; intros m acc s Hn Hm; [lia |].
  destruct m as [|m]; [lia |]. cbn [scanstring_aux].
  destruct s as [|c t]; [reflexivity |]. cbn [length] in Hn, Hm.
  destruct (c =? 34); [reflexivity |].
  destruct (c =? 92).
  - destruct t as [|e t1]; [reflexivity |]. cbn [length] in Hn, Hm.
    destruct (e =? 117).
    + destruct (hex4 t1) as [[c1 t2]|] eqn:Hhex; [| reflexivity].
      apply hex4_length in Hhex.
      destruct (is_high_surrogate c1).
      * destruct t2 as [|a [|b t3]];
          try (apply IH; cbn [length] in *; lia).
        destruct ((a =? 92) && (b =? 117));
          [| apply IH; cbn [length] in *; lia].
        destruct (hex4 t3) as [[c2 t4]|] eqn:Hhex2; [| reflexivity].
        apply hex4_length in Hhex2.
        destruct (is_low_surrogate c2); apply IH; cbn [length] in *; lia.
      * apply IH; lia.
    + destruct (unescape e); [| reflexivity]. apply IH; lia.
  - destruct (c <? 32); [reflexivity |]. apply IH; lia.
Qed.

Lemma scanstring_shrinks s x r :
  scanstring s = Some (x, r) -> (length r < length s)%nat.
Proof. apply scanstring_aux_shrinks. Qed.

Lemma span_digits_length s ds r :
  span_digits s = (ds, r) -> (length r <= length s)%nat.
Proof.
  revert ds r. induction s as [|c s IH]; intros ds r; cbn [span_digits].
  - intros [= _ <-]. lia.
  - destruct (is_digit c).
    + destruct (span_digits s) as [ds' r'] eqn:Hs. intros [= _ <-].
      specialize (IH _ _ eq_refl). cbn [length]. lia.
    + intros [= _ <-]. lia.
Qed.

Lemma match_number_shrinks s lex r :
  match_number s = Some (lex, r) -> (length r < length s)%nat.
Proof.
  unfold match_number.
  set (sg := match s with
             | c :: r0 => if c =? 45 then ([45], r0) else ([], s)
             | [] => ([], s)
             end).
  assert (Hsg : (length (snd sg) <= length s)%nat).
  { subst sg. destruct s as [|c r0]; [cbn; lia |].
    destruct (c =? 45); cbn [snd length]; lia. }
  destruct sg as [sign s1]. cbn [snd] in Hsg.
  destruct s1 as [|c t]; [discriminate |]. cbn [length] in Hsg.
  set (ip := if (49 <=? c) && (c <=? 57)
             then let '(ds, r') := span_digits t in Some (sign ++ c :: ds, r')
             else if c =? 48 then Some (sign ++ [48], t) else None).
  assert (Hip : forall l rest, ip = Some (l, rest) ->
                               (length rest <= length t)%nat).
  { subst ip. intros l rest. destruct ((49 <=? c) && (c <=? 57)).
    - destruct (span_digits t) as [ds r'] eqn:Hs. intros [= _ <-].
      exact (span_digits_length _ _ _ Hs).
    - destruct (c =? 48); [intros [= _ <-]; lia | discriminate]. }
  destruct ip as [[l rest]|]; [| discriminate].
  specialize (Hip _ _ eq_refl).
  set (fr := match rest with
             | dot :: d :: r' =>
                 if (dot =? 46) && is_digit d
                 then let '(ds, r'') := span_digits r' in
                      (l ++ 46 :: d :: ds, r'')
                 else (l, rest)
             | _ => (l, rest)
             end).
  assert (Hfr : (length (snd fr) <= length rest)%nat).
  { subst fr. destruct rest as [|dot [|d r']]; cbn [snd]; try lia.
    destruct ((dot =? 46) && is_digit d); cbn [snd]; [| lia].
    destruct (span_digits r') as [ds r''] eqn:Hs. cbn [snd length].
    apply span_digits_length in Hs. lia. }
  destruct fr as [lex1 rest1]. cbn [snd] in Hfr.
  destruct rest1 as [|e r'].
  - intros [= _ <-]. cbn [length] in *. lia.
  - destruct ((e =? 101) || (e =? 69)).
    + set (ex := match r' with
                 | x :: r'' =>
                     if (x =? 45) || (x =? 43) then ([x], r'') else ([], r')
                 | [] => ([], r')
                 end).
      assert (Hex : (length (snd ex) <= length r')%nat).
      { subst ex. destruct r' as [|x r'']; cbn [snd]; [lia |].
        destruct ((x =? 45) || (x =? 43)); cbn [snd length]; lia. }
      destruct ex as [sg1 r1]. cbn [snd] in Hex.
      destruct (span_digits r1) as [ds r2] eqn:Hs.
      apply span_digits_length in Hs.
      destruct ds; intros [= _ <-]; cbn [length] in *; lia.
    + intros [= _ <-]. cbn [length] in *. lia.
Qed.


Lemma number_value_rest max_digits lex r v r' :
  number_value max_digits lex r = Ok (v, r') -> r' = r.
Proof.
  unfold number_value.
  destruct (integer_digits lex) as [digits|].
  - destruct (exceeds_int_limit max_digits digits);
      [discriminate | intros [= _ <-]; reflexivity].
  - intros [= _ <-]. reflexivity.
Qed.

Section Items.

Variables scanA scanB : str -> result (value * str).

Hypothesis scanA_shrinks :
  forall s v r, scanA s = Ok (v, r) -> (length r < length s)%nat.

Lemma array_items_shrinks n : forall parsed s v r,
  array_items n scanA parsed s = Ok (v, r) -> (length r < length s)%nat.
Proof.
  induction n as [|n IH]; intros parsed s v r; cbn [array_items];
    [discriminate |].
  destruct (scanA s) as [[v0 r0]|f0] eqn:Hscan; [| discriminate].
  apply scanA_shrinks in Hscan.
  pose proof (skip_ws_length r0) as Hws.
  destruct (skip_ws r0) as [|c r1]; [discriminate |]. cbn [length] in Hws.
  destruct (c =? 93); [intros [= _ <-]; lia |].
  destruct (c =? 44); [| discriminate].
  intros H. apply IH in H. pose proof (skip_ws_length r1). lia.
Qed.

Lemma array_items_fuel n : forall m parsed s,
  (forall t, (length t <= length s)%nat -> scanA t = scanB t) ->
  (length s < n)%nat -> (length s < m)%nat ->
  array_items n scanA parsed s = array_items m scanB parsed s.
Proof.
  induction n as [|n IH]; intros m parsed s Hagree Hn Hm; [lia |].
  destruct m as [|m]; [lia |]. cbn [array_items].
  rewrite <- (Hagree s) by lia.
  destruct (scanA s) as [[v0 r0]|f0] eqn:Hscan; [| reflexivity].
  apply scanA_shrinks in Hscan.
  pose proof (skip_ws_length r0) as Hws.
  destruct (skip_ws r0) as [|c r1]; [reflexivity |]. cbn [length] in Hws.
  destruct (c =? 93); [reflexivity |].
  destruct (c =? 44); [| reflexivity].
  pose proof (skip_ws_length r1).
  apply IH; [| lia | lia].
  intros t Ht. apply Hagree. lia.
Qed.

Lemma object_members_shrinks n : forall parsed s v r,
  object_members n scanA parsed s = Ok (v, r) -> (length r < length s)%nat.
Proof.
  induction n as [|n IH]; intros parsed s v r; cbn [object_members];
    [discriminate |].
  destruct s as [|q t]; [discriminate |]. cbn [length].
  destruct (q =? 34); [| discriminate].
  destruct (scanstring t) as [[k r1]|] eqn:Hkey; [| discriminate].
  apply scanstring_shrinks in Hkey.
  pose proof (skip_ws_length r1) as Hws1.
  destruct (skip_ws r1) as [|colon r2]; [discriminate |].
  cbn [length] in Hws1.
  destruct (colon =? 58); [| discriminate].
  pose proof (skip_ws_length r2) as Hws2.
  destruct (scanA (skip_ws r2)) as [[v0 r3]|f0] eqn:Hscan; [| discriminate].
  apply scanA_shrinks in Hscan.
  pose proof (skip_ws_length r3) as Hws3.
  destruct (skip_ws r3) as [|c r4]; [discriminate |]. cbn [length] in Hws3.
  destruct (c =? 125); [intros [= _ <-]; lia |].
  destruct (c =? 44); [| discriminate].
  intros H. apply IH in H. pose proof (skip_ws_length r4). lia.
Qed.

Lemma object_members_fuel n : forall m parsed s,
  (forall t, (length t <= length s)%nat -> scanA t = scanB t) ->
  (length s < n)%nat -> (length s < m)%nat ->
  object_members n scanA parsed s = object_members m scanB parsed s.
Proof.
  induction n as [|n IH]; intros m parsed s Hagree Hn Hm; [lia |].
  destruct m as [|m]; [lia |]. cbn [object_members].
  destruct s as [|q t]; [reflexivity |]. cbn [length] in Hn, Hm, Hagree.
  destruct (q =? 34); [| reflexivity].
  destruct (scanstring t) as [[k r1]|] eqn:Hkey; [| reflexivity].
  apply scanstring_shrinks in Hkey.
  pose proof (skip_ws_length r1) as Hws1.
  destruct (skip_ws r1) as [|colon r2]; [reflexivity |].
  cbn [length] in Hws1.
  destruct (colon =? 58); [| reflexivity].
  pose proof (skip_ws_length r2) as Hws2.
  rewrite <- (Hagree (skip_ws r2)) by lia.
  destruct (scanA (skip_ws r2)) as [[v0 r3]|f0] eqn:Hscan; [| reflexivity].
  apply scanA_shrinks in Hscan.
  pose proof (skip_ws_length r3) as Hws3.
  destruct (skip_ws r3) as [|c r4]; [reflexivity |]. cbn [length] in Hws3.
  destruct (c =? 125); [reflexivity |].
  destruct (c =? 44); [| reflexivity].
  pose proof (skip_ws_length r4).
  apply IH; [| lia | lia].
  intros t' Ht'. apply Hagree. lia.
Qed.

(** When [scan] never fails for want of depth, neither do the loops. *)
Hypothesis scanA_has_depth : forall s, scanA s <> Error TooDeep.

Lemma array_items_has_depth n : forall parsed s,
  array_items n scanA parsed s <> Error TooDeep.
Proof.
  induction n as [|n IH]; intros parsed s; cbn [array_items];
    [discriminate |].
  pose proof (scanA_has_depth s) as Hscan.
  destruct (scanA s) as [[v0 r0]|f0]; [| congruence].
  destruct (skip_ws r0) as [|c r1]; [discriminate |].
  destruct (c =? 93); [discriminate |].
  destruct (c =? 44); [apply IH | discriminate].
Qed.

Lemma object_members_has_depth n : forall parsed s,
  object_members n scanA parsed s <> Error TooDeep.
Proof.
  induction n as [|n IH]; intros parsed s; cbn [object_members];
    [discriminate |].
  destruct s as [|q t]; [discriminate |].
  destruct (q =? 34); [| discriminate].
  destruct (scanstring t) as [[k r1]|]; [| discriminate].
  destruct (skip_ws r1) as [|colon r2]; [discriminate |].
  destruct (colon =? 58); [| discriminate].
  pose proof (scanA_has_depth (skip_ws r2)) as Hscan.
  destruct (scanA (skip_ws r2)) as [[v0 r3]|f0]; [| congruence].
  destruct (skip_ws r3) as [|c r4]; [discriminate |].
  destruct (c =? 125); [discriminate |].
  destruct (c =? 44); [apply IH | discriminate].
Qed.

End Items.

Lemma scan_once_shrinks max_digits n : forall s v r,
  scan_once max_digits n s = Ok (v, r) -> (length r < length s)%nat.
Proof.
  induction n as [|n IH]; intros s v r; cbn [scan_once]; [discriminate |].
  destruct s as [|c t]; [discriminate |].
  destruct (c =? 34).
  { destruct (scanstring t) as [[x r']|] eqn:Hstr; [| discriminate].
    apply scanstring_shrinks in Hstr. intros [= _ <-]. cbn [length]. lia. }
  pose proof (skip_ws_length t) as Hws.
  destruct (c =? 123).
  { destruct (skip_ws t) as [|c0 r']; [discriminate |].
    destruct (c0 =? 125).
    - intros [= _ <-]. cbn [length] in *. lia.
    - intros H. apply (object_members_shrinks _ IH) in H.
      cbn [length] in *. lia. }
  destruct (c =? 91).
  { destruct (skip_ws t) as [|c0 r']; [discriminate |].
    destruct (c0 =? 93).
    - intros [= _ <-]. cbn [length] in *. lia.
    - intros H. apply (array_items_shrinks _ IH) in H.
      cbn [length] in *. lia. }
  destruct (startswith (py "null") (c :: t));
    [intros [= _ <-]; rewrite length_drop; cbn [length]; lia |].
  destruct (startswith (py "true") (c :: t));
    [intros [= _ <-]; rewrite length_drop; cbn [length]; lia |].
  destruct (startswith (py "false") (c :: t));
    [intros [= _ <-]; rewrite length_drop; cbn [length]; lia |].
  destruct (startswith (py "NaN") (c :: t));
    [intros [= _ <-]; rewrite length_drop; cbn [length]; lia |].
  destruct (startswith (py "Infinity") (c :: t));
    [intros [= _ <-]; rewrite length_drop; cbn [length]; lia |].
  destruct (startswith (py "-Infinity") (c :: t));
    [intros [= _ <-]; rewrite length_drop; cbn [length]; lia |].
  destruct (match_number (c :: t)) as [[lex r']|] eqn:Hnum; [| discriminate].
  apply match_number_shrinks in Hnum. intros H.
  apply number_value_rest in H. subst r. exact Hnum.
Qed.

(** Any fuel above the length of the text gives the same result. *)
Lemma scan_once_fuel max_digits n : forall m s,
  (length s < n)%nat -> (length s < m)%nat ->
  scan_once max_digits n s = scan_once max_digits m s.
Proof.
  induction n as [|n IH]; intros m s Hn Hm; [lia |].
  destruct m as [|m]; [lia |]. cbn [scan_once].
  destruct s as [|c t]; [reflexivity |]. cbn [length] in Hn, Hm.
  pose proof (skip_ws_length t) as Hws.
  destruct (c =? 34); [reflexivity |].
  destruct (c =? 123).
  { destruct (skip_ws t) as [|c0 r']; [reflexivity |].
    destruct (c0 =? 125); [reflexivity |].
    apply object_members_fuel; [apply scan_once_shrinks | | lia | lia].
    intros t' Ht'. apply IH; lia. }
  destruct (c =? 91).
  { destruct (skip_ws t) as [|c0 r']; [reflexivity |].
    destruct (c0 =? 93); [reflexivity |].
    apply array_items_fuel; [apply scan_once_shrinks | | lia | lia].
    intros t' Ht'. apply IH; lia. }
  reflexivity.
Qed.

(** The decoder does not depend on the fuel it is given, as long as it
    exceeds the length of the text: [Malformed] is an error of the
    text. *)
Lemma loads_fuel_independent max_digits s n :
  (length s < n)%nat ->
  scan_once max_digits n (skip_ws s)
  = scan_once max_digits (S (length s)) (skip_ws s).
Proof.
  intros Hn. pose proof (skip_ws_length s). apply scan_once_fuel; lia.
Qed.

(** The scanner itself never reports a lack of depth: that is the
    interpreter's to say. *)
Lemma scan_once_has_depth max_digits n : forall s,
  scan_once max_digits n s <> Error TooDeep.
Proof.
  induction n as [|n IH]; intros s; cbn [scan_once]; [discriminate |].
  destruct s as [|c t]; [discriminate |].
  destruct (c =? 34); [destruct (scanstring t) as [[x r']|]; discriminate |].
  destruct (c =? 123).
  { destruct (skip_ws t) as [|c0 r']; [discriminate |].
    destruct (c0 =? 125); [discriminate |].
    apply object_members_has_depth. exact IH. }
  destruct (c =? 91).
  { destruct (skip_ws t) as [|c0 r']; [discriminate |].
    destruct (c0 =? 93); [discriminate |].
    apply array_items_has_depth. exact IH. }
  repeat match goal with
         | |- (if ?b then _ else _) <> _ => destruct b; [discriminate |]
         end.
  destruct (match_number (c :: t)) as [[lex r']|]; [| discriminate].
  unfold number_value. destruct (integer_digits lex) as [digits|];
    [destruct (exceeds_int_limit max_digits digits) |]; discriminate.
Qed.

Lemma decode_has_depth max_digits s : decode max_digits s <> Error TooDeep.
Proof.
  unfold decode. destruct (startswith [65279] s); [discriminate |].
  pose proof (scan_once_has_depth max_digits (S (length s)) (skip_ws s)) as H.
  destruct (scan_once max_digits (S (length s)) (skip_ws s)) as [[v r]|f];
    [destruct (skip_ws r); discriminate | congruence].
Qed.

(** [json.loads] raises [RecursionError] exactly when the interpreter
    runs out of depth. *)
Lemma loads_too_deep interp s :
  Json.loads interp s = Error TooDeep <-> exhausts_recursion interp s = true.
Proof.
  unfold Json.loads. destruct (exhausts_recursion interp s).
  - split; reflexivity.
  - split; [| discriminate].
    intros H. exfalso. exact (decode_has_depth _ _ H).
Qed.

Lemma json_loads_recursion_error interp s :
  json_loads interp s = Raise RecursionError
  <-> exhausts_recursion interp s = true.
Proof.
  rewrite <- loads_too_deep. unfold json_loads.
  destruct (Json.loads interp s) as [v | [| digits |]];
    split; try discriminate; reflexivity.
Qed.

End JsonFuel.

(* ===================================================================== *)
(** * The classifiers of prompt_engineering.py *)
(* ===================================================================== *)

Section Classifiers.

Import PromptEngineering.

Variable service : nat -> request -> outcome str.

(** The run of a call to the model, once its answer is known. *)
Lemma call_lm_run (r : request) (w : world) :
  call_lm service r w = (service (length (lm_log w)) r, add_lm_log r w).
Proof. reflexivity. Qed.

(** None of the four labels starts or ends with white space, so looking
    for a label in the stripped reply is looking for it in the reply. *)
Lemma contains_label_strip (label reply : str) :
  In label EVENT_CATEGORIES ->
  contains label (strip reply) = contains label reply.
Proof.
  intros [<- | [<- | [<- | [<- | []]]]].
  - apply (contains_strip 87 [97; 114] 115); reflexivity.
  - apply (contains_strip 80 [111; 108; 105; 116; 105; 99] 115); reflexivity.
  - apply (contains_strip 83 [99; 105; 101; 110; 99] 101); reflexivity.
  - apply (contains_strip 67 [117; 108; 116; 117; 114] 101); reflexivity.
Qed.

Lemma first_label_in_In (labels : list str) (raw_reply label : str) :
  first_label_in labels raw_reply = Some label -> In label labels.
Proof.
  induction labels as [|l labels IH]; simpl; [discriminate |].
  destruct (contains l raw_reply).
  - intros [= ->]. left. reflexivity.
  - intros H. right. exact (IH H).
Qed.

Lemma first_label_in_None (labels : list str) (raw_reply : str) :
  (forall label, In label labels -> contains label raw_reply = false) ->
  first_label_in labels raw_reply = None.
Proof.
  induction labels as [|l labels IH]; intros H; simpl; [reflexivity |].
  rewrite (H l) by (left; reflexivity).
  apply IH. intros label Hl. apply H. right. exact Hl.
Qed.

(** The direct variant hands back the first token of the reply, whatever
    it is. *)
Lemma baseline_returns_first_token event_text w response tok rest :
  service (length (lm_log w)) (baseline_request event_text) = Return response ->
  split response = tok :: rest ->
  fst (classify_with_baseline_prompt service event_text w) = Return tok.
Proof.
  intros Hcall Hsplit. unfold classify_with_baseline_prompt, bind.
  rewrite call_lm_run, Hcall, split_strip, Hsplit. reflexivity.
Qed.

(** On a reply without any token the indexing [split()[0]] fails. *)
Lemma baseline_raises_on_blank_reply event_text w response :
  service (length (lm_log w)) (baseline_request event_text) = Return response ->
  split response = [] ->
  fst (classify_with_baseline_prompt service event_text w) = Raise IndexError.
Proof.
  intros Hcall Hsplit. unfold classify_with_baseline_prompt, bind.
  rewrite call_lm_run, Hcall, split_strip, Hsplit. reflexivity.
Qed.

(** The reasoned variant returns the first label of the list, in list
    order, that occurs in the reply. *)
Lemma cot_returns_first_listed_label event_text w response label :
  service (length (lm_log w)) (cot_request event_text) = Return response ->
  first_label_in EVENT_CATEGORIES (strip response) = Some label ->
  fst (classify_with_chain_of_thought service event_text w) = Return label.
Proof.
  intros Hcall Hfirst. unfold classify_with_chain_of_thought, bind.
  rewrite call_lm_run, Hcall, Hfirst. reflexivity.
Qed.

End Classifiers.

(** C2, as amended.  A reply that contains "Science" and neither of the
    two labels listed before it, "Wars" and "Politics", is classified as
    "Science" by the reasoned variant, whatever its last token is. *)
Theorem cot_science_when_no_earlier_label
    (service : nat -> request -> outcome str)
    (event_text : str) (w : world) (response : str) :
  service (length (lm_log w)) (PromptEngineering.cot_request event_text)
    = Return response ->
  contains (py "Science") response = true ->
  contains (py "Wars") response = false ->
  contains (py "Politics") response = false ->
  fst (PromptEngineering.classify_with_chain_of_thought service event_text w)
    = Return (py "Science").
Proof.
  intros Hcall Hsci Hwars Hpol.
  apply cot_returns_first_listed_label with (response := response);
    [exact Hcall |].
  unfold PromptEngineering.EVENT_CATEGORIES, PromptEngineering.first_label_in.
  rewrite !contains_label_strip by (cbn; tauto).
  rewrite Hwars, Hpol, Hsci. reflexivity.
Qed.

Lemma cot_science_when_no_earlier_label_witness :
  fst (PromptEngineering.classify_with_chain_of_thought
         (Scenario.always (py "Science, not Culture")) (py "Moon landing")
         Scenario.fresh)
  = Return (py "Science").
Proof.
  apply (cot_science_when_no_earlier_label
           (Scenario.always (py "Science, not Culture")) (py "Moon landing")
           Scenario.fresh (py "Science, not Culture"));
    reflexivity.
Defined.

(** C2, as stated, fails: the reply "Science or Wars" contains "Science"
    and its last token is another label; the reasoned variant answers
    "Wars", the label listed first, and not "Science". *)
Lemma cot_science_precedence_counterexample :
  contains (py "Science") (py "Science or Wars") = true /\
  last_item (split (py "Science or Wars")) = Some (py "Wars") /\
  fst (PromptEngineering.classify_with_chain_of_thought
         (Scenario.always (py "Science or Wars")) (py "Moon landing")
         Scenario.fresh)
  = Return (py "Wars") /\
  Return (py "Wars") <> Return (A := str) (py "Science").
Proof.
  repeat split; try reflexivity. discriminate.
Qed.

(** C7.  When no label occurs in the reply and the last token, stripped
    of the characters ".,!?", is not a label either, the reasoned variant
    returns "Wars", the first entry of the category list. *)
Theorem cot_default_is_first_category
    (service : nat -> request -> outcome str)
    (event_text : str) (w : world) (response : str) :
  service (length (lm_log w)) (PromptEngineering.cot_request event_text)
    = Return response ->
  (forall label, In label PromptEngineering.EVENT_CATEGORIES ->
                 contains label response = false) ->
  (forall tok, last_item (split response) = Some tok ->
               ~ In (strip_chars (py ".,!?") tok)
                    PromptEngineering.EVENT_CATEGORIES) ->
  fst (PromptEngineering.classify_with_chain_of_thought service event_text w)
    = Return (py "Wars")
  /\ head PromptEngineering.EVENT_CATEGORIES = Some (py "Wars").
Proof.
  intros Hcall Hnone Hlast. split; [| reflexivity].
  unfold PromptEngineering.classify_with_chain_of_thought, bind.
  rewrite call_lm_run, Hcall.
  rewrite first_label_in_None.
  2:{ intros label Hl. rewrite contains_label_strip by exact Hl.
      apply Hnone. exact Hl. }
  rewrite split_strip.
  destruct (last_item (split response)) as [tok|] eqn:Htok; [| reflexivity].
  destruct (str_in_list (strip_chars (py ".,!?") tok)
              PromptEngineering.EVENT_CATEGORIES) eqn:Hin; [| reflexivity].
  apply str_in_list_In in Hin. exfalso. exact (Hlast tok eq_refl Hin).
Qed.

Lemma cot_default_is_first_category_witness :
  fst (PromptEngineering.classify_with_chain_of_thought
         (Scenario.always (py "I cannot tell.")) (py "Moon landing")
         Scenario.fresh)
    = Return (py "Wars")
  /\ head PromptEngineering.EVENT_CATEGORIES = Some (py "Wars").
Proof.
  apply (cot_default_is_first_category
           (Scenario.always (py "I cannot tell.")) (py "Moon landing")
           Scenario.fresh (py "I cannot tell.")).
  - reflexivity.
  - intros label [<- | [<- | [<- | [<- | []]]]]; reflexivity.
  - intros tok [= <-]. vm_compute.
    intros [H | [H | [H | [H | []]]]]; discriminate H.
Defined.

(** C8 at its failing input.  On an empty reply the direct variant does
    not return a token: [raw_reply.split()[0]] raises [IndexError]. *)
Theorem baseline_empty_reply_raises :
  fst (PromptEngineering.classify_with_baseline_prompt
         (Scenario.always []) (py "Treaty signed ending a war")
         Scenario.fresh)
  = Raise IndexError.
Proof. reflexivity. Qed.

(** C10.  Whatever the reply, the reasoned variant returns one of the
    four category labels; the direct variant can return a word that is
    none of them. *)
Theorem cot_closed_vocabulary_baseline_open :
  length PromptEngineering.EVENT_CATEGORIES = 4%nat
  /\ (forall (service : nat -> request -> outcome str) event_text w response,
        service (length (lm_log w)) (PromptEngineering.cot_request event_text)
          = Return response ->
        exists label,
          fst (PromptEngineering.classify_with_chain_of_thought
                 service event_text w) = Return label
          /\ In label PromptEngineering.EVENT_CATEGORIES)
  /\ (exists (service : nat -> request -> outcome str) event_text w label,
        fst (PromptEngineering.classify_with_baseline_prompt
               service event_text w) = Return label
        /\ ~ In label PromptEngineering.EVENT_CATEGORIES).
Proof.
  split; [reflexivity |]. split.
  - intros service event_text w response Hcall.
    unfold PromptEngineering.classify_with_chain_of_thought, bind.
    rewrite call_lm_run, Hcall.
    destruct (PromptEngineering.first_label_in
                PromptEngineering.EVENT_CATEGORIES (strip response))
      as [label|] eqn:Hfirst.
    + exists label. split; [reflexivity |].
      exact (first_label_in_In _ _ _ Hfirst).
    + destruct (last_item (split (strip response))) as [tok|].
      * destruct (str_in_list (strip_chars (py ".,!?") tok)
                    PromptEngineering.EVENT_CATEGORIES) eqn:Hin.
        -- eexists. split; [reflexivity |]. apply str_in_list_In. exact Hin.
        -- exists (py "Wars"). split; [reflexivity | left; reflexivity].
      * exists (py "Wars"). split; [reflexivity | left; reflexivity].
  - exists (Scenario.always (py "History.")), (py "Moon landing"),
      Scenario.fresh, (py "History.").
    split; [reflexivity |].
    intros [H | [H | [H | [H | []]]]]; discriminate H.
Qed.

Lemma cot_closed_vocabulary_baseline_open_witness :
  exists label,
    fst (PromptEngineering.classify_with_chain_of_thought
           (Scenario.always (py "It is about Culture!")) (py "Opera premiere")
           Scenario.fresh) = Return label
    /\ In label PromptEngineering.EVENT_CATEGORIES.
Proof.
  destruct cot_closed_vocabulary_baseline_open as (_ & Hcot & _).
  apply (Hcot (Scenario.always (py "It is about Culture!"))
              (py "Opera premiere") Scenario.fresh
              (py "It is about Culture!")).
  reflexivity.
Defined.

(* ===================================================================== *)
(** * The dataset generator of prompt_engineering.py *)
(* ===================================================================== *)

Section Generator.

Import PromptEngineering FallbackView.

(** A cleaned line that passes the filter does not end with a double
    quote, so it is never a quoted line. *)
Lemma kept_line_is_not_quoted (line : str) :
  is_kept line = true -> is_quoted line = false.
Proof.
  unfold is_kept, is_quoted, SKIPPED_SUFFIXES, endswith_any. cbn [existsb].
  intros H. apply andb_true_iff in H as [_ H].
  apply negb_true_iff in H. apply orb_false_iff in H as [_ H].
  apply orb_false_iff in H as [H _]. rewrite H. apply andb_false_r.
Qed.

(** The fallback loop keeps, in their order, the cleaned lines that pass
    the filter, as they are: the removal of surrounding quotes never
    applies. *)
Lemma fallback_loop_filter (lines events_list : list str) :
  fallback_loop lines events_list
  = events_list ++ List.filter is_kept (map clean_line lines).
Proof.
  revert events_list.
  induction lines as [|line lines IH]; intros events_list; cbn [fallback_loop].
  - cbn. rewrite app_nil_r. reflexivity.
  - cbn [map List.filter]. fold (clean_line line).
    change ((10 <? length (clean_line line))%nat
            && negb (startswith_any SKIPPED_PREFIXES (clean_line line))
            && negb (endswith_any SKIPPED_SUFFIXES (clean_line line)))
      with (is_kept (clean_line line)).
    destruct (is_kept (clean_line line)) eqn:Hkept.
    + change (startswith [dq] (clean_line line)
              && endswith [dq] (clean_line line))
        with (is_quoted (clean_line line)).
      rewrite (kept_line_is_not_quoted _ Hkept), IH, <- app_assoc.
      reflexivity.
    + apply IH.
Qed.

Lemma fallback_loop_long_lines (lines : list str) :
  Forall (fun event => (10 < length event)%nat) (fallback_loop lines []).
Proof.
  rewrite fallback_loop_filter. cbn [app].
  apply List.Forall_forall. intros event Hin.
  apply filter_In in Hin as [_ Hkept].
  unfold is_kept in Hkept.
  apply andb_true_iff in Hkept as [Hkept _].
  apply andb_true_iff in Hkept as [Hlen _].
  apply Nat.ltb_lt. exact Hlen.
Qed.

Lemma mapM_as_str_strings (events : list str) :
  mapM as_str (map JString events) = Some events.
Proof.
  induction events as [|e events IH]; [reflexivity |].
  cbn. cbn in IH. rewrite IH. reflexivity.
Qed.

(** On an interpreter that runs out of depth the [try] block raises
    [RecursionError]. *)
Lemma decode_events_exhausted interp (raw_output : str) :
  exhausts_recursion interp raw_output = true ->
  decode_events interp raw_output = Raise RecursionError.
Proof.
  intros H. unfold decode_events.
  rewrite (proj2 (json_loads_recursion_error interp raw_output) H).
  reflexivity.
Qed.

(** Otherwise the [try] block only raises what its [except] clause
    catches: an error of the decoder, or one of its own two
    [ValueError]s. *)
Lemma decode_events_error_is_caught interp (raw_output : str) (e : exn) :
  exhausts_recursion interp raw_output = false ->
  decode_events interp raw_output = Raise e ->
  is_json_or_value_error e = true.
Proof.
  intros Hroom. unfold decode_events, json_loads, Json.loads.
  rewrite Hroom.
  pose proof (decode_has_depth (int_max_str_digits interp) raw_output) as Hd.
  destruct (decode (int_max_str_digits interp) raw_output)
    as [[| | | | items |] | [| digits |]];
    try (intros [= <-]; reflexivity); try congruence.
  destruct (mapM as_str items); [discriminate | intros [= <-]; reflexivity].
Qed.

(** [RecursionError] is the one exception of the [try] block that the
    [except] clause lets through. *)
Lemma decode_events_uncaught interp (raw_output : str) (e : exn) :
  decode_events interp raw_output = Raise e ->
  is_json_or_value_error e = false ->
  e = RecursionError /\ exhausts_recursion interp raw_output = true.
Proof.
  intros Hdec Hcaught.
  destruct (exhausts_recursion interp raw_output) eqn:Hroom.
  - rewrite (decode_events_exhausted _ _ Hroom) in Hdec.
    injection Hdec as <-. split; reflexivity.
  - rewrite (decode_events_error_is_caught _ _ _ Hroom Hdec) in Hcaught.
    discriminate Hcaught.
Qed.

Variable interp : interpreter.
Variable service : nat -> request -> outcome str.

(** The generator, once the answer of the model is known: the decoded
    list, or the lines kept by the fallback loop; [RecursionError] when
    the interpreter runs out of depth. *)
Lemma generate_events_run category_label number_of_examples w response :
  service (length (lm_log w))
    (trainset_request category_label number_of_examples) = Return response ->
  fst (generate_events_for_category interp service category_label
         number_of_examples w)
  = if exhausts_recursion interp (strip response)
    then Raise RecursionError
    else match decode_events interp (strip response) with
         | Return events_list => Return events_list
         | Raise _ => Return (fallback_loop (splitlines (strip response)) [])
         end.
Proof.
  intros Hcall. unfold generate_events_for_category, bind, try_except, lift.
  rewrite call_lm_run, Hcall.
  destruct (exhausts_recursion interp (strip response)) eqn:Hroom.
  - rewrite (decode_events_exhausted _ _ Hroom). reflexivity.
  - destruct (decode_events interp (strip response)) as [events_list | e]
      eqn:Hdec; [reflexivity |].
    rewrite (decode_events_error_is_caught _ _ _ Hroom Hdec). reflexivity.
Qed.

End Generator.

(** C3 at its failing input.  The reply is one bullet line whose text is
    wrapped in double quotes; it is not JSON, the fallback loop runs, and
    the line is dropped because it ends with a quote: nothing is
    returned, where the text without its quotes was expected. *)
Theorem fallback_drops_quoted_line :
  Json.loads Scenario.cpython Scenario.quoted_bullet = Error Malformed
  /\ FallbackView.is_quoted (FallbackView.clean_line Scenario.quoted_bullet)
     = true
  /\ fst (PromptEngineering.generate_events_for_category Scenario.cpython
            (Scenario.always Scenario.quoted_bullet) (py "Politics") 1
            Scenario.fresh)
     = Return []
  /\ slice_1_m1 (FallbackView.clean_line Scenario.quoted_bullet)
     = py "Signing of the Magna Carta in 1215".
Proof. repeat split; reflexivity. Qed.

(** C5.  When the reply decodes as a JSON array of strings, the generator
    returns exactly these strings, in order; nothing is printed and the
    fallback does not run. *)
Theorem generator_returns_decoded_strings
    (interp : interpreter) (service : nat -> request -> outcome str)
    (category_label : str) (number_of_examples : nat) (w : world)
    (response : str) (events : list str) :
  service (length (lm_log w))
    (PromptEngineering.trainset_request category_label number_of_examples)
    = Return response ->
  Json.loads interp (strip response) = Ok (JArray (map JString events)) ->
  PromptEngineering.generate_events_for_category interp service category_label
    number_of_examples w
  = (Return events,
     add_lm_log
       (PromptEngineering.trainset_request category_label number_of_examples)
       w).
Proof.
  intros Hcall Hjson.
  unfold PromptEngineering.generate_events_for_category, bind, try_except, lift.
  rewrite call_lm_run, Hcall.
  unfold PromptEngineering.decode_events, json_loads.
  rewrite Hjson, mapM_as_str_strings. reflexivity.
Qed.

Lemma generator_returns_decoded_strings_witness :
  PromptEngineering.generate_events_for_category Scenario.cpython
    (Scenario.always Scenario.two_events) (py "Wars") 2 Scenario.fresh
  = (Return [py "Armistice of 1918"; py "Fall of Constantinople"],
     add_lm_log (PromptEngineering.trainset_request (py "Wars") 2)
       Scenario.fresh).
Proof.
  apply (generator_returns_decoded_strings Scenario.cpython
           (Scenario.always Scenario.two_events) (py "Wars") 2 Scenario.fresh
           Scenario.two_events
           [py "Armistice of 1918"; py "Fall of Constantinople"]);
    reflexivity.
Defined.

(** C6, as amended.  Whatever the reply on which [json.loads] does not
    run out of recursion depth, the generator returns a list of strings
    and raises nothing.  When decoding succeeds with a list of strings,
    that list is returned as it is.  When decoding fails with
    [JSONDecodeError] or [ValueError], or gives something else than a
    list of strings, the result is what the fallback loop keeps, and
    every string of it is longer than ten characters. *)
Theorem generator_never_raises
    (interp : interpreter) (service : nat -> request -> outcome str)
    (category_label : str) (number_of_examples : nat) (w : world)
    (response : str) :
  service (length (lm_log w))
    (PromptEngineering.trainset_request category_label number_of_examples)
    = Return response ->
  exhausts_recursion interp (strip response) = false ->
  exists events,
    fst (PromptEngineering.generate_events_for_category interp service
           category_label number_of_examples w) = Return events
    /\ (forall decoded,
          PromptEngineering.decode_events interp (strip response)
          = Return decoded ->
          events = decoded)
    /\ (forall e,
          PromptEngineering.decode_events interp (strip response) = Raise e ->
          is_json_or_value_error e = true
          /\ events
             = PromptEngineering.fallback_loop (splitlines (strip response)) []
          /\ Forall (fun event => (10 < length event)%nat) events).
Proof.
  intros Hcall Hroom.
  rewrite (generate_events_run interp service _ _ _ _ Hcall), Hroom.
  destruct (PromptEngineering.decode_events interp (strip response))
    as [events_list | e0] eqn:Hdec.
  - exists events_list. split; [reflexivity |]. split.
    + intros decoded [= <-]. reflexivity.
    + intros e He. discriminate He.
  - eexists. split; [reflexivity |]. split.
    + intros decoded Hd. discriminate Hd.
    + intros e [= <-]. split; [| split].
      * exact (decode_events_error_is_caught _ _ _ Hroom Hdec).
      * reflexivity.
      * apply fallback_loop_long_lines.
Qed.

Lemma generator_never_raises_witness :
  exists events,
    fst (PromptEngineering.generate_events_for_category Scenario.cpython
           (Scenario.always Scenario.bullet_reply) (py "Wars") 15
           Scenario.fresh) = Return events
    /\ events = [py "Here are the events:";
                 py "The Battle of Hastings in 1066"]
    /\ (length events < 15)%nat.
Proof.
  destruct (generator_never_raises Scenario.cpython
              (Scenario.always Scenario.bullet_reply) (py "Wars") 15
              Scenario.fresh Scenario.bullet_reply eq_refl eq_refl)
    as (events & Hrun & _ & Hfallback).
  destruct (Hfallback JSONDecodeError ltac:(vm_compute; reflexivity))
    as (_ & Hevents & _).
  exists events. split; [exact Hrun |].
  rewrite Hevents. split; [vm_compute; reflexivity | vm_compute; lia].
Defined.

(** C6, as stated, fails: the reply is the JSON array that holds one
    empty string; the primary path returns it unchanged, so the result
    contains an empty string. *)
Lemma generator_returns_empty_string_counterexample :
  fst (PromptEngineering.generate_events_for_category Scenario.cpython
         (Scenario.always Scenario.array_of_empty_string) (py "Wars") 1
         Scenario.fresh)
  = Return [[]]
  /\ ~ Forall (fun event : str => event <> []) [[]].
Proof.
  split; [reflexivity |].
  intros H. apply Forall_inv in H. apply H. reflexivity.
Qed.

(** Section 1c when the first reply is twelve hundred opening brackets:
    the generator raises [RecursionError] at the first category, one
    request has been sent, nothing is printed and no file is written. *)
Example section_1c_on_deep_reply :
  PromptEngineering.build_training_examples Scenario.cpython
    (Scenario.always Scenario.deep_reply) Scenario.fresh
  = (Raise RecursionError,
     World ∅ []
       [PromptEngineering.trainset_request (py "Wars")
          PromptEngineering.examples_per_category]).
Proof. vm_compute. reflexivity. Qed.

(** A reply that holds an integer of 4301 digits: [int] refuses it with
    a [ValueError], which the [except] clause catches; the error is
    printed and the fallback loop runs, which keeps nothing of a line
    that starts with a bracket. *)
Example generator_on_long_integer_reply :
  fst (PromptEngineering.generate_events_for_category Scenario.cpython
         (Scenario.always Scenario.long_integer_reply) (py "Wars") 15
         Scenario.fresh)
  = Return []
  /\ head (stdout (snd (PromptEngineering.generate_events_for_category
                          Scenario.cpython
                          (Scenario.always Scenario.long_integer_reply)
                          (py "Wars") 15 Scenario.fresh)))
     = Some (FailedToParseJSON (py "Wars")
               (ValueError (int_digits_message Scenario.cpython 4301))).
Proof. split; vm_compute; reflexivity. Qed.

(* ===================================================================== *)
(** * The evaluators *)
(* ===================================================================== *)

Section Evaluators.

(** A loop whose body always returns goes through the whole list. *)
Lemma for_each_total {A S} (body : S -> A -> M S) (l : list A) :
  (forall acc x w, exists acc' w', body acc x w = (Return acc', w')) ->
  forall acc w, exists acc' w', for_each l body acc w = (Return acc', w').
Proof.
  intros Hbody. induction l as [|x l IH]; intros acc w; cbn [for_each].
  - exists acc, w. reflexivity.
  - unfold bind. destruct (Hbody acc x w) as (acc1 & w1 & ->). apply IH.
Qed.

(** The body of the loop of [evaluate_dspy_model] returns in every case:
    the counter, or the counter plus one. *)
Lemma dspy_loop_body_returns model correct example w :
  exists correct' w',
    Dspy.loop_body model correct example w = (Return correct', w')
    /\ (correct <= correct' <= S correct)%nat.
Proof.
  unfold Dspy.loop_body, try_except.
  destruct (Dspy.try_example model correct example w) as [[c | e] w1] eqn:Hrun.
  - exists c, w1. split; [reflexivity |].
    unfold Dspy.try_example, bind, getitem in Hrun.
    destruct (dict_get (py "event") example); [| discriminate Hrun].
    cbn [ret] in Hrun. destruct (model l w) as [[pred | e] w2];
      [| discriminate Hrun].
    destruct (dict_get (py "category") example); [| discriminate Hrun].
    cbn [ret] in Hrun. case_bool_decide; injection Hrun as <- <-; lia.
  - cbn [is_exception]. eexists _, _. split; [reflexivity | lia].
Qed.

(** A failure on one example is printed and the loop goes on with the
    next example, the counter unchanged. *)
Lemma dspy_loop_skips_failure model correct example rest w e w1 :
  Dspy.try_example model correct example w = (Raise e, w1) ->
  for_each (example :: rest) (Dspy.loop_body model) correct w
  = for_each rest (Dspy.loop_body model) correct
      (add_stdout (ErrorProcessingExample e) w1).
Proof.
  intros Hrun. cbn [for_each]. unfold bind at 1.
  unfold Dspy.loop_body at 1, try_except. rewrite Hrun. reflexivity.
Qed.

Lemma dspy_loop_counts model (test_data : list (list (str * str))) :
  forall correct w, exists correct' w',
    for_each test_data (Dspy.loop_body model) correct w = (Return correct', w')
    /\ (correct' <= correct + length test_data)%nat.
Proof.
  induction test_data as [|example rest IH]; intros correct w; cbn [for_each].
  - exists correct, w. split; [reflexivity | lia].
  - unfold bind.
    destruct (dspy_loop_body_returns model correct example w)
      as (c1 & w1 & -> & Hc1).
    destruct (IH c1 w1) as (c2 & w2 & -> & Hc2).
    exists c2, w2. split; [reflexivity | cbn [length]; lia].
Qed.

(** [evaluate_dspy_model] on a non-empty list always reports an accuracy:
    some count of correct answers over the full number of examples. *)
Lemma evaluate_dspy_model_denominator model test_data model_name w :
  test_data <> [] ->
  exists correct w',
    Dspy.evaluate_dspy_model model test_data model_name w
    = (Return (Qmake (Z.of_nat correct) (Pos.of_nat (length test_data))), w')
    /\ (correct <= length test_data)%nat.
Proof.
  intros Hne. unfold Dspy.evaluate_dspy_model, Dspy.count_correct, bind.
  destruct (dspy_loop_counts model test_data O w) as (c & w1 & -> & Hc).
  destruct test_data as [|example rest]; [congruence |].
  cbn [length true_divide ret print].
  eexists c, _. split; [reflexivity | exact Hc].
Qed.

Lemma example_dict_event event label :
  dict_get (py "event") (PromptEngineering.example_dict event label)
  = Some event.
Proof. reflexivity. Qed.

Lemma example_dict_category event label :
  dict_get (py "category") (PromptEngineering.example_dict event label)
  = Some label.
Proof. reflexivity. Qed.

(** In [evaluate_classification_function] nothing stands between the
    classifier and the caller: a failure on the first example ends the
    evaluation with this failure. *)
Lemma failure_on_first_example_propagates classify_fn event label rest
    w e w1 :
  PromptEngineering.fn_call classify_fn event w = (Raise e, w1) ->
  PromptEngineering.evaluate_classification_function classify_fn
    (PromptEngineering.example_dict event label :: rest) w
  = (Raise e, w1).
Proof.
  intros Hrun.
  unfold PromptEngineering.evaluate_classification_function,
    PromptEngineering.count_correct.
  cbn [for_each]. unfold bind at 1. unfold bind at 1.
  unfold PromptEngineering.loop_body, bind, getitem.
  rewrite example_dict_event, example_dict_category. cbn [ret].
  rewrite Hrun. reflexivity.
Qed.

(** One turn of the loop with a module without effects. *)
Lemma dspy_loop_body_stateless f correct example w :
  Dspy.loop_body (EvaluatorView.stateless_module f) correct example w
  = (Return (if EvaluatorView.is_correct f example then S correct else correct),
     World (fs w) (stdout w ++ EvaluatorView.failure_lines f example)
       (lm_log w)).
Proof.
  unfold Dspy.loop_body, try_except, Dspy.try_example, bind, getitem,
    EvaluatorView.stateless_module, EvaluatorView.is_correct,
    EvaluatorView.failure_lines, EvaluatorView.verdict.
  destruct w as [files out log]. cbn [fs stdout lm_log].
  destruct (dict_get (py "event") example) as [event|]; cbn [ret raise];
    [| reflexivity].
  destruct (f event) as [label | e]; [| reflexivity].
  destruct (dict_get (py "category") example) as [expected|];
    cbn [ret raise Dspy.category]; [| reflexivity].
  case_bool_decide; cbn [ret]; rewrite app_nil_r; reflexivity.
Qed.

(** With a module without effects the loop counts the examples judged
    correct and prints one line per failure, in the order of the
    examples. *)
Lemma dspy_loop_stateless f (test_data : list (list (str * str))) :
  forall correct w,
    for_each test_data (Dspy.loop_body (EvaluatorView.stateless_module f))
      correct w
    = (Return (correct
               + length (List.filter (EvaluatorView.is_correct f) test_data))%nat,
       World (fs w)
         (stdout w ++ concat (map (EvaluatorView.failure_lines f) test_data))
         (lm_log w)).
Proof.
  induction test_data as [|example rest IH]; intros correct w.
  - cbn. rewrite Nat.add_0_r, app_nil_r. destruct w; reflexivity.
  - cbn [for_each map concat List.filter]. unfold bind.
    rewrite dspy_loop_body_stateless, IH. cbn [fs stdout lm_log].
    rewrite <- app_assoc.
    destruct (EvaluatorView.is_correct f example); cbn [length];
      rewrite ?Nat.add_succ_r; reflexivity.
Qed.

(** The accuracy [evaluate_dspy_model] returns for such a module: the
    number of examples judged correct over the number of all examples,
    those that failed included. *)
Lemma evaluate_dspy_model_stateless f test_data model_name w :
  test_data <> [] ->
  fst (Dspy.evaluate_dspy_model (EvaluatorView.stateless_module f) test_data
         model_name w)
  = Return
      (Qmake
         (Z.of_nat (length (List.filter (EvaluatorView.is_correct f) test_data)))
         (Pos.of_nat (length test_data))).
Proof.
  intros Hne. unfold Dspy.evaluate_dspy_model, Dspy.count_correct, bind.
  rewrite dspy_loop_stateless.
  destruct test_data as [|example rest]; [congruence |]. reflexivity.
Qed.

End Evaluators.

(** The two end-to-end scenarios of the specification: one example
    labeled "Wars"; a stub that answers "Wars" scores 1, a stub that
    answers "Politics" scores 0. *)
Example evaluate_stub_always_right :
  stdout (snd (PromptEngineering.evaluate_classification_function
                 (EvaluatorView.stub (py "Wars")) [Scenario.treaty]
                 Scenario.fresh))
  = [ReportFunction (py "stub"); ReportAccuracy (Qmake 1 1); ReportElapsed;
     BlankLine].
Proof. reflexivity. Qed.

Example evaluate_stub_always_wrong :
  stdout (snd (PromptEngineering.evaluate_classification_function
                 (EvaluatorView.stub (py "Politics")) [Scenario.treaty]
                 Scenario.fresh))
  = [ReportFunction (py "stub"); ReportAccuracy (Qmake 0 1); ReportElapsed;
     BlankLine].
Proof. reflexivity. Qed.

(** C1 at its failing input.  Two examples, and a model whose first call
    fails in transport: [evaluate_classification_function] ends with the
    transport error, prints no accuracy and never classifies the second
    example, while [evaluate_dspy_model] on the same examples and the same
    model prints the error, goes on and reports one correct answer out of
    two. *)
Theorem evaluate_classification_function_aborts_on_failure :
  PromptEngineering.evaluate_classification_function Scenario.flaky_baseline
    [Scenario.treaty; Scenario.moon_landing] Scenario.fresh
  = (Raise (APIError (py "connection reset")),
     add_lm_log
       (PromptEngineering.baseline_request (py "Treaty signed ending a war"))
       Scenario.fresh)
  /\ fst (Dspy.evaluate_dspy_model Scenario.flaky_module
            [Scenario.treaty; Scenario.moon_landing] (py "Baseline")
            Scenario.fresh)
     = Return (Qmake 1 2)
  /\ stdout (snd (Dspy.evaluate_dspy_model Scenario.flaky_module
                    [Scenario.treaty; Scenario.moon_landing] (py "Baseline")
                    Scenario.fresh))
     = [ErrorProcessingExample (APIError (py "connection reset"));
        ReportDspyModel (py "Baseline"); ReportAccuracy (Qmake 1 2);
        ReportElapsed; BlankLine].
Proof. repeat split; reflexivity. Qed.

(** C9.  With no example both evaluators raise [ZeroDivisionError]: the
    quotient [correct / total] has a zero denominator.  With at least one
    example the division goes through: [evaluate_dspy_model] returns an
    accuracy, and [evaluate_classification_function] returns as soon as
    its loop does, having printed the count over the number of
    examples. *)
Theorem evaluators_divide_by_example_count :
  (forall classify_fn w,
     fst (PromptEngineering.evaluate_classification_function classify_fn [] w)
     = Raise ZeroDivisionError)
  /\ (forall model model_name w,
        fst (Dspy.evaluate_dspy_model model [] model_name w)
        = Raise ZeroDivisionError)
  /\ (forall model test_data model_name w,
        test_data <> [] ->
        exists accuracy,
          fst (Dspy.evaluate_dspy_model model test_data model_name w)
          = Return accuracy)
  /\ (forall classify_fn examples w correct w1,
        examples <> [] ->
        PromptEngineering.count_correct classify_fn examples w
        = (Return correct, w1) ->
        PromptEngineering.evaluate_classification_function classify_fn
          examples w
        = (Return tt,
           add_stdout BlankLine
             (add_stdout ReportElapsed
                (add_stdout
                   (ReportAccuracy
                      (Qmake (Z.of_nat correct)
                             (Pos.of_nat (length examples))))
                   (add_stdout
                      (ReportFunction (PromptEngineering.fn_name classify_fn))
                      w1))))).
Proof.
  split; [| split; [| split]].
  - intros classify_fn w. reflexivity.
  - intros model model_name w. reflexivity.
  - intros model test_data model_name w Hne.
    destruct (evaluate_dspy_model_denominator model test_data model_name w Hne)
      as (c & w' & -> & _).
    eexists. reflexivity.
  - intros classify_fn examples w correct w1 Hne Hloop.
    unfold PromptEngineering.evaluate_classification_function, bind.
    rewrite Hloop.
    destruct examples as [|example rest]; [congruence |]. reflexivity.
Qed.

Lemma evaluators_divide_by_example_count_witness :
  exists accuracy,
    fst (Dspy.evaluate_dspy_model Scenario.flaky_module
           [Scenario.treaty; Scenario.moon_landing] (py "Baseline")
           Scenario.fresh)
    = Return accuracy.
Proof.
  destruct evaluators_divide_by_example_count as (_ & _ & Hdspy & _).
  apply Hdspy. discriminate.
Defined.

(* ===================================================================== *)
(** * The dataset file *)
(* ===================================================================== *)

Section Persistence.

Variable interp : interpreter.
Variable service : nat -> request -> outcome str.

Lemma os_path_exists_present w path text :
  fs w !! path = Some text -> os_path_exists path w = (Return true, w).
Proof.
  intros H. unfold os_path_exists. rewrite H.
  rewrite bool_decide_eq_true_2 by eauto. reflexivity.
Qed.

Lemma os_path_exists_absent w path :
  fs w !! path = None -> os_path_exists path w = (Return false, w).
Proof.
  intros H. unfold os_path_exists. rewrite H.
  rewrite bool_decide_eq_false_2 by (intros [x Hx]; discriminate Hx).
  reflexivity.
Qed.

Lemma json_load_present w path text :
  fs w !! path = Some text ->
  json_load interp path w = (json_loads interp text, w).
Proof.
  intros H. unfold json_load, bind, read_file, lift. rewrite H.
  reflexivity.
Qed.

(** With the file in place [generate_trainset] only reads it: the state
    is left as it was. *)
Lemma generate_trainset_existing w text :
  fs w !! Dspy.DATASET_PATH = Some text ->
  Dspy.generate_trainset interp service w
  = (match json_loads interp text with
     | Return data => Dspy.examples_of_data data
     | Raise e => Raise e
     end, w).
Proof.
  intros H. unfold Dspy.generate_trainset, bind.
  rewrite (os_path_exists_present _ _ _ H), (json_load_present _ _ _ H).
  destruct (json_loads interp text); reflexivity.
Qed.

(** With the file in place section 1c of prompt_engineering.py prints
    that it skips the generation and does nothing else. *)
Lemma build_training_examples_existing w text :
  fs w !! PromptEngineering.DATASET_PATH = Some text ->
  PromptEngineering.build_training_examples interp service w
  = (Return [], add_stdout TrainingFileExists w).
Proof.
  intros H. unfold PromptEngineering.build_training_examples, bind.
  rewrite (os_path_exists_present _ _ _ H). reflexivity.
Qed.

Lemma materialize_dataset_existing w text :
  fs w !! PromptEngineering.DATASET_PATH = Some text ->
  PromptEngineering.materialize_dataset interp service w
  = (json_loads interp text, add_stdout TrainingFileExists w).
Proof.
  intros H. unfold PromptEngineering.materialize_dataset, bind.
  rewrite (build_training_examples_existing _ _ H).
  unfold PromptEngineering.load_labeled_event_examples.
  rewrite (json_load_present _ _ text) by exact H.
  reflexivity.
Qed.

End Persistence.

(** C4.  When the dataset file exists, loading the dataset twice gives
    the same content both times and sends no request to the model, in
    [generate_trainset] of dspy_example.py and in sections 1c and 5 of
    prompt_engineering.py alike; the file itself is left as it is.  A
    run that does send a request started without the file. *)
Theorem dataset_materialization_idempotent
    (interp : interpreter) (service : nat -> request -> outcome str) :
  (forall w,
     is_Some (fs w !! Dspy.DATASET_PATH) ->
     exists content,
       Dspy.generate_trainset interp service w = (content, w)
       /\ Dspy.generate_trainset interp service
            (snd (Dspy.generate_trainset interp service w)) = (content, w))
  /\ (forall w,
        is_Some (fs w !! PromptEngineering.DATASET_PATH) ->
        exists content w1 w2,
          PromptEngineering.materialize_dataset interp service w
          = (content, w1)
          /\ PromptEngineering.materialize_dataset interp service w1
             = (content, w2)
          /\ lm_log w1 = lm_log w /\ lm_log w2 = lm_log w
          /\ fs w1 = fs w /\ fs w2 = fs w)
  /\ (forall w,
        lm_log (snd (Dspy.generate_trainset interp service w)) <> lm_log w ->
        fs w !! Dspy.DATASET_PATH = None)
  /\ (forall w,
        lm_log (snd (PromptEngineering.materialize_dataset interp service w))
          <> lm_log w ->
        fs w !! PromptEngineering.DATASET_PATH = None).
Proof.
  split; [| split; [| split]].
  - intros w [text Htext].
    rewrite (generate_trainset_existing interp service w text Htext).
    cbn [snd].
    eexists. split; [reflexivity |].
    apply (generate_trainset_existing interp service w text Htext).
  - intros w [text Htext].
    rewrite (materialize_dataset_existing interp service w text Htext).
    eexists _, _, _. split; [reflexivity |]. split.
    + apply (materialize_dataset_existing interp service _ text). exact Htext.
    + repeat split; reflexivity.
  - intros w Hlog.
    destruct (fs w !! Dspy.DATASET_PATH) as [text|] eqn:Htext; [| reflexivity].
    rewrite (generate_trainset_existing interp service w text Htext) in Hlog.
    contradiction Hlog. reflexivity.
  - intros w Hlog.
    destruct (fs w !! PromptEngineering.DATASET_PATH) as [text|] eqn:Htext;
      [| reflexivity].
    rewrite (materialize_dataset_existing interp service w text Htext) in Hlog.
    contradiction Hlog. reflexivity.
Qed.

Lemma dataset_materialization_idempotent_witness :
  exists content,
    Dspy.generate_trainset Scenario.cpython (Scenario.always (py "unused"))
      (Scenario.with_dataset (py "[]"))
    = (content, Scenario.with_dataset (py "[]"))
    /\ Dspy.generate_trainset Scenario.cpython (Scenario.always (py "unused"))
         (snd (Dspy.generate_trainset Scenario.cpython
                 (Scenario.always (py "unused"))
                 (Scenario.with_dataset (py "[]"))))
       = (content, Scenario.with_dataset (py "[]")).
Proof.
  destruct (dataset_materialization_idempotent Scenario.cpython
              (Scenario.always (py "unused")))
    as (Hdspy & _).
  apply Hdspy. exists (py "[]"). apply lookup_singleton_eq.
Defined.

(** ** Starting without the file *)

Section FirstRun.

Import PromptEngineering.

Variable interp : interpreter.
Variable service : nat -> request -> outcome str.

(** The model answers every call, with a text on which the decoder does
    not run out of recursion depth. *)
Hypothesis service_answers : forall n r, exists reply, service n r = Return reply.
Hypothesis replies_have_depth :
  forall n r reply,
    service n r = Return reply ->
    exhausts_recursion interp (strip reply) = false.

(** One call of the generator: one request, and the file system left as
    it was. *)
Lemma generate_events_for_category_state category_label number_of_examples w :
  exists events printed,
    generate_events_for_category interp service category_label
      number_of_examples w
    = (Return events,
       World (fs w) (stdout w ++ printed)
         (lm_log w ++ [trainset_request category_label number_of_examples])).
Proof.
  destruct (service_answers (length (lm_log w))
              (trainset_request category_label number_of_examples))
    as [response Hcall].
  pose proof (replies_have_depth _ _ _ Hcall) as Hroom.
  unfold generate_events_for_category, bind, try_except, lift.
  rewrite call_lm_run, Hcall.
  destruct (decode_events interp (strip response)) as [events | e] eqn:Hdec.
  - exists events, []. rewrite app_nil_r. reflexivity.
  - rewrite (decode_events_error_is_caught _ _ _ Hroom Hdec).
    eexists _, [_; _; _]. unfold print, ret, add_stdout, add_lm_log.
    cbn [fs stdout lm_log]. rewrite <- !app_assoc. reflexivity.
Qed.

(** Without the file, section 1c asks the model once per category, in
    the order of the list, and writes what it got to the file. *)
Lemma build_training_examples_absent w :
  fs w !! DATASET_PATH = None ->
  exists training_examples printed,
    build_training_examples interp service w
    = (Return training_examples,
       World
         (<[DATASET_PATH := dumps_indent2 (json_of_examples training_examples)]>
            (fs w))
         (stdout w ++ printed)
         (lm_log w
          ++ map (fun label => trainset_request label examples_per_category)
               EVENT_CATEGORIES)).
Proof.
  intros Habsent. unfold build_training_examples. unfold bind at 1.
  rewrite (os_path_exists_absent _ _ Habsent). cbn [negb].
  unfold EVENT_CATEGORIES at 1. cbn [for_each]. unfold bind.
  destruct (generate_events_for_category_state (py "Wars")
              examples_per_category w) as (ev1 & p1 & ->).
  cbn [ret].
  match goal with |- context [generate_events_for_category _ _ _ _ ?w1] =>
    destruct (generate_events_for_category_state (py "Politics")
                examples_per_category w1) as (ev2 & p2 & ->) end.
  cbn [ret].
  match goal with |- context [generate_events_for_category _ _ _ _ ?w2] =>
    destruct (generate_events_for_category_state (py "Science")
                examples_per_category w2) as (ev3 & p3 & ->) end.
  cbn [ret].
  match goal with |- context [generate_events_for_category _ _ _ _ ?w3] =>
    destruct (generate_events_for_category_state (py "Culture")
                examples_per_category w3) as (ev4 & p4 & ->) end.
  unfold print, json_dump, write_file, ret, add_stdout, set_fs.
  cbn [fs stdout lm_log].
  eexists _, (p1 ++ p2 ++ p3 ++ p4 ++ [_]).
  unfold EVENT_CATEGORIES. cbn [map].
  rewrite <- !app_assoc. reflexivity.
Qed.

(** A first run without the file sends four requests and leaves the file
    in place; a second run then sends none. *)
Lemma materialization_from_scratch w :
  fs w !! DATASET_PATH = None ->
  let w1 := snd (build_training_examples interp service w) in
  length (lm_log w1) = (length (lm_log w) + 4)%nat
  /\ is_Some (fs w1 !! DATASET_PATH)
  /\ lm_log (snd (build_training_examples interp service w1)) = lm_log w1.
Proof.
  intros Habsent.
  destruct (build_training_examples_absent w Habsent) as (ex & printed & ->).
  cbn [snd lm_log fs]. split; [| split].
  - rewrite length_app. reflexivity.
  - rewrite lookup_insert_eq. eauto.
  - erewrite build_training_examples_existing.
    + reflexivity.
    + cbn [fs]. apply lookup_insert_eq.
Qed.

End FirstRun.

(* ===================================================================== *)
(** * More on the string operations *)
(* ===================================================================== *)

Section StripFacts.

Implicit Types (s r : str) (p : N -> bool).

Lemma lstrip_with_suffix p s : exists a, s = a ++ lstrip_with p s.
Proof.
  induction s as [|c s [a IH]]; cbn [lstrip_with].
  - exists []. reflexivity.
  - destruct (p c).
    + exists (c :: a). cbn. f_equal. exact IH.
    + exists []. reflexivity.
Qed.

Lemma rstrip_with_prefix p s : exists b, s = rstrip_with p s ++ b.
Proof.
  unfold rstrip_with. destruct (lstrip_with_suffix p (rev s)) as [a Ha].
  exists (rev a). rewrite <- rev_app_distr, <- Ha, rev_involutive.
  reflexivity.
Qed.

Lemma strip_with_infix p s : exists a b, s = a ++ strip_with p s ++ b.
Proof.
  unfold strip_with. destruct (lstrip_with_suffix p s) as [a Ha].
  destruct (rstrip_with_prefix p (lstrip_with p s)) as [b Hb].
  exists a, b. rewrite <- Hb. exact Ha.
Qed.

Lemma lstrip_with_head p s c r : lstrip_with p s = c :: r -> p c = false.
Proof.
  induction s as [|x s IH]; cbn [lstrip_with]; [discriminate |].
  destruct (p x) eqn:Hx; [exact IH |]. intros [= <- _]. exact Hx.
Qed.

Lemma rstrip_with_last p s c r : rstrip_with p s = r ++ [c] -> p c = false.
Proof.
  unfold rstrip_with. intros H. apply (f_equal (@rev N)) in H.
  rewrite rev_involutive, rev_app_distr in H. cbn in H.
  exact (lstrip_with_head _ _ _ _ H).
Qed.

(** What [strip] returns neither starts nor ends with a stripped
    character. *)
Lemma strip_with_ends p s :
  (forall c r, strip_with p s = c :: r -> p c = false)
  /\ (forall c r, strip_with p s = r ++ [c] -> p c = false).
Proof.
  split.
  - intros c r H. unfold strip_with in H.
    destruct (rstrip_with_prefix p (lstrip_with p s)) as [b Hb].
    rewrite H in Hb. cbn in Hb. exact (lstrip_with_head _ _ _ _ Hb).
  - intros c r H. exact (rstrip_with_last _ _ _ _ H).
Qed.

(** The tokens of [split]: every one is an occurrence in the text, is
    not empty and holds no white space. *)
Lemma split_aux_tokens cur s tok :
  forallb (fun c => negb (isspace c)) cur = true ->
  In tok (split_aux cur s) ->
  tok <> []
  /\ forallb (fun c => negb (isspace c)) tok = true
  /\ exists a b, rev cur ++ s = a ++ tok ++ b.
Proof.
  revert cur. induction s as [|c s IH]; intros cur Hcur; cbn [split_aux].
  - destruct cur as [|x cur]; [intros [] |]. intros [<- | []].
    split; [| split].
    + intros H. apply (f_equal (@length N)) in H.
      rewrite length_rev in H. discriminate H.
    + rewrite forallb_forall in *. intros y Hy. apply Hcur.
      apply in_rev. exact Hy.
    + exists [], []. rewrite !app_nil_r. reflexivity.
  - destruct (isspace c) eqn:Hc.
    + destruct cur as [|x cur].
      * intros H. destruct (IH [] eq_refl H) as (Hne & Hws & a & b & Hab).
        split; [exact Hne |]. split; [exact Hws |].
        exists (c :: a), b. cbn in *. f_equal. exact Hab.
      * intros [<- | H].
        -- split; [| split].
           ++ intros H. apply (f_equal (@length N)) in H.
              rewrite length_rev in H. discriminate H.
           ++ rewrite forallb_forall in *. intros y Hy. apply Hcur.
              apply in_rev. exact Hy.
           ++ exists [], (c :: s). reflexivity.
        -- destruct (IH [] eq_refl H) as (Hne & Hws & a & b & Hab).
           split; [exact Hne |]. split; [exact Hws |].
           exists (rev (x :: cur) ++ c :: a), b. cbn in Hab.
           rewrite Hab, <- !app_assoc. reflexivity.
    + intros H. assert (Hcur' : forallb (fun c => negb (isspace c)) (c :: cur) = true).
      { cbn [forallb]. rewrite Hc, Hcur. reflexivity. }
      destruct (IH (c :: cur) Hcur' H) as (Hne & Hws & a & b & Hab).
      split; [exact Hne |]. split; [exact Hws |].
      exists a, b. rewrite <- Hab. cbn [rev]. rewrite <- app_assoc.
      reflexivity.
Qed.

Lemma split_tokens s tok :
  In tok (split s) ->
  tok <> []
  /\ forallb (fun c => negb (isspace c)) tok = true
  /\ contains tok s = true.
Proof.
  intros H. destruct (split_aux_tokens [] s tok eq_refl H)
    as (Hne & Hws & a & b & Hab).
  split; [exact Hne |]. split; [exact Hws |].
  apply contains_spec. exists a, b. exact Hab.
Qed.

(** A text without any token is made of white space only, and
    conversely. *)
Lemma split_aux_nil cur s :
  split_aux cur s = [] <-> cur = [] /\ forallb isspace s = true.
Proof.
  revert cur. induction s as [|c s IH]; intros cur; cbn [split_aux forallb].
  - destruct cur; split; try tauto; try discriminate.
    intros [H _]. discriminate H.
  - destruct (isspace c) eqn:Hc.
    + destruct cur as [|x cur].
      * rewrite IH. cbn. tauto.
      * split; [discriminate | intros [H _]; discriminate H].
    + rewrite IH. cbn. split; [intros [H _]; discriminate H |].
      intros [_ H]. discriminate H.
Qed.

Lemma split_nil s : split s = [] <-> forallb isspace s = true.
Proof. unfold split. rewrite split_aux_nil. tauto. Qed.

Lemma contains_trans inner middle outer :
  contains inner middle = true -> contains middle outer = true ->
  contains inner outer = true.
Proof.
  rewrite !contains_spec. intros (a & b & ->) (a' & b' & ->).
  exists (a' ++ a), (b ++ b'). rewrite <- !app_assoc. reflexivity.
Qed.

Lemma contains_refl s : contains s s = true.
Proof. apply contains_spec. exists [], []. rewrite app_nil_r. reflexivity. Qed.

Lemma last_item_In {A} (l : list A) (x : A) : last_item l = Some x -> In x l.
Proof.
  unfold last_item. intros H. apply in_rev.
  destruct (rev l) as [|y r]; [discriminate H |].
  cbn in H. injection H as ->. left. reflexivity.
Qed.

End StripFacts.

(* ===================================================================== *)
(** * The answers of the two classifiers *)
(* ===================================================================== *)

Section ClassifierFacts.

Import PromptEngineering.

Lemma first_label_in_strip (response : str) :
  first_label_in EVENT_CATEGORIES (strip response)
  = first_label_in EVENT_CATEGORIES response.
Proof.
  unfold EVENT_CATEGORIES, first_label_in.
  rewrite !contains_label_strip by (cbn; tauto). reflexivity.
Qed.

Lemma first_label_in_None_inv (labels : list str) (raw_reply : str) :
  first_label_in labels raw_reply = None ->
  forall label, In label labels -> contains label raw_reply = false.
Proof.
  induction labels as [|l labels IH]; cbn [first_label_in]; [intros _ ? [] |].
  destruct (contains l raw_reply) eqn:Hl; [discriminate |].
  intros H label [<- | Hin]; [exact Hl | exact (IH H label Hin)].
Qed.

(** A last token that, stripped of punctuation, is a label would make
    this label occur in the reply. *)
Lemma last_word_occurs (reply tok : str) :
  last_item (split reply) = Some tok ->
  contains (strip_chars (py ".,!?") tok) reply = true.
Proof.
  intros Hlast. apply last_item_In in Hlast.
  apply split_tokens in Hlast as (_ & _ & Htok).
  apply contains_trans with (middle := tok); [| exact Htok].
  apply contains_spec. unfold strip_chars.
  destruct (strip_with_infix (char_in (py ".,!?")) tok) as (a & b & Hab).
  exists a, b. exact Hab.
Qed.

End ClassifierFacts.

(** X1.  The reasoned variant answers the first label of the category
    list, in list order, that occurs in the reply, and "Wars" when none
    occurs; the look at the last token never decides the answer.  One
    request is sent. *)
Theorem cot_answer_is_first_occurring_label
    (service : nat -> request -> outcome str)
    (event_text : str) (w : world) (response : str) :
  service (length (lm_log w)) (PromptEngineering.cot_request event_text)
    = Return response ->
  PromptEngineering.classify_with_chain_of_thought service event_text w
  = (Return
       (match PromptEngineering.first_label_in
                PromptEngineering.EVENT_CATEGORIES response with
        | Some label => label
        | None => py "Wars"
        end),
     add_lm_log (PromptEngineering.cot_request event_text) w).
Proof.
  intros Hcall.
  unfold PromptEngineering.classify_with_chain_of_thought, bind.
  rewrite call_lm_run, Hcall, first_label_in_strip.
  destruct (PromptEngineering.first_label_in
              PromptEngineering.EVENT_CATEGORIES response)
    as [label|] eqn:Hfirst; [reflexivity |].
  rewrite split_strip.
  destruct (last_item (split response)) as [tok|] eqn:Hlast; [| reflexivity].
  destruct (str_in_list (strip_chars (py ".,!?") tok)
              PromptEngineering.EVENT_CATEGORIES) eqn:Hin; [| reflexivity].
  apply str_in_list_In in Hin.
  pose proof (first_label_in_None_inv _ _ Hfirst _ Hin) as Hno.
  rewrite (last_word_occurs _ _ Hlast) in Hno. discriminate Hno.
Qed.

Lemma cot_answer_is_first_occurring_label_witness :
  PromptEngineering.classify_with_chain_of_thought
    (Scenario.always (py "Neither Culture nor Politics.")) (py "A coup")
    Scenario.fresh
  = (Return (py "Politics"),
     add_lm_log (PromptEngineering.cot_request (py "A coup")) Scenario.fresh).
Proof.
  apply (cot_answer_is_first_occurring_label
           (Scenario.always (py "Neither Culture nor Politics."))
           (py "A coup") Scenario.fresh (py "Neither Culture nor Politics.")).
  reflexivity.
Defined.

(** X2.  The direct variant either raises [IndexError], exactly when the
    reply is made of white space only (the empty reply included), or
    returns the first token of the reply: a word that is not empty, holds
    no white space and occurs in the reply. *)
Theorem baseline_answer_is_first_token
    (service : nat -> request -> outcome str)
    (event_text : str) (w : world) (response : str) :
  service (length (lm_log w)) (PromptEngineering.baseline_request event_text)
    = Return response ->
  (forallb isspace response = true
   /\ fst (PromptEngineering.classify_with_baseline_prompt service event_text w)
      = Raise IndexError)
  \/ (exists label,
        forallb isspace response = false
        /\ fst (PromptEngineering.classify_with_baseline_prompt service
                  event_text w) = Return label
        /\ head (split response) = Some label
        /\ label <> []
        /\ forallb (fun c => negb (isspace c)) label = true
        /\ contains label response = true).
Proof.
  intros Hcall.
  destruct (split response) as [|tok rest] eqn:Hsplit.
  - left. split.
    + apply split_nil. exact Hsplit.
    + exact (baseline_raises_on_blank_reply service _ _ _ Hcall Hsplit).
  - right. exists tok.
    assert (Hin : In tok (split response)) by (rewrite Hsplit; left; reflexivity).
    apply split_tokens in Hin as (Hne & Hws & Hocc).
    split.
    { destruct (forallb isspace response) eqn:Hall; [| reflexivity].
      apply split_nil in Hall. congruence. }
    split; [exact (baseline_returns_first_token service _ _ _ _ _ Hcall Hsplit) |].
    repeat split; assumption.
Qed.

Lemma baseline_answer_is_first_token_witness :
  exists label,
    fst (PromptEngineering.classify_with_baseline_prompt
           (Scenario.always (py " Politics, I think")) (py "A coup")
           Scenario.fresh) = Return label
    /\ label = py "Politics,".
Proof.
  destruct (baseline_answer_is_first_token
              (Scenario.always (py " Politics, I think")) (py "A coup")
              Scenario.fresh (py " Politics, I think") eq_refl)
    as [[Hblank _] | (label & _ & Hrun & Hhead & _)].
  - vm_compute in Hblank. discriminate Hblank.
  - exists label. split; [exact Hrun |].
    vm_compute in Hhead. injection Hhead as <-. reflexivity.
Defined.

(* ===================================================================== *)
(** * What the generator does to the state *)
(* ===================================================================== *)

Section LoopFacts.

(** What every turn of a loop does to the state, the loop does. *)
Lemma for_each_preserves {A S} (P : world -> world -> Prop)
    (body : S -> A -> M S) (l : list A) :
  (forall w, P w w) ->
  (forall a b c, P a b -> P b c -> P a c) ->
  (forall acc x w, P w (snd (body acc x w))) ->
  forall acc w, P w (snd (for_each l body acc w)).
Proof.
  intros Hrefl Htrans Hbody. induction l as [|x l IH]; intros acc w.
  - apply Hrefl.
  - cbn [for_each]. unfold bind.
    pose proof (Hbody acc x w) as Hstep.
    destruct (body acc x w) as [[acc' | e] w1]; cbn [snd] in *.
    + apply Htrans with w1; [exact Hstep | apply IH].
    + exact Hstep.
Qed.

End LoopFacts.

Section GeneratorFacts.

Import PromptEngineering FallbackView.

Variable interp : interpreter.
Variable service : nat -> request -> outcome str.

(** One call of the generator, whatever the model does: one request, the
    files untouched, and a failure of the call handed on as it is. *)
Lemma generate_events_footprint category_label number_of_examples w :
  lm_log (snd (generate_events_for_category interp service category_label
                 number_of_examples w))
  = lm_log w ++ [trainset_request category_label number_of_examples]
  /\ fs (snd (generate_events_for_category interp service category_label
                number_of_examples w)) = fs w.
Proof.
  unfold generate_events_for_category, bind, try_except, lift.
  rewrite call_lm_run.
  destruct (service (length (lm_log w))
              (trainset_request category_label number_of_examples))
    as [response | e]; [| split; reflexivity].
  destruct (decode_events interp (strip response)) as [events | e];
    [split; reflexivity |].
  destruct (is_json_or_value_error e); split; reflexivity.
Qed.

Lemma generate_events_failure category_label number_of_examples w e :
  service (length (lm_log w))
    (trainset_request category_label number_of_examples) = Raise e ->
  generate_events_for_category interp service category_label
    number_of_examples w
  = (Raise e,
     add_lm_log (trainset_request category_label number_of_examples) w).
Proof.
  intros Hcall. unfold generate_events_for_category, bind.
  rewrite call_lm_run, Hcall. reflexivity.
Qed.

(** The loop of section 1c leaves the files as they are. *)
Lemma generation_loop_keeps_files (labels : list str) acc w :
  fs (snd (for_each labels
             (fun training_examples label =>
                let* generated_events :=
                  generate_events_for_category interp service label
                    examples_per_category in
                ret (training_examples
                     ++ map (fun event_description =>
                               example_dict event_description label)
                          generated_events))
             acc w))
  = fs w.
Proof.
  apply (for_each_preserves (fun a b => fs b = fs a)).
  - reflexivity.
  - intros a b c Hab Hbc. congruence.
  - intros acc' label w'. unfold bind.
    pose proof (generate_events_footprint label examples_per_category w')
      as [_ Hfs].
    destruct (generate_events_for_category interp service label
                examples_per_category w') as [[events | e] w1];
      exact Hfs.
Qed.

End GeneratorFacts.

Section FirstRunShape.

Import PromptEngineering.

Variable interp : interpreter.
Variable service : nat -> request -> outcome str.
Hypothesis service_answers : forall n r, exists reply, service n r = Return reply.
Hypothesis replies_have_depth :
  forall n r reply,
    service n r = Return reply ->
    exhausts_recursion interp (strip reply) = false.

Lemma map_example_dict_pairs (label : str) (events : list str) :
  map (fun event_description => example_dict event_description label) events
  = map DatasetView.pe_example (map (fun event => (event, label)) events).
Proof. rewrite map_map. reflexivity. Qed.

Lemma map_snd_labelled (label : str) (events : list str) :
  map snd (map (fun event => (event, label)) events)
  = repeat label (length events).
Proof.
  induction events as [|e events IH]; [reflexivity |].
  cbn. f_equal. exact IH.
Qed.

(** Section 1c without the file, when the model answers every call with
    a text the decoder has the depth for: the examples come category by
    category, in the order of the list. *)
Lemma build_training_examples_shape w :
  fs w !! DATASET_PATH = None ->
  exists ev1 ev2 ev3 ev4 printed,
    let pairs :=
      map (fun event => (event, py "Wars")) ev1
      ++ map (fun event => (event, py "Politics")) ev2
      ++ map (fun event => (event, py "Science")) ev3
      ++ map (fun event => (event, py "Culture")) ev4 in
    build_training_examples interp service w
    = (Return (map DatasetView.pe_example pairs),
       World (<[DATASET_PATH := DatasetView.file_text pairs]> (fs w))
         (stdout w ++ printed)
         (lm_log w
          ++ map (fun label => trainset_request label examples_per_category)
               EVENT_CATEGORIES)).
Proof.
  intros Habsent. unfold build_training_examples. unfold bind at 1.
  rewrite (os_path_exists_absent _ _ Habsent). cbn [negb].
  unfold EVENT_CATEGORIES at 1. cbn [for_each]. unfold bind.
  destruct (generate_events_for_category_state interp service service_answers
              replies_have_depth (py "Wars") examples_per_category w)
    as (ev1 & p1 & ->).
  cbn [ret].
  match goal with |- context [generate_events_for_category _ _ _ _ ?w1] =>
    destruct (generate_events_for_category_state interp service
                service_answers replies_have_depth
                (py "Politics") examples_per_category w1)
      as (ev2 & p2 & ->) end.
  cbn [ret].
  match goal with |- context [generate_events_for_category _ _ _ _ ?w2] =>
    destruct (generate_events_for_category_state interp service
                service_answers replies_have_depth
                (py "Science") examples_per_category w2)
      as (ev3 & p3 & ->) end.
  cbn [ret].
  match goal with |- context [generate_events_for_category _ _ _ _ ?w3] =>
    destruct (generate_events_for_category_state interp service
                service_answers replies_have_depth
                (py "Culture") examples_per_category w3)
      as (ev4 & p4 & ->) end.
  unfold print, json_dump, write_file, ret, add_stdout, set_fs.
  cbn [fs stdout lm_log].
  exists ev1, ev2, ev3, ev4. eexists (p1 ++ p2 ++ p3 ++ p4 ++ [_]).
  cbn zeta. unfold DatasetView.file_text.
  unfold EVENT_CATEGORIES. cbn [map app].
  rewrite !map_app, <- !map_example_dict_pairs, <- !app_assoc.
  reflexivity.
Qed.

End FirstRunShape.

(* ===================================================================== *)
(** * The generator and section 1c, further *)
(* ===================================================================== *)

(** X3.  When the [try] block of the generator raises an exception that
    its [except] clause catches, [JSONDecodeError] or [ValueError], the
    generator prints three lines, the first with this exception, and
    returns the cleaned lines of the reply that pass the filter, in their
    order.  Each returned string is longer than ten characters, neither
    starts nor ends with white space, starts with none of the skipped
    prefixes and ends with neither a comma nor a double quote. *)
Theorem fallback_returns_clean_long_lines
    (interp : interpreter) (service : nat -> request -> outcome str)
    (category_label : str) (number_of_examples : nat) (w : world)
    (response : str) (e : exn) :
  service (length (lm_log w))
    (PromptEngineering.trainset_request category_label number_of_examples)
    = Return response ->
  PromptEngineering.decode_events interp (strip response) = Raise e ->
  is_json_or_value_error e = true ->
  exists events,
    PromptEngineering.generate_events_for_category interp service
      category_label number_of_examples w
    = (Return events,
       World (fs w)
         (stdout w ++ [FailedToParseJSON category_label e;
                       RawOutput (strip response);
                       FallbackExtracted (length events)])
         (lm_log w
          ++ [PromptEngineering.trainset_request category_label
                number_of_examples]))
    /\ events
       = List.filter FallbackView.is_kept
           (map FallbackView.clean_line (splitlines (strip response)))
    /\ Forall
         (fun event =>
            (10 < length event)%nat
            /\ startswith_any PromptEngineering.SKIPPED_PREFIXES event = false
            /\ endswith_any PromptEngineering.SKIPPED_SUFFIXES event = false
            /\ (forall c r, event = c :: r -> isspace c = false)
            /\ (forall c r, event = r ++ [c] -> isspace c = false))
         events.
Proof.
  intros Hcall Hdec Hcaught.
  exists (PromptEngineering.fallback_loop (splitlines (strip response)) []).
  split; [| split].
  - unfold PromptEngineering.generate_events_for_category, bind, try_except,
      lift.
    rewrite call_lm_run, Hcall, Hdec, Hcaught.
    unfold print, ret, add_stdout, add_lm_log. cbn [fs stdout lm_log].
    rewrite <- !app_assoc. reflexivity.
  - rewrite fallback_loop_filter. reflexivity.
  - rewrite fallback_loop_filter. cbn [app].
    apply List.Forall_forall. intros event Hin.
    apply filter_In in Hin as [Hin Hkept].
    apply in_map_iff in Hin as (line & <- & _).
    unfold FallbackView.is_kept in Hkept.
    apply andb_true_iff in Hkept as [Hkept Hsuffix].
    apply andb_true_iff in Hkept as [Hlen Hprefix].
    apply negb_true_iff in Hsuffix, Hprefix. apply Nat.ltb_lt in Hlen.
    repeat split; try assumption.
    + intros c r Heq.
      exact (proj1 (strip_with_ends isspace _) c r Heq).
    + intros c r Heq.
      exact (proj2 (strip_with_ends isspace _) c r Heq).
Qed.

Lemma fallback_returns_clean_long_lines_witness :
  exists events,
    PromptEngineering.generate_events_for_category Scenario.cpython
      (Scenario.always Scenario.bullet_reply) (py "Wars") 3 Scenario.fresh
    = (Return events,
       World ∅
         [FailedToParseJSON (py "Wars") JSONDecodeError;
          RawOutput Scenario.bullet_reply;
          FallbackExtracted 2]
         [PromptEngineering.trainset_request (py "Wars") 3])
    /\ events = [py "Here are the events:";
                 py "The Battle of Hastings in 1066"].
Proof.
  destruct (fallback_returns_clean_long_lines Scenario.cpython
              (Scenario.always Scenario.bullet_reply) (py "Wars") 3
              Scenario.fresh Scenario.bullet_reply JSONDecodeError
              eq_refl ltac:(vm_compute; reflexivity) eq_refl)
    as (events & Hrun & Hevents & _).
  assert (Hlist : events = [py "Here are the events:";
                            py "The Battle of Hastings in 1066"]).
  { rewrite Hevents. vm_compute. reflexivity. }
  exists events. split; [| exact Hlist].
  rewrite Hrun, Hlist. vm_compute. reflexivity.
Defined.

(** X4.  One call of the generator sends exactly one request and never
    touches the files, whatever the model does; when the call to the
    model fails, the failure leaves the generator as it is and nothing
    is printed. *)
Theorem generator_sends_one_request
    (interp : interpreter) (service : nat -> request -> outcome str)
    (category_label : str) (number_of_examples : nat) (w : world) :
  lm_log (snd (PromptEngineering.generate_events_for_category interp service
                 category_label number_of_examples w))
  = lm_log w
    ++ [PromptEngineering.trainset_request category_label number_of_examples]
  /\ fs (snd (PromptEngineering.generate_events_for_category interp service
                category_label number_of_examples w)) = fs w
  /\ (forall e,
        service (length (lm_log w))
          (PromptEngineering.trainset_request category_label
             number_of_examples) = Raise e ->
        PromptEngineering.generate_events_for_category interp service
          category_label number_of_examples w
        = (Raise e,
           add_lm_log
             (PromptEngineering.trainset_request category_label
                number_of_examples) w)).
Proof.
  destruct (generate_events_footprint interp service category_label
              number_of_examples w) as [Hlog Hfs].
  split; [exact Hlog |]. split; [exact Hfs |].
  intros e He. exact (generate_events_failure interp service _ _ _ _ He).
Qed.

Lemma generator_sends_one_request_witness :
  PromptEngineering.generate_events_for_category Scenario.cpython
    (Scenario.fails_first Scenario.two_events) (py "Wars") 15 Scenario.fresh
  = (Raise (APIError (py "connection reset")),
     add_lm_log (PromptEngineering.trainset_request (py "Wars") 15)
       Scenario.fresh).
Proof.
  destruct (generator_sends_one_request Scenario.cpython
              (Scenario.fails_first Scenario.two_events) (py "Wars") 15
              Scenario.fresh) as (_ & _ & Hfail).
  apply Hfail. reflexivity.
Defined.

(** X5.  Section 1c without the dataset file, when the model answers
    every call with a text on which [json.loads] does not run out of
    recursion depth: one request per category, in the order of the list;
    the examples come grouped by category in that order, each with a
    label of the list; and the file receives the JSON text of exactly the
    examples that are returned. *)
Theorem first_run_builds_labeled_dataset
    (interp : interpreter) (service : nat -> request -> outcome str)
    (w : world) :
  (forall n r, exists reply, service n r = Return reply) ->
  (forall n r reply,
     service n r = Return reply ->
     exhausts_recursion interp (strip reply) = false) ->
  fs w !! PromptEngineering.DATASET_PATH = None ->
  exists pairs printed n1 n2 n3 n4,
    PromptEngineering.build_training_examples interp service w
    = (Return (map DatasetView.pe_example pairs),
       World
         (<[PromptEngineering.DATASET_PATH := DatasetView.file_text pairs]>
            (fs w))
         (stdout w ++ printed)
         (lm_log w
          ++ map (fun label =>
                    PromptEngineering.trainset_request label
                      PromptEngineering.examples_per_category)
               PromptEngineering.EVENT_CATEGORIES))
    /\ map snd pairs
       = repeat (py "Wars") n1 ++ repeat (py "Politics") n2
         ++ repeat (py "Science") n3 ++ repeat (py "Culture") n4
    /\ Forall (fun pair => In (snd pair) PromptEngineering.EVENT_CATEGORIES)
         pairs.
Proof.
  intros Hanswers Hdepth Habsent.
  destruct (build_training_examples_shape interp service Hanswers Hdepth w
              Habsent)
    as (ev1 & ev2 & ev3 & ev4 & printed & Hrun). cbn zeta in Hrun.
  eexists _, printed, (length ev1), (length ev2), (length ev3), (length ev4).
  split; [exact Hrun |]. split.
  - rewrite !map_app, !map_snd_labelled. reflexivity.
  - rewrite !Forall_app. repeat split;
      apply List.Forall_forall; intros pair Hin;
      apply in_map_iff in Hin as (event & <- & _); cbn; tauto.
Qed.

Lemma first_run_builds_labeled_dataset_witness :
  exists pairs,
    fst (PromptEngineering.build_training_examples Scenario.cpython
           (Scenario.always Scenario.bullet_reply) Scenario.fresh)
    = Return (map DatasetView.pe_example pairs)
    /\ length pairs = 8%nat.
Proof.
  destruct (first_run_builds_labeled_dataset Scenario.cpython
              (Scenario.always Scenario.bullet_reply) Scenario.fresh)
    as (pairs & printed & n1 & n2 & n3 & n4 & Hrun & _ & _).
  - intros n r. eexists. reflexivity.
  - intros n r reply [= <-]. vm_compute. reflexivity.
  - apply lookup_empty.
  - exists pairs. split; [rewrite Hrun; reflexivity |].
    assert (Hlen :
      match fst (PromptEngineering.build_training_examples Scenario.cpython
                   (Scenario.always Scenario.bullet_reply) Scenario.fresh) with
      | Return examples => length examples
      | Raise _ => O
      end = 8%nat) by (vm_compute; reflexivity).
    rewrite Hrun in Hlen. cbn [fst] in Hlen. rewrite length_map in Hlen.
    exact Hlen.
Defined.

(** X20.  The one exception of the [try] block that the generator lets
    through: when [json.loads] runs out of recursion depth on the reply,
    the generator raises [RecursionError], having sent its request and
    printed nothing; and when the model has answered, the generator
    raises in no other case. *)
Theorem generator_lets_recursion_error_through
    (interp : interpreter) (service : nat -> request -> outcome str)
    (category_label : str) (number_of_examples : nat) (w : world)
    (response : str) :
  service (length (lm_log w))
    (PromptEngineering.trainset_request category_label number_of_examples)
    = Return response ->
  (exhausts_recursion interp (strip response) = true ->
   PromptEngineering.generate_events_for_category interp service
     category_label number_of_examples w
   = (Raise RecursionError,
      add_lm_log
        (PromptEngineering.trainset_request category_label number_of_examples)
        w))
  /\ (forall e w',
        PromptEngineering.generate_events_for_category interp service
          category_label number_of_examples w = (Raise e, w') ->
        e = RecursionError
        /\ exhausts_recursion interp (strip response) = true).
Proof.
  intros Hcall. split.
  - intros Hdeep.
    unfold PromptEngineering.generate_events_for_category, bind, try_except,
      lift.
    rewrite call_lm_run, Hcall, (decode_events_exhausted _ _ Hdeep).
    reflexivity.
  - intros e w' Hrun.
    pose proof (generate_events_run interp service _ _ _ _ Hcall) as Hfst.
    rewrite Hrun in Hfst. cbn [fst] in Hfst.
    destruct (exhausts_recursion interp (strip response)).
    + injection Hfst as ->. split; reflexivity.
    + destruct (PromptEngineering.decode_events interp (strip response));
        discriminate Hfst.
Qed.

Lemma generator_lets_recursion_error_through_witness :
  PromptEngineering.generate_events_for_category Scenario.cpython
    (Scenario.always Scenario.deep_reply) (py "Wars") 15 Scenario.fresh
  = (Raise RecursionError,
     add_lm_log (PromptEngineering.trainset_request (py "Wars") 15)
       Scenario.fresh).
Proof.
  destruct (generator_lets_recursion_error_through Scenario.cpython
              (Scenario.always Scenario.deep_reply) (py "Wars") 15
              Scenario.fresh Scenario.deep_reply eq_refl)
    as [Hdeep _].
  apply Hdeep. vm_compute. reflexivity.
Defined.

(* ===================================================================== *)
(** * The dataset of dspy_example.py *)
(* ===================================================================== *)

Section DspyDataset.

Variable service : nat -> request -> outcome str.

Lemma generator_footprint cat w :
  snd (Dspy.generator service cat w)
  = add_lm_log (DatasetView.generator_request cat) w.
Proof. reflexivity. Qed.

(** The two nested loops of [generate_trainset] leave the files as they
    are. *)
Lemma dspy_generation_loop_keeps_files (cats : list str) acc w :
  fs (snd (for_each cats
             (fun trainset cat =>
                for_each (seq 0 15)
                  (fun trainset _ =>
                     let* ev := Dspy.generator service cat in
                     ret (trainset
                          ++ [Dspy.MkExample
                                [(py "event", JString ev);
                                 (py "category", JString cat)]
                                [py "event"]]))
                  trainset)
             acc w))
  = fs w.
Proof.
  apply (for_each_preserves (fun a b => fs b = fs a)).
  - reflexivity.
  - intros a b c Hab Hbc. congruence.
  - intros acc' cat w'.
    apply (for_each_preserves (fun a b => fs b = fs a)).
    + reflexivity.
    + intros a b c Hab Hbc. congruence.
    + intros acc'' i w''. unfold bind.
      pose proof (generator_footprint cat w'') as Hstep.
      destruct (Dspy.generator service cat w'') as [[ev | e] w1];
        cbn [snd] in *; subst w1; reflexivity.
Qed.

(** Reading the two fields of every example back leaves the state as it
    is. *)
Lemma dspy_rows_loop_keeps_state (trainset : list Dspy.Example) acc w :
  snd (for_each trainset
         (fun rows ex =>
            let* event := Dspy.field ex (py "event") in
            let* cat := Dspy.field ex (py "category") in
            ret (rows ++ [JObject [(py "event", event); (py "category", cat)]]))
         acc w)
  = w.
Proof.
  apply (for_each_preserves (fun a b => b = a)).
  - reflexivity.
  - intros a b c Hab Hbc. congruence.
  - intros acc' ex w'. unfold bind, Dspy.field.
    destruct (dict_get (py "event") (Dspy.store ex)); [| reflexivity].
    cbn [ret]. destruct (dict_get (py "category") (Dspy.store ex));
      reflexivity.
Qed.

Hypothesis service_answers : forall n r, exists reply, service n r = Return reply.

(** Fifteen calls for one category. *)
Lemma dspy_inner_loop cat (l : list nat) : forall trainset w,
  exists events,
    length events = length l
    /\ Forall (fun event => exists n r, service n r = Return event) events
    /\ for_each l
         (fun trainset _ =>
            let* ev := Dspy.generator service cat in
            ret (trainset
                 ++ [Dspy.MkExample
                       [(py "event", JString ev); (py "category", JString cat)]
                       [py "event"]]))
         trainset w
       = (Return (trainset
                  ++ map DatasetView.dspy_example
                       (map (fun event => (event, cat)) events)),
          World (fs w) (stdout w)
            (lm_log w
             ++ repeat (DatasetView.generator_request cat) (length l))).
Proof.
  induction l as [|i l IH]; intros trainset w.
  - exists []. split; [reflexivity |]. split; [constructor |].
    cbn. rewrite !app_nil_r. destruct w; reflexivity.
  - cbn [for_each]. unfold bind at 1. unfold bind at 1.
    unfold Dspy.generator at 1. rewrite call_lm_run.
    destruct (service_answers (length (lm_log w))
                (DspyPredict Dspy.GENERATOR_LM Dspy.GENERATOR_SIGNATURE cat))
      as [ev Hev].
    rewrite Hev. cbn [ret].
    match goal with |- context [for_each l ?b ?a ?w1] =>
      destruct (IH a w1) as (events & Hlen & Hfrom & ->) end.
    exists (ev :: events). split; [cbn; lia |].
    split; [constructor; [eauto | exact Hfrom] |].
    unfold add_lm_log. cbn [fs stdout lm_log length repeat map].
    rewrite <- !app_assoc. reflexivity.
Qed.

Lemma dspy_rows_loop (pairs : list (str * str)) : forall rows w,
  for_each (map DatasetView.dspy_example pairs)
    (fun rows ex =>
       let* event := Dspy.field ex (py "event") in
       let* cat := Dspy.field ex (py "category") in
       ret (rows ++ [JObject [(py "event", event); (py "category", cat)]]))
    rows w
  = (Return (rows
             ++ map (fun pair =>
                       JObject [(py "event", JString (fst pair));
                                (py "category", JString (snd pair))])
                  pairs),
     w).
Proof.
  induction pairs as [|pair pairs IH]; intros rows w.
  - cbn. rewrite app_nil_r. reflexivity.
  - cbn [map for_each]. unfold bind at 1.
    change ((let* event := Dspy.field (DatasetView.dspy_example pair)
                             (py "event") in
             let* cat := Dspy.field (DatasetView.dspy_example pair)
                           (py "category") in
             ret (rows ++ [JObject [(py "event", event);
                                    (py "category", cat)]])) w)
      with (Return (rows ++ [JObject [(py "event", JString (fst pair));
                                      (py "category", JString (snd pair))]]),
            w).
    cbv beta iota. rewrite IH, <- app_assoc. reflexivity.
Qed.

Lemma json_of_pe_examples (pairs : list (str * str)) :
  PromptEngineering.json_of_examples (map DatasetView.pe_example pairs)
  = JArray (map (fun pair =>
                   JObject [(py "event", JString (fst pair));
                            (py "category", JString (snd pair))])
              pairs).
Proof.
  unfold PromptEngineering.json_of_examples. rewrite map_map. reflexivity.
Qed.

End DspyDataset.

(* ===================================================================== *)
(** * Materialization: failures, first and second run *)
(* ===================================================================== *)

Section DspyFirstRun.

Variable interp : interpreter.
Variable service : nat -> request -> outcome str.
Hypothesis service_answers : forall n r, exists reply, service n r = Return reply.

Lemma generate_trainset_shape w :
  fs w !! Dspy.DATASET_PATH = None ->
  exists ev1 ev2 ev3 ev4,
    let pairs :=
      map (fun event => (event, py "Wars")) ev1
      ++ map (fun event => (event, py "Politics")) ev2
      ++ map (fun event => (event, py "Science")) ev3
      ++ map (fun event => (event, py "Culture")) ev4 in
    length ev1 = 15%nat /\ length ev2 = 15%nat
    /\ length ev3 = 15%nat /\ length ev4 = 15%nat
    /\ Forall (fun event => exists n r, service n r = Return event)
         (ev1 ++ ev2 ++ ev3 ++ ev4)
    /\ Dspy.generate_trainset interp service w
       = (Return (map DatasetView.dspy_example pairs),
          World (<[Dspy.DATASET_PATH := DatasetView.file_text pairs]> (fs w))
            (stdout w)
            (lm_log w
             ++ map DatasetView.generator_request
                  DatasetView.requested_labels)).
Proof.
  intros Habsent. unfold Dspy.generate_trainset. unfold bind at 1.
  rewrite (os_path_exists_absent _ _ Habsent).
  unfold Dspy.CATEGORIES. cbn [for_each]. unfold bind at 1. unfold bind at 1.
  destruct (dspy_inner_loop service service_answers (py "Wars") (seq 0 15)
              [] w) as (ev1 & Hl1 & Hf1 & ->).
  unfold bind at 1.
  match goal with |- context [for_each (seq 0 15) ?b ?a ?w1] =>
    destruct (dspy_inner_loop service service_answers (py "Politics")
                (seq 0 15) a w1) as (ev2 & Hl2 & Hf2 & ->) end.
  unfold bind at 1.
  match goal with |- context [for_each (seq 0 15) ?b ?a ?w1] =>
    destruct (dspy_inner_loop service service_answers (py "Science")
                (seq 0 15) a w1) as (ev3 & Hl3 & Hf3 & ->) end.
  unfold bind at 1.
  match goal with |- context [for_each (seq 0 15) ?b ?a ?w1] =>
    destruct (dspy_inner_loop service service_answers (py "Culture")
                (seq 0 15) a w1) as (ev4 & Hl4 & Hf4 & ->) end.
  cbn [ret app]. rewrite <- !app_assoc, <- !map_app.
  unfold bind at 1. rewrite dspy_rows_loop. cbn [app].
  exists ev1, ev2, ev3, ev4. cbn zeta.
  rewrite length_seq in Hl1, Hl2, Hl3, Hl4.
  repeat (split; [assumption |]).
  split; [rewrite !Forall_app; tauto |].
  unfold bind, json_dump, write_file, ret, set_fs. cbn [fs stdout lm_log].
  unfold DatasetView.file_text. rewrite json_of_pe_examples.
  rewrite length_seq, <- !app_assoc. reflexivity.
Qed.

End DspyFirstRun.

(** X6.  A run of the materialization step that raises leaves the files
    as they were, in both scripts: the dataset file is written last, so
    no partial dataset is ever stored. *)
Theorem failed_materialization_writes_nothing
    (interp : interpreter) (service : nat -> request -> outcome str)
    (w : world) :
  (forall e w',
     PromptEngineering.build_training_examples interp service w = (Raise e, w') ->
     fs w' = fs w)
  /\ (forall e w',
        Dspy.generate_trainset interp service w = (Raise e, w') -> fs w' = fs w).
Proof.
  split.
  - intros e w' Hrun.
    destruct (fs w !! PromptEngineering.DATASET_PATH) as [text|] eqn:Hfile.
    + rewrite (build_training_examples_existing interp service w text Hfile) in Hrun.
      discriminate Hrun.
    + unfold PromptEngineering.build_training_examples in Hrun.
      unfold bind at 1 in Hrun.
      rewrite (os_path_exists_absent _ _ Hfile) in Hrun. cbn [negb] in Hrun.
      unfold bind at 1 in Hrun.
      pose proof (generation_loop_keeps_files interp service
                    PromptEngineering.EVENT_CATEGORIES [] w) as Hkeep.
      match type of Hrun with
      | context [for_each ?l ?b ?a ?w0] =>
          destruct (for_each l b a w0) as [[examples | e0] w1]
      end; [discriminate Hrun |].
      injection Hrun as _ <-. exact Hkeep.
  - intros e w' Hrun.
    destruct (fs w !! Dspy.DATASET_PATH) as [text|] eqn:Hfile.
    + rewrite (generate_trainset_existing interp service w text Hfile) in Hrun.
      injection Hrun as _ <-. reflexivity.
    + unfold Dspy.generate_trainset in Hrun. unfold bind at 1 in Hrun.
      rewrite (os_path_exists_absent _ _ Hfile) in Hrun.
      unfold bind at 1 in Hrun.
      pose proof (dspy_generation_loop_keeps_files service Dspy.CATEGORIES
                    [] w) as Hkeep.
      match type of Hrun with
      | context [for_each Dspy.CATEGORIES ?b ?a ?w0] =>
          destruct (for_each Dspy.CATEGORIES b a w0) as [[trainset | e0] w1]
      end.
      * unfold bind at 1 in Hrun.
        pose proof (dspy_rows_loop_keeps_state trainset [] w1) as Hrows.
        match type of Hrun with
        | context [for_each trainset ?b ?a ?w0] =>
            destruct (for_each trainset b a w0) as [[rows | e1] w2]
        end; [discriminate Hrun |].
        injection Hrun as _ <-. cbn [snd] in *. subst w2. exact Hkeep.
      * injection Hrun as _ <-. exact Hkeep.
Qed.

Lemma failed_materialization_writes_nothing_witness :
  fs (snd (PromptEngineering.build_training_examples Scenario.cpython
             (Scenario.fails_first Scenario.two_events) Scenario.fresh))
  = fs Scenario.fresh.
Proof.
  destruct (failed_materialization_writes_nothing Scenario.cpython
              (Scenario.fails_first Scenario.two_events) Scenario.fresh)
    as [Hpe _].
  apply (Hpe (APIError (py "connection reset"))).
  vm_compute. reflexivity.
Defined.

(** X7.  After a first run of section 1c without the file, in which the
    model answers every call with a text on which [json.loads] does not
    run out of recursion depth, four requests have been sent and the
    file is in place; a second run then sends no request. *)
Theorem second_run_sends_no_request
    (interp : interpreter) (service : nat -> request -> outcome str)
    (w : world) :
  (forall n r, exists reply, service n r = Return reply) ->
  (forall n r reply,
     service n r = Return reply ->
     exhausts_recursion interp (strip reply) = false) ->
  fs w !! PromptEngineering.DATASET_PATH = None ->
  length (lm_log (snd (PromptEngineering.build_training_examples interp
                         service w)))
  = (length (lm_log w) + 4)%nat
  /\ is_Some
       (fs (snd (PromptEngineering.build_training_examples interp service w))
        !! PromptEngineering.DATASET_PATH)
  /\ lm_log
       (snd (PromptEngineering.build_training_examples interp service
               (snd (PromptEngineering.build_training_examples interp
                       service w))))
     = lm_log (snd (PromptEngineering.build_training_examples interp
                      service w)).
Proof.
  intros Hanswers Hdepth Habsent.
  exact (materialization_from_scratch interp service Hanswers Hdepth w
           Habsent).
Qed.

Lemma second_run_sends_no_request_witness :
  length (lm_log (snd (PromptEngineering.build_training_examples
                         Scenario.cpython
                         (Scenario.always Scenario.bullet_reply)
                         Scenario.fresh))) = 4%nat.
Proof.
  destruct (second_run_sends_no_request Scenario.cpython
              (Scenario.always Scenario.bullet_reply) Scenario.fresh)
    as (Hlen & _ & _).
  - intros n r. eexists. reflexivity.
  - intros n r reply [= <-]. vm_compute. reflexivity.
  - apply lookup_empty.
  - exact Hlen.
Defined.

(** X8.  [generate_trainset] without the dataset file, when the model
    answers every call: sixty requests, fifteen per category in the
    order of the list; sixty examples with these labels in this order
    are returned; and the file receives their JSON text, in the layout
    prompt_engineering.py writes. *)
Theorem generate_trainset_from_scratch
    (interp : interpreter) (service : nat -> request -> outcome str)
    (w : world) :
  (forall n r, exists reply, service n r = Return reply) ->
  fs w !! Dspy.DATASET_PATH = None ->
  exists pairs,
    Dspy.generate_trainset interp service w
    = (Return (map DatasetView.dspy_example pairs),
       World (<[Dspy.DATASET_PATH := DatasetView.file_text pairs]> (fs w))
         (stdout w)
         (lm_log w
          ++ map DatasetView.generator_request DatasetView.requested_labels))
    /\ map snd pairs = DatasetView.requested_labels
    /\ length pairs = 60%nat.
Proof.
  intros Hanswers Habsent.
  destruct (generate_trainset_shape interp service Hanswers w Habsent)
    as (ev1 & ev2 & ev3 & ev4 & Hl1 & Hl2 & Hl3 & Hl4 & _ & Hrun).
  eexists. split; [exact Hrun |].
  assert (Hlabels :
    map snd
      (map (fun event => (event, py "Wars")) ev1
       ++ map (fun event => (event, py "Politics")) ev2
       ++ map (fun event => (event, py "Science")) ev3
       ++ map (fun event => (event, py "Culture")) ev4)
    = DatasetView.requested_labels).
  { rewrite !map_app, !map_snd_labelled, Hl1, Hl2, Hl3, Hl4. reflexivity. }
  split; [exact Hlabels |].
  rewrite <- (length_map snd), Hlabels. reflexivity.
Qed.

Lemma generate_trainset_from_scratch_witness :
  exists pairs,
    fst (Dspy.generate_trainset Scenario.cpython (Scenario.always (py "An event"))
           Scenario.fresh)
    = Return (map DatasetView.dspy_example pairs)
    /\ length pairs = 60%nat.
Proof.
  destruct (generate_trainset_from_scratch Scenario.cpython (Scenario.always (py "An event"))
              Scenario.fresh) as (pairs & Hrun & _ & Hlen).
  - intros n r. eexists. reflexivity.
  - apply lookup_empty.
  - exists pairs. split; [rewrite Hrun; reflexivity | exact Hlen].
Defined.

(** X9.  When the materialization step returns, the dataset file exists,
    in both scripts: section 5 of prompt_engineering.py then reads it
    without [FileNotFoundError], and the test [os.path.exists] that
    dspy_example.py makes before evaluating succeeds. *)
Theorem dataset_file_exists_after_materialization
    (interp : interpreter) (service : nat -> request -> outcome str)
    (w : world) :
  (forall examples w',
     PromptEngineering.build_training_examples interp service w
     = (Return examples, w') ->
     exists text,
       fs w' !! PromptEngineering.DATASET_PATH = Some text
       /\ PromptEngineering.load_labeled_event_examples interp w'
          = (json_loads interp text, w'))
  /\ (forall trainset w',
        Dspy.generate_trainset interp service w = (Return trainset, w') ->
        os_path_exists Dspy.DATASET_PATH w' = (Return true, w')).
Proof.
  split.
  - intros examples w' Hrun.
    assert (Hfile : is_Some (fs w' !! PromptEngineering.DATASET_PATH)).
    { destruct (fs w !! PromptEngineering.DATASET_PATH) as [text|] eqn:Hfile.
      - rewrite (build_training_examples_existing interp service w text Hfile)
          in Hrun.
        injection Hrun as _ <-. cbn [fs add_stdout]. rewrite Hfile. eauto.
      - unfold PromptEngineering.build_training_examples in Hrun.
        unfold bind at 1 in Hrun.
        rewrite (os_path_exists_absent _ _ Hfile) in Hrun. cbn [negb] in Hrun.
        unfold bind at 1 in Hrun.
        match type of Hrun with
        | context [for_each ?l ?b ?a ?w0] =>
            destruct (for_each l b a w0) as [[ex | e0] w1]
        end; [| discriminate Hrun].
        unfold bind, print, json_dump, write_file, ret in Hrun.
        injection Hrun as _ <-. cbn [fs set_fs add_stdout].
        rewrite lookup_insert_eq. eauto. }
    destruct Hfile as [text Htext]. exists text. split; [exact Htext |].
    exact (json_load_present interp _ _ _ Htext).
  - intros trainset w' Hrun.
    assert (Hfile : is_Some (fs w' !! Dspy.DATASET_PATH)).
    { destruct (fs w !! Dspy.DATASET_PATH) as [text|] eqn:Hfile.
      - rewrite (generate_trainset_existing interp service w text Hfile) in Hrun.
        injection Hrun as _ <-. rewrite Hfile. eauto.
      - unfold Dspy.generate_trainset in Hrun. unfold bind at 1 in Hrun.
        rewrite (os_path_exists_absent _ _ Hfile) in Hrun.
        unfold bind at 1 in Hrun.
        match type of Hrun with
        | context [for_each Dspy.CATEGORIES ?b ?a ?w0] =>
            destruct (for_each Dspy.CATEGORIES b a w0) as [[ts | e0] w1]
        end; [| discriminate Hrun].
        unfold bind at 1 in Hrun.
        match type of Hrun with
        | context [for_each ts ?b ?a ?w0] =>
            destruct (for_each ts b a w0) as [[rows | e1] w2]
        end; [| discriminate Hrun].
        unfold bind, json_dump, write_file, ret in Hrun.
        injection Hrun as _ <-. cbn [fs set_fs].
        rewrite lookup_insert_eq. eauto. }
    destruct Hfile as [text Htext].
    exact (os_path_exists_present _ _ _ Htext).
Qed.

Lemma dataset_file_exists_after_materialization_witness :
  os_path_exists Dspy.DATASET_PATH
    (snd (Dspy.generate_trainset Scenario.cpython (Scenario.always (py "unused"))
            (Scenario.with_dataset (py "[]"))))
  = (Return true,
     snd (Dspy.generate_trainset Scenario.cpython (Scenario.always (py "unused"))
            (Scenario.with_dataset (py "[]")))).
Proof.
  destruct (dataset_file_exists_after_materialization Scenario.cpython
              (Scenario.always (py "unused"))
              (Scenario.with_dataset (py "[]"))) as [_ Hdspy].
  apply (Hdspy []).
  rewrite (generate_trainset_existing _ _ _ (py "[]"))
    by apply lookup_singleton_eq.
  reflexivity.
Defined.

(* ===================================================================== *)
(** * The evaluators, further *)
(* ===================================================================== *)

Section EvaluatorFacts.

(** One turn of the loop of [evaluate_classification_function] with a
    function without effects. *)
Lemma pe_loop_body_stateless name f correct example w :
  PromptEngineering.loop_body (EvaluatorView.stateless_classifier name f)
    correct example w
  = (match EvaluatorView.pe_verdict f example with
     | Return true => Return (S correct)
     | Return false => Return correct
     | Raise e => Raise e
     end, w).
Proof.
  unfold PromptEngineering.loop_body, bind, getitem,
    EvaluatorView.stateless_classifier, EvaluatorView.pe_verdict.
  cbn [PromptEngineering.fn_call].
  destruct (dict_get (py "event") example) as [event|]; cbn [ret raise];
    [| reflexivity].
  destruct (dict_get (py "category") example) as [true_label|];
    cbn [ret raise]; [| reflexivity].
  destruct (f event) as [label | e]; [| reflexivity].
  case_bool_decide; reflexivity.
Qed.

Lemma pe_loop_stateless name f (examples : list (list (str * str))) :
  (forall example, In example examples ->
                   exists b, EvaluatorView.pe_verdict f example = Return b) ->
  forall correct w,
    for_each examples
      (PromptEngineering.loop_body (EvaluatorView.stateless_classifier name f))
      correct w
    = (Return (correct
               + length (List.filter (EvaluatorView.pe_is_correct f) examples))%nat,
       w).
Proof.
  induction examples as [|example rest IH]; intros Hall correct w.
  - cbn. rewrite Nat.add_0_r. reflexivity.
  - cbn [for_each List.filter]. unfold bind.
    rewrite pe_loop_body_stateless.
    destruct (Hall example (or_introl eq_refl)) as [b Hb].
    unfold EvaluatorView.pe_is_correct at 1. rewrite Hb.
    assert (Hrest : forall ex, In ex rest ->
                      exists b, EvaluatorView.pe_verdict f ex = Return b).
    { intros ex Hex. apply Hall. right. exact Hex. }
    destruct b; rewrite (IH Hrest); cbn [length];
      rewrite ?Nat.add_succ_r; reflexivity.
Qed.

Variable service : nat -> request -> outcome str.
Hypothesis service_answers : forall n r, exists reply, service n r = Return reply.

(** The reasoned variant returns a label and records its request,
    whenever the model answers. *)
Lemma cot_returns_and_logs event_text w :
  exists label,
    PromptEngineering.classify_with_chain_of_thought service event_text w
    = (Return label,
       add_lm_log (PromptEngineering.cot_request event_text) w).
Proof.
  destruct (service_answers (length (lm_log w))
              (PromptEngineering.cot_request event_text)) as [response Hcall].
  unfold PromptEngineering.classify_with_chain_of_thought, bind.
  rewrite call_lm_run, Hcall.
  destruct (PromptEngineering.first_label_in _ _); [eexists; reflexivity |].
  destruct (last_item _); [| eexists; reflexivity].
  destruct (str_in_list _ _); eexists; reflexivity.
Qed.

Lemma cot_loop name (examples : list (list (str * str))) :
  Forall EvaluatorView.has_both_fields examples ->
  forall correct w,
    exists correct',
      for_each examples
        (PromptEngineering.loop_body
           (PromptEngineering.Classifier name
              (PromptEngineering.classify_with_chain_of_thought service)))
        correct w
      = (Return correct',
         World (fs w) (stdout w)
           (lm_log w
            ++ map (fun example =>
                      PromptEngineering.cot_request
                        (EvaluatorView.event_of example))
                 examples))
      /\ (correct <= correct' <= correct + length examples)%nat.
Proof.
  induction examples as [|example rest IH]; intros Hall correct w.
  - exists correct. cbn. rewrite app_nil_r. destruct w.
    split; [reflexivity | lia].
  - apply Forall_cons_iff in Hall as [[[event Hevent] [label Hlabel]] Hrest].
    cbn [for_each map]. unfold bind at 1.
    unfold PromptEngineering.loop_body at 1, bind, getitem.
    cbn [PromptEngineering.fn_call].
    unfold EvaluatorView.event_of at 1. rewrite Hevent, Hlabel.
    cbn [ret default].
    destruct (cot_returns_and_logs event w) as [predicted ->].
    match goal with
    | |- context [if ?c then _ else _] => destruct c
    end; cbn [ret].
    + destruct (IH Hrest (S correct)
                  (add_lm_log (PromptEngineering.cot_request event) w))
        as (c' & -> & Hc').
      exists c'. unfold add_lm_log. cbn [fs stdout lm_log length].
      rewrite <- app_assoc. split; [reflexivity | lia].
    + destruct (IH Hrest correct
                  (add_lm_log (PromptEngineering.cot_request event) w))
        as (c' & -> & Hc').
      exists c'. unfold add_lm_log. cbn [fs stdout lm_log length].
      rewrite <- app_assoc. split; [reflexivity | lia].
Qed.

End EvaluatorFacts.

(** X10.  On a non-empty list [evaluate_dspy_model] never raises,
    whatever the module does on each example: it returns and prints the
    accuracy, a number of correct answers that does not exceed the number
    of examples, over the number of examples. *)
Theorem evaluate_dspy_model_always_reports
    (model : str -> M Dspy.Prediction)
    (test_data : list (list (str * str))) (model_name : str) (w : world) :
  test_data <> [] ->
  exists correct w1,
    Dspy.count_correct model test_data w = (Return correct, w1)
    /\ (correct <= length test_data)%nat
    /\ Dspy.evaluate_dspy_model model test_data model_name w
       = (Return (Qmake (Z.of_nat correct) (Pos.of_nat (length test_data))),
          World (fs w1)
            (stdout w1
             ++ [ReportDspyModel model_name;
                 ReportAccuracy
                   (Qmake (Z.of_nat correct)
                      (Pos.of_nat (length test_data)));
                 ReportElapsed; BlankLine])
            (lm_log w1)).
Proof.
  intros Hne. unfold Dspy.evaluate_dspy_model, Dspy.count_correct, bind.
  destruct (dspy_loop_counts model test_data O w) as (c & w1 & -> & Hc).
  exists c, w1. split; [reflexivity |]. split; [exact Hc |].
  destruct test_data as [|example rest]; [congruence |].
  cbn [length true_divide]. unfold print, ret, add_stdout.
  cbn [fs stdout lm_log].
  rewrite <- !app_assoc. reflexivity.
Qed.

Lemma evaluate_dspy_model_always_reports_witness :
  exists correct,
    fst (Dspy.evaluate_dspy_model Scenario.flaky_module
           [Scenario.treaty; Scenario.moon_landing] (py "Baseline")
           Scenario.fresh)
    = Return (Qmake (Z.of_nat correct) 2)
    /\ (correct <= 2)%nat.
Proof.
  destruct (evaluate_dspy_model_always_reports Scenario.flaky_module
              [Scenario.treaty; Scenario.moon_landing] (py "Baseline")
              Scenario.fresh ltac:(discriminate))
    as (correct & w1 & _ & Hle & Hrun).
  exists correct. split; [rewrite Hrun; reflexivity | exact Hle].
Defined.

(** X11.  With a module without effects, [evaluate_dspy_model] returns
    the number of examples answered with their label over the number of
    all examples; an example on which the module fails, or that lacks a
    field, is printed as an error, in the order of the examples, and
    counts in the denominator only.  Files and requests are left as they
    were. *)
Theorem evaluate_dspy_model_counts_matches
    (f : str -> outcome str)
    (test_data : list (list (str * str))) (model_name : str) (w : world) :
  test_data <> [] ->
  Dspy.evaluate_dspy_model (EvaluatorView.stateless_module f) test_data
    model_name w
  = (Return
       (Qmake
          (Z.of_nat
             (length (List.filter (EvaluatorView.is_correct f) test_data)))
          (Pos.of_nat (length test_data))),
     World (fs w)
       (stdout w
        ++ concat (map (EvaluatorView.failure_lines f) test_data)
        ++ [ReportDspyModel model_name;
            ReportAccuracy
              (Qmake
                 (Z.of_nat
                    (length
                       (List.filter (EvaluatorView.is_correct f) test_data)))
                 (Pos.of_nat (length test_data)));
            ReportElapsed; BlankLine])
       (lm_log w)).
Proof.
  intros Hne. unfold Dspy.evaluate_dspy_model, Dspy.count_correct, bind.
  rewrite dspy_loop_stateless.
  destruct test_data as [|example rest]; [congruence |].
  cbn [length true_divide]. unfold print, ret, add_stdout.
  cbn [fs stdout lm_log].
  rewrite <- !app_assoc. reflexivity.
Qed.

Lemma evaluate_dspy_model_counts_matches_witness :
  fst (Dspy.evaluate_dspy_model
         (EvaluatorView.stateless_module (fun _ => Return (py "Wars")))
         [Scenario.treaty; Scenario.unlabeled; Scenario.moon_landing]
         (py "Stub") Scenario.fresh)
  = Return (Qmake 1 3).
Proof.
  rewrite (evaluate_dspy_model_counts_matches
             (fun _ => Return (py "Wars"))
             [Scenario.treaty; Scenario.unlabeled; Scenario.moon_landing]
             (py "Stub") Scenario.fresh ltac:(discriminate)).
  vm_compute. reflexivity.
Defined.

(** X12.  With a function without effects that answers every example,
    [evaluate_classification_function] prints the number of examples
    answered with their label over the number of examples, after the name
    of the function, and changes nothing else. *)
Theorem evaluate_classification_function_counts_matches
    (name : str) (f : str -> outcome str)
    (examples : list (list (str * str))) (w : world) :
  examples <> [] ->
  (forall example, In example examples ->
                   exists b, EvaluatorView.pe_verdict f example = Return b) ->
  PromptEngineering.evaluate_classification_function
    (EvaluatorView.stateless_classifier name f) examples w
  = (Return tt,
     World (fs w)
       (stdout w
        ++ [ReportFunction name;
            ReportAccuracy
              (Qmake
                 (Z.of_nat
                    (length
                       (List.filter (EvaluatorView.pe_is_correct f) examples)))
                 (Pos.of_nat (length examples)));
            ReportElapsed; BlankLine])
       (lm_log w)).
Proof.
  intros Hne Hall.
  unfold PromptEngineering.evaluate_classification_function,
    PromptEngineering.count_correct, bind.
  rewrite (pe_loop_stateless name f examples Hall).
  destruct examples as [|example rest]; [congruence |].
  cbn [length true_divide]. unfold print, ret, add_stdout.
  cbn [fs stdout lm_log PromptEngineering.fn_name
       EvaluatorView.stateless_classifier Nat.add].
  rewrite <- !app_assoc. reflexivity.
Qed.

Lemma evaluate_classification_function_counts_matches_witness :
  stdout (snd (PromptEngineering.evaluate_classification_function
                 (EvaluatorView.stateless_classifier (py "stub")
                    (fun _ => Return (py "Science")))
                 [Scenario.treaty; Scenario.moon_landing] Scenario.fresh))
  = [ReportFunction (py "stub"); ReportAccuracy (Qmake 1 2); ReportElapsed;
     BlankLine].
Proof.
  rewrite (evaluate_classification_function_counts_matches (py "stub")
             (fun _ => Return (py "Science"))
             [Scenario.treaty; Scenario.moon_landing] Scenario.fresh).
  - vm_compute. reflexivity.
  - discriminate.
  - intros example [<- | [<- | []]]; eexists; vm_compute; reflexivity.
Defined.

(** X13.  An example that has its event and lacks its label: in
    [evaluate_classification_function] it raises [KeyError] before the
    classifier is called, so nothing is sent for it and the evaluation
    ends there; in [evaluate_dspy_model] the module is called first, the
    [KeyError] is printed and the loop goes on with the counter
    unchanged. *)
Theorem example_without_label
    (example : list (str * str)) (event : str)
    (rest : list (list (str * str))) (w : world) :
  dict_get (py "event") example = Some event ->
  dict_get (py "category") example = None ->
  (forall classify_fn,
     PromptEngineering.evaluate_classification_function classify_fn
       (example :: rest) w
     = (Raise (KeyError (py "category")), w))
  /\ (forall model correct pred w1,
        model event w = (Return pred, w1) ->
        for_each (example :: rest) (Dspy.loop_body model) correct w
        = for_each rest (Dspy.loop_body model) correct
            (add_stdout (ErrorProcessingExample (KeyError (py "category")))
               w1)).
Proof.
  intros Hevent Hlabel. split.
  - intros classify_fn.
    unfold PromptEngineering.evaluate_classification_function,
      PromptEngineering.count_correct.
    cbn [for_each]. unfold bind at 1. unfold bind at 1.
    unfold PromptEngineering.loop_body, bind, getitem.
    rewrite Hevent, Hlabel. reflexivity.
  - intros model correct pred w1 Hmodel.
    apply dspy_loop_skips_failure.
    unfold Dspy.try_example, bind, getitem.
    rewrite Hevent, Hlabel. cbn [ret]. rewrite Hmodel. reflexivity.
Qed.

Lemma example_without_label_witness :
  PromptEngineering.evaluate_classification_function Scenario.flaky_baseline
    [Scenario.unlabeled; Scenario.treaty] Scenario.fresh
  = (Raise (KeyError (py "category")), Scenario.fresh).
Proof.
  destruct (example_without_label Scenario.unlabeled (py "A coup")
              [Scenario.treaty] Scenario.fresh eq_refl eq_refl)
    as [Hpe _].
  apply Hpe.
Defined.

(** X14.  [evaluate_classification_function] with the reasoned variant,
    on examples that have both fields and a model that answers every
    call: the evaluation returns, one request is sent per example, in the
    order of the examples and for the event of each, and the four lines
    of the report are printed with a count that does not exceed the
    number of examples. *)
Theorem chain_of_thought_evaluation_sends_one_request_per_example
    (service : nat -> request -> outcome str) (name : str)
    (examples : list (list (str * str))) (w : world) :
  (forall n r, exists reply, service n r = Return reply) ->
  Forall EvaluatorView.has_both_fields examples ->
  examples <> [] ->
  exists correct,
    (correct <= length examples)%nat
    /\ PromptEngineering.evaluate_classification_function
         (PromptEngineering.Classifier name
            (PromptEngineering.classify_with_chain_of_thought service))
         examples w
       = (Return tt,
          World (fs w)
            (stdout w
             ++ [ReportFunction name;
                 ReportAccuracy
                   (Qmake (Z.of_nat correct) (Pos.of_nat (length examples)));
                 ReportElapsed; BlankLine])
            (lm_log w
             ++ map (fun example =>
                       PromptEngineering.cot_request
                         (EvaluatorView.event_of example))
                  examples)).
Proof.
  intros Hanswers Hfields Hne.
  unfold PromptEngineering.evaluate_classification_function,
    PromptEngineering.count_correct, bind.
  destruct (cot_loop service Hanswers name examples Hfields O w)
    as (correct & -> & Hc).
  exists correct. split; [lia |].
  destruct examples as [|example rest]; [congruence |].
  cbn [length true_divide]. unfold print, ret, add_stdout.
  cbn [fs stdout lm_log PromptEngineering.fn_name].
  rewrite <- !app_assoc. reflexivity.
Qed.

Lemma chain_of_thought_evaluation_sends_one_request_per_example_witness :
  lm_log (snd (PromptEngineering.evaluate_classification_function
                 (PromptEngineering.Classifier (py "cot")
                    (PromptEngineering.classify_with_chain_of_thought
                       (Scenario.always (py "Science"))))
                 [Scenario.treaty; Scenario.moon_landing] Scenario.fresh))
  = [PromptEngineering.cot_request (py "Treaty signed ending a war");
     PromptEngineering.cot_request (py "First crewed landing on the Moon")].
Proof.
  destruct (chain_of_thought_evaluation_sends_one_request_per_example
              (Scenario.always (py "Science")) (py "cot")
              [Scenario.treaty; Scenario.moon_landing] Scenario.fresh)
    as (correct & _ & Hrun).
  - intros n r. eexists. reflexivity.
  - repeat constructor; eexists; reflexivity.
  - discriminate.
  - rewrite Hrun. reflexivity.
Defined.

(** X15.  The metric given to the optimizer and the test of the
    evaluation loop agree: for an example of the training set and the
    example of the test data with the same event and label, [accuracy]
    is true exactly when [evaluate_dspy_model] counts the prediction as
    correct. *)
Theorem accuracy_metric_agrees_with_evaluation
    (pair : str * str) (pred : Dspy.Prediction)
    (model : str -> M Dspy.Prediction) (correct : nat) (w w1 : world) :
  model (fst pair) w = (Return pred, w1) ->
  Dspy.accuracy (DatasetView.dspy_example pair) pred w1
  = (Return (bool_decide (Dspy.category pred = snd pair)), w1)
  /\ Dspy.loop_body model correct (DatasetView.pe_example pair) w
     = (Return (if bool_decide (Dspy.category pred = snd pair)
                then S correct else correct),
        w1).
Proof.
  intros Hmodel. split; [reflexivity |].
  unfold Dspy.loop_body, try_except, Dspy.try_example, bind, getitem,
    DatasetView.pe_example.
  rewrite example_dict_event, example_dict_category. cbn [ret].
  rewrite Hmodel. case_bool_decide; reflexivity.
Qed.

Lemma accuracy_metric_agrees_with_evaluation_witness :
  Dspy.accuracy
    (DatasetView.dspy_example (py "Treaty signed ending a war", py "Wars"))
    (Dspy.MkPrediction (py "Wars")) Scenario.fresh
  = (Return true, Scenario.fresh).
Proof.
  destruct (accuracy_metric_agrees_with_evaluation
              (py "Treaty signed ending a war", py "Wars")
              (Dspy.MkPrediction (py "Wars"))
              (EvaluatorView.stateless_module (fun _ => Return (py "Wars")))
              0 Scenario.fresh Scenario.fresh eq_refl) as [Hmetric _].
  exact Hmetric.
Defined.

(* ===================================================================== *)
(** * The dataset file read back *)
(* ===================================================================== *)

Section StringRoundTrip.

Lemma hex_val_hex_digit d : d < 16 -> hex_val (hex_digit d) = Some d.
Proof.
  intros Hd.
  assert (H : d = 0 \/ d = 1 \/ d = 2 \/ d = 3 \/ d = 4 \/ d = 5 \/ d = 6
              \/ d = 7 \/ d = 8 \/ d = 9 \/ d = 10 \/ d = 11 \/ d = 12
              \/ d = 13 \/ d = 14 \/ d = 15) by lia.
  repeat (destruct H as [-> | H]; [reflexivity |]). subst d. reflexivity.
Qed.

(** The four digits written for a code point below 65536 are read back
    as this code point. *)
Lemma hex4_u_escape c rest :
  c < 65536 ->
  hex4 (hex_digit (c / 4096 mod 16) :: hex_digit (c / 256 mod 16)
        :: hex_digit (c / 16 mod 16) :: hex_digit (c mod 16) :: rest)
  = Some (c, rest).
Proof.
  intros Hc. cbn [hex4].
  rewrite !hex_val_hex_digit by (apply N.mod_lt; discriminate).
  f_equal. f_equal.
  pose proof (N.div_mod c 16 ltac:(discriminate)) as H0.
  pose proof (N.div_mod (c / 16) 16 ltac:(discriminate)) as H1.
  pose proof (N.div_mod (c / 16 / 16) 16 ltac:(discriminate)) as H2.
  rewrite !N.Div0.div_div in H1, H2. change (16 * 16) with 256 in *.
  rewrite ?N.Div0.div_div in H2. change (256 * 16) with 4096 in *.
  assert (H3 : c / 4096 < 16).
  { apply N.Div0.div_lt_upper_bound. lia. }
  rewrite (N.mod_small (c / 4096) 16) by exact H3.
  lia.
Qed.


Lemma scan_plain f acc c r :
  (c =? 34) = false -> (c =? 92) = false -> (c <? 32) = false ->
  scanstring_aux (S f) acc (c :: r) = scanstring_aux f (c :: acc) r.
Proof.
  intros H34 H92 H32. cbn [scanstring_aux]. rewrite H34, H92, H32.
  reflexivity.
Qed.

Lemma scan_simple_escape f acc e x r :
  (e =? 117) = false -> unescape e = Some x ->
  scanstring_aux (S f) acc (92 :: e :: r) = scanstring_aux f (x :: acc) r.
Proof.
  intros H117 Hx. cbn [scanstring_aux].
  change (92 =? 34) with false. change (92 =? 92) with true.
  cbv beta iota. rewrite H117, Hx. reflexivity.
Qed.

Lemma scan_u_escape f acc c r :
  c < 65536 -> is_high_surrogate c = false ->
  scanstring_aux (S f) acc (u_escape c ++ r) = scanstring_aux f (c :: acc) r.
Proof.
  intros Hc Hhigh. unfold u_escape. cbn [app scanstring_aux].
  change (92 =? 34) with false. change (92 =? 92) with true.
  change (117 =? 117) with true. cbv beta iota.
  rewrite (hex4_u_escape c r Hc), Hhigh. reflexivity.
Qed.

Lemma scan_surrogate_pair f acc c r :
  65536 <= c -> c < 1114112 ->
  scanstring_aux (S f) acc
    (u_escape (55296 + (c - 65536) / 1024 mod 1024)
     ++ u_escape (56320 + (c - 65536) mod 1024) ++ r)
  = scanstring_aux f (c :: acc) r.
Proof.
  intros Hlo Hhi.
  assert (Hq : (c - 65536) / 1024 < 1024).
  { apply N.Div0.div_lt_upper_bound. lia. }
  rewrite (N.mod_small _ 1024 Hq).
  pose proof (N.div_mod (c - 65536) 1024 ltac:(discriminate)) as Hdm.
  pose proof (N.mod_lt (c - 65536) 1024 ltac:(discriminate)) as Hm.
  set (q := (c - 65536) / 1024) in *. set (m := (c - 65536) mod 1024) in *.
  clearbody q m.
  assert (Hjoin : join_surrogates (55296 + q) (56320 + m) = c).
  { unfold join_surrogates. lia. }
  assert (Hhi1 : is_high_surrogate (55296 + q) = true).
  { unfold is_high_surrogate.
    apply andb_true_iff. split; apply N.leb_le; lia. }
  assert (Hlo1 : is_low_surrogate (56320 + m) = true).
  { unfold is_low_surrogate.
    apply andb_true_iff. split; apply N.leb_le; lia. }
  unfold u_escape at 1. cbn [app scanstring_aux].
  change (92 =? 34) with false. change (92 =? 92) with true.
  change (117 =? 117) with true. cbv beta iota.
  rewrite (hex4_u_escape (55296 + q) _ ltac:(lia)), Hhi1.
  unfold u_escape. cbn [app].
  change (92 =? 92) with true. change (117 =? 117) with true.
  cbv beta iota. cbn [andb].
  rewrite (hex4_u_escape (56320 + m) r ltac:(lia)), Hlo1, Hjoin.
  reflexivity.
Qed.

Lemma escape_char_length c : (1 <= length (escape_char c))%nat.
Proof.
  unfold escape_char, u_escape.
  repeat match goal with
         | |- context [if ?b then _ else _] => destruct b
         end; cbn; lia.
Qed.

(** One character as [json.dumps] writes it is read back as this
    character. *)
Lemma scan_escape_char f acc c r :
  DatasetView.is_scalar c = true ->
  scanstring_aux (S f) acc (escape_char c ++ r)
  = scanstring_aux f (c :: acc) r.
Proof.
  intros Hscalar. unfold DatasetView.is_scalar in Hscalar.
  apply andb_true_iff in Hscalar as [Hrange Hsur].
  apply N.ltb_lt in Hrange. apply negb_true_iff in Hsur.
  unfold escape_char in *.
  destruct (c =? 34) eqn:H34.
  { apply N.eqb_eq in H34. subst c. apply scan_simple_escape; reflexivity. }
  destruct (c =? 92) eqn:H92.
  { apply N.eqb_eq in H92. subst c. apply scan_simple_escape; reflexivity. }
  destruct (c =? 10) eqn:H10.
  { apply N.eqb_eq in H10. subst c. apply scan_simple_escape; reflexivity. }
  destruct (c =? 13) eqn:H13.
  { apply N.eqb_eq in H13. subst c. apply scan_simple_escape; reflexivity. }
  destruct (c =? 9) eqn:H9.
  { apply N.eqb_eq in H9. subst c. apply scan_simple_escape; reflexivity. }
  destruct (c =? 8) eqn:H8.
  { apply N.eqb_eq in H8. subst c. apply scan_simple_escape; reflexivity. }
  destruct (c =? 12) eqn:H12.
  { apply N.eqb_eq in H12. subst c. apply scan_simple_escape; reflexivity. }
  destruct ((32 <=? c) && (c <=? 126)) eqn:Hprint.
  { apply andb_true_iff in Hprint as [H32 _]. apply N.leb_le in H32.
    cbn [app]. apply scan_plain; [exact H34 | exact H92 | apply N.ltb_ge; exact H32]. }
  destruct (c <? 65536) eqn:Hbmp.
  { apply N.ltb_lt in Hbmp. apply scan_u_escape; [exact Hbmp |].
    unfold is_high_surrogate.
    destruct (55296 <=? c) eqn:Ha; [| reflexivity].
    destruct (c <=? 56319) eqn:Hb; [| reflexivity].
    apply N.leb_le in Hb. cbn [andb] in Hsur.
    apply N.leb_gt in Hsur. lia. }
  apply N.ltb_ge in Hbmp. rewrite <- app_assoc. apply scan_surrogate_pair; assumption.
Qed.

(** A string as [json.dumps] writes it, without its opening quote, is
    read back by the scanner as this string. *)
Lemma scanstring_aux_encoded (s : str) : forall acc rest n,
  forallb DatasetView.is_scalar s = true ->
  (length (concat (map escape_char s) ++ 34%N :: rest) < n)%nat ->
  scanstring_aux n acc (concat (map escape_char s) ++ 34 :: rest)
  = Some (rev acc ++ s, rest).
Proof.
  induction s as [|c s IH]; intros acc rest n Hscalar Hn.
  - destruct n as [|f]; [lia |]. cbn. rewrite app_nil_r. reflexivity.
  - cbn [forallb] in Hscalar. apply andb_true_iff in Hscalar as [Hc Hs].
    cbn [map concat] in *. rewrite <- app_assoc in *.
    rewrite length_app in Hn.
    destruct n as [|f]; [lia |].
    pose proof (escape_char_length c) as Hlen.
    rewrite (scan_escape_char f acc c _ Hc).
    rewrite IH by (try exact Hs; lia).
    cbn [rev]. rewrite <- app_assoc. reflexivity.
Qed.

Lemma scanstring_encoded (s rest : str) :
  forallb DatasetView.is_scalar s = true ->
  scanstring (concat (map escape_char s) ++ 34 :: rest) = Some (s, rest).
Proof.
  intros Hs. unfold scanstring.
  rewrite scanstring_aux_encoded by (try exact Hs; lia). reflexivity.
Qed.

End StringRoundTrip.

Section FileRoundTrip.

Implicit Types (r rest : str) (scan : str -> result (value * str)).

Variable max_digits : nat.

Lemma scan_once_string f r x r' :
  scanstring r = Some (x, r') ->
  scan_once max_digits (S f) (34 :: r) = Ok (JString x, r').
Proof. intros H. cbn [scan_once]. change (34 =? 34) with true. cbv iota. rewrite H. reflexivity. Qed.

Lemma scan_once_open_brace f r c0 r' :
  skip_ws r = c0 :: r' -> (c0 =? 125) = false ->
  scan_once max_digits (S f) (123 :: r) = object_members f (scan_once max_digits f) [] (c0 :: r').
Proof.
  intros Hws Hc. cbn [scan_once].
  change (123 =? 34) with false. change (123 =? 123) with true. cbv iota.
  rewrite Hws, Hc. reflexivity.
Qed.

Lemma scan_once_open_bracket f r c0 r' :
  skip_ws r = c0 :: r' -> (c0 =? 93) = false ->
  scan_once max_digits (S f) (91 :: r) = array_items f (scan_once max_digits f) [] (c0 :: r').
Proof.
  intros Hws Hc. cbn [scan_once].
  change (91 =? 34) with false. change (91 =? 123) with false.
  change (91 =? 91) with true. cbv iota.
  rewrite Hws, Hc. reflexivity.
Qed.

Lemma object_members_step f scan members r k r1 r2 v r3 c r4 :
  scanstring r = Some (k, r1) ->
  skip_ws r1 = 58 :: r2 ->
  scan (skip_ws r2) = Ok (v, r3) ->
  skip_ws r3 = c :: r4 ->
  object_members (S f) scan members (34 :: r)
  = if c =? 125 then Ok (JObject (dict_set k v members), r4)
    else if c =? 44
         then object_members f scan (dict_set k v members) (skip_ws r4)
         else Error Malformed.
Proof.
  intros Hkey Hcolon Hval Hnext. cbn [object_members].
  change (34 =? 34) with true. cbv iota.
  rewrite Hkey, Hcolon. change (58 =? 58) with true. cbv iota.
  rewrite Hval, Hnext. reflexivity.
Qed.

Lemma array_items_step f scan items s v r c r1 :
  scan s = Ok (v, r) ->
  skip_ws r = c :: r1 ->
  array_items (S f) scan items s
  = if c =? 93 then Ok (JArray (rev (v :: items)), r1)
    else if c =? 44 then array_items f scan (v :: items) (skip_ws r1)
    else Error Malformed.
Proof.
  intros Hval Hnext. cbn [array_items]. rewrite Hval, Hnext. reflexivity.
Qed.

(** The text of one example, as [json.dumps] lays it out at depth one. *)
Lemma object_text_eq (event label rest : str) :
  encode 1 (JObject [(py "event", JString event);
                     (py "category", JString label)]) ++ rest
  = 123 :: 10 :: 32 :: 32 :: 32 :: 32 :: 34
    :: (concat (map escape_char (py "event"))
        ++ 34 :: 58 :: 32 :: 34
        :: (concat (map escape_char event)
            ++ 34 :: 44 :: 10 :: 32 :: 32 :: 32 :: 32 :: 34
            :: (concat (map escape_char (py "category"))
                ++ 34 :: 58 :: 32 :: 34
                :: (concat (map escape_char label)
                    ++ 34 :: 10 :: 32 :: 32 :: 125 :: rest)))).
Proof.
  cbn [encode map join fst snd]. unfold encode_string, newline_indent.
  cbn [repeat Nat.mul Nat.add].
  rewrite <- !app_assoc. reflexivity.
Qed.


Lemma skip_ws_member (x : str) :
  skip_ws (10 :: 32 :: 32 :: 32 :: 32 :: 34 :: x) = 34 :: x.
Proof. reflexivity. Qed.

Lemma skip_ws_item (x : str) :
  skip_ws (10 :: 32 :: 32 :: 123 :: x) = 123 :: x.
Proof. reflexivity. Qed.

Lemma keys_are_scalar :
  forallb DatasetView.is_scalar (py "event") = true
  /\ forallb DatasetView.is_scalar (py "category") = true.
Proof. split; reflexivity. Qed.

(** One example as it is written is read back as the same object. *)
Lemma scan_object (event label rest : str) (n : nat) :
  forallb DatasetView.is_scalar event = true ->
  forallb DatasetView.is_scalar label = true ->
  (3 <= n)%nat ->
  scan_once max_digits n
    (encode 1 (JObject [(py "event", JString event);
                        (py "category", JString label)]) ++ rest)
  = Ok (JObject [(py "event", JString event);
                 (py "category", JString label)], rest).
Proof.
  intros Hevent Hlabel Hn. rewrite object_text_eq.
  destruct n as [|[|[|f]]]; try lia.
  rewrite (scan_once_open_brace _ _ 34
             (concat (map escape_char (py "event"))
              ++ 34 :: 58 :: 32 :: 34
              :: (concat (map escape_char event)
                  ++ 34 :: 44 :: 10 :: 32 :: 32 :: 32 :: 32 :: 34
                  :: (concat (map escape_char (py "category"))
                      ++ 34 :: 58 :: 32 :: 34
                      :: (concat (map escape_char label)
                          ++ 34 :: 10 :: 32 :: 32 :: 125 :: rest)))))
    by reflexivity.
  erewrite object_members_step; cycle 1.
  { apply scanstring_encoded. exact (proj1 keys_are_scalar). }
  { reflexivity. }
  { apply scan_once_string. apply scanstring_encoded. exact Hevent. }
  { reflexivity. }
  change (44 =? 125) with false. change (44 =? 44) with true. cbv iota.
  rewrite skip_ws_member.
  erewrite object_members_step; cycle 1.
  { apply scanstring_encoded. exact (proj2 keys_are_scalar). }
  { reflexivity. }
  { apply scan_once_string. apply scanstring_encoded. exact Hlabel. }
  { reflexivity. }
  reflexivity.
Qed.

(** The examples after the opening bracket: each as an object, a comma
    between two of them, the closing bracket on a line of its own. *)
Lemma array_text_eq (pair : str * str) (pairs : list (str * str)) rest :
  join (py "," ++ newline_indent 1)
    (map (encode 1)
       (map (fun pair =>
               JObject [(py "event", JString (fst pair));
                        (py "category", JString (snd pair))])
          (pair :: pairs)))
  ++ rest
  = encode 1 (JObject [(py "event", JString (fst pair));
                       (py "category", JString (snd pair))])
    ++ match pairs with
       | [] => rest
       | _ :: _ =>
           44 :: 10 :: 32 :: 32
           :: (join (py "," ++ newline_indent 1)
                 (map (encode 1)
                    (map (fun pair =>
                            JObject [(py "event", JString (fst pair));
                                     (py "category", JString (snd pair))])
                       pairs))
               ++ rest)
       end.
Proof.
  destruct pairs as [|pair' pairs]; [reflexivity |].
  cbn [map join]. rewrite <- !app_assoc. reflexivity.
Qed.

Lemma scan_items (pairs : list (str * str)) :
  forall (pair : str * str) (items : list value) (rest : str) (n m : nat),
    Forall (fun pair => forallb DatasetView.is_scalar (fst pair) = true
                        /\ forallb DatasetView.is_scalar (snd pair) = true)
      (pair :: pairs) ->
    (length pairs < n)%nat -> (3 <= m)%nat ->
    array_items n (scan_once max_digits m) items
      (join (py "," ++ newline_indent 1)
         (map (encode 1)
            (map (fun pair =>
                    JObject [(py "event", JString (fst pair));
                             (py "category", JString (snd pair))])
               (pair :: pairs)))
       ++ 10 :: 93 :: rest)
    = Ok (JArray
            (rev items
             ++ map (fun pair =>
                       JObject [(py "event", JString (fst pair));
                                (py "category", JString (snd pair))])
                  (pair :: pairs)),
          rest).
Proof.
  induction pairs as [|pair' pairs IH];
    intros pair items rest n m Hscalar Hn Hm;
    apply Forall_cons_iff in Hscalar as [[Hev Hlab] Hrest];
    rewrite array_text_eq; (destruct n as [|f]; [lia |]).
  - erewrite array_items_step; cycle 1.
    { apply scan_object; assumption. }
    { reflexivity. }
    change (93 =? 93) with true. cbv iota. cbn [rev map].
    reflexivity.
  - erewrite array_items_step; cycle 1.
    { apply scan_object; assumption. }
    { reflexivity. }
    change (44 =? 93) with false. change (44 =? 44) with true. cbv iota.
    assert (Hskip :
      skip_ws
        (10 :: 32 :: 32
         :: (join (py "," ++ newline_indent 1)
               (map (encode 1)
                  (map (fun pair =>
                          JObject [(py "event", JString (fst pair));
                                   (py "category", JString (snd pair))])
                     (pair' :: pairs)))
             ++ 10 :: 93 :: rest))
      = join (py "," ++ newline_indent 1)
          (map (encode 1)
             (map (fun pair =>
                     JObject [(py "event", JString (fst pair));
                              (py "category", JString (snd pair))])
                (pair' :: pairs)))
        ++ 10 :: 93 :: rest).
    { rewrite array_text_eq, object_text_eq. reflexivity. }
    rewrite Hskip. cbn [length] in Hn.
    rewrite (IH pair' _ rest f m Hrest ltac:(lia) Hm).
    cbn [rev map]. rewrite <- app_assoc. reflexivity.
Qed.

End FileRoundTrip.

Section FileRoundTripTop.

Lemma join_objects_length (pairs : list (str * str)) :
  forall (pair : str * str),
    (length (pair :: pairs)
     <= length (join (py "," ++ newline_indent 1)
                  (map (encode 1)
                     (map (fun pair =>
                             JObject [(py "event", JString (fst pair));
                                      (py "category", JString (snd pair))])
                        (pair :: pairs)))))%nat.
Proof.
  induction pairs as [|pair' pairs IH]; intros pair.
  - rewrite <- (app_nil_r (join _ _)), array_text_eq, object_text_eq.
    cbn [length]. lia.
  - rewrite <- (app_nil_r (join _ _)), array_text_eq, object_text_eq.
    specialize (IH pair').
    repeat (rewrite length_app || cbn [length]).
    repeat (rewrite length_app in IH || cbn [length] in IH). lia.
Qed.

(** The text [json.dump] writes for a list of examples. *)
Lemma file_text_eq (pair : str * str) (pairs : list (str * str)) :
  DatasetView.file_text (pair :: pairs)
  = 91 :: 10 :: 32 :: 32
    :: (join (py "," ++ newline_indent 1)
          (map (encode 1)
             (map (fun pair =>
                     JObject [(py "event", JString (fst pair));
                              (py "category", JString (snd pair))])
                (pair :: pairs)))
        ++ 10 :: 93 :: []).
Proof.
  unfold DatasetView.file_text. rewrite json_of_pe_examples.
  unfold dumps_indent2. cbn [map encode]. reflexivity.
Qed.

(** The decoder, given the depth it needs, reads the file back. *)
Lemma decode_file_text max_digits (pairs : list (str * str)) :
  Forall (fun pair => forallb DatasetView.is_scalar (fst pair) = true
                      /\ forallb DatasetView.is_scalar (snd pair) = true)
    pairs ->
  decode max_digits (DatasetView.file_text pairs)
  = Ok (PromptEngineering.json_of_examples
          (map DatasetView.pe_example pairs)).
Proof.
  intros Hscalar. destruct pairs as [|pair pairs]; [reflexivity |].
  rewrite json_of_pe_examples, file_text_eq.
  pose proof (join_objects_length pairs pair) as Hlen.
  unfold decode.
  change (startswith [65279] (91 :: ?x)) with false. cbv iota.
  match goal with
  | |- context [skip_ws (91 :: ?x)] =>
      change (skip_ws (91 :: x)) with (91 :: x)
  end.
  erewrite scan_once_open_bracket; cycle 1.
  { rewrite array_text_eq, object_text_eq. reflexivity. }
  { reflexivity. }
  match goal with
  | |- context [array_items ?n ?scan ?items (123 :: ?x)] =>
      replace (123 :: x)
        with (join (py "," ++ newline_indent 1)
                (map (encode 1)
                   (map (fun pair =>
                           JObject [(py "event", JString (fst pair));
                                    (py "category", JString (snd pair))])
                      (pair :: pairs)))
              ++ 10 :: 93 :: [])
        by (rewrite array_text_eq, object_text_eq; reflexivity)
  end.
  rewrite (scan_items max_digits pairs pair [] [] _ _ Hscalar).
  - reflexivity.
  - cbn [length] in *. rewrite length_app. cbn [length]. lia.
  - cbn [length] in *. rewrite length_app. cbn [length]. lia.
Qed.

(** [json.loads] on the text of the file: the document that was written,
    unless the interpreter runs out of recursion depth on it. *)
Lemma dataset_file_round_trip_core interp (pairs : list (str * str)) :
  Forall (fun pair => forallb DatasetView.is_scalar (fst pair) = true
                      /\ forallb DatasetView.is_scalar (snd pair) = true)
    pairs ->
  json_loads interp (DatasetView.file_text pairs)
  = if exhausts_recursion interp (DatasetView.file_text pairs)
    then Raise RecursionError
    else Return (PromptEngineering.json_of_examples
                   (map DatasetView.pe_example pairs)).
Proof.
  intros Hscalar. unfold json_loads, Json.loads.
  destruct (exhausts_recursion interp (DatasetView.file_text pairs));
    [reflexivity |].
  rewrite (decode_file_text _ pairs Hscalar). reflexivity.
Qed.

End FileRoundTripTop.

Section ReadBack.

(** The examples [generate_trainset] makes of a decoded dataset file. *)
Lemma examples_of_written_data (pairs : list (str * str)) :
  Dspy.examples_of_data
    (PromptEngineering.json_of_examples (map DatasetView.pe_example pairs))
  = Return (map DatasetView.dspy_example pairs).
Proof.
  rewrite json_of_pe_examples. cbn [Dspy.examples_of_data].
  induction pairs as [|pair pairs IH]; [reflexivity |].
  cbn [map Dspy.comprehension].
  change (Dspy.example_of_json
            (JObject [(py "event", JString (fst pair));
                      (py "category", JString (snd pair))]))
    with (Return (DatasetView.dspy_example pair)).
  rewrite IH. reflexivity.
Qed.

(** Section 1c without the file: what is returned is what is written. *)
Lemma build_training_examples_writes_result interp
    (service : nat -> request -> outcome str) w examples w1 :
  fs w !! PromptEngineering.DATASET_PATH = None ->
  PromptEngineering.build_training_examples interp service w
  = (Return examples, w1) ->
  fs w1 !! PromptEngineering.DATASET_PATH
  = Some (dumps_indent2 (PromptEngineering.json_of_examples examples)).
Proof.
  intros Hfile Hrun.
  unfold PromptEngineering.build_training_examples in Hrun.
  unfold bind at 1 in Hrun.
  rewrite (os_path_exists_absent _ _ Hfile) in Hrun. cbn [negb] in Hrun.
  unfold bind at 1 in Hrun.
  match type of Hrun with
  | context [for_each ?l ?b ?a ?w0] =>
      destruct (for_each l b a w0) as [[ex | e0] w2]
  end; [| discriminate Hrun].
  unfold bind, print, json_dump, write_file, ret in Hrun.
  injection Hrun as <- <-. cbn [fs set_fs add_stdout].
  apply lookup_insert_eq.
Qed.

Lemma labels_are_scalar (label : str) :
  In label Dspy.CATEGORIES -> forallb DatasetView.is_scalar label = true.
Proof. intros [<- | [<- | [<- | [<- | []]]]]; reflexivity. Qed.

End ReadBack.

(** X16.  The dataset file round trip: the text [json.dump] writes for a
    list of labeled events whose characters are Unicode scalar values is
    decoded by [json.loads] as the very document that was written; the
    one other outcome is [RecursionError], on an interpreter that runs
    out of recursion depth on this text. *)
Theorem dataset_file_round_trip
    (interp : interpreter) (pairs : list (str * str)) :
  Forall (fun pair => forallb DatasetView.is_scalar (fst pair) = true
                      /\ forallb DatasetView.is_scalar (snd pair) = true)
    pairs ->
  json_loads interp (DatasetView.file_text pairs)
  = if exhausts_recursion interp (DatasetView.file_text pairs)
    then Raise RecursionError
    else Return (PromptEngineering.json_of_examples
                   (map DatasetView.pe_example pairs)).
Proof.
  exact (dataset_file_round_trip_core interp pairs).
Qed.

Lemma dataset_file_round_trip_witness :
  json_loads Scenario.cpython
    (DatasetView.file_text
       [([34; 233; 128512; 10; 92], py "Culture"); (py "Armistice", py "Wars")])
  = Return (PromptEngineering.json_of_examples
              (map DatasetView.pe_example
                 [([34; 233; 128512; 10; 92], py "Culture");
                  (py "Armistice", py "Wars")])).
Proof.
  rewrite (dataset_file_round_trip Scenario.cpython
             [([34; 233; 128512; 10; 92], py "Culture");
              (py "Armistice", py "Wars")]).
  - reflexivity.
  - repeat constructor.
Defined.

(** X17.  [generate_trainset] called twice, starting without the file,
    with a model that answers every call with well-formed text: the
    first call generates sixty examples and writes them; the second call
    sends no request, leaves the file as it is and returns the same
    sixty examples, or raises [RecursionError] on an interpreter that
    runs out of recursion depth on the text of the file. *)
Theorem generate_trainset_twice
    (interp : interpreter) (service : nat -> request -> outcome str)
    (w : world) :
  (forall n r, exists reply, service n r = Return reply) ->
  (forall n r reply, service n r = Return reply ->
                     forallb DatasetView.is_scalar reply = true) ->
  fs w !! Dspy.DATASET_PATH = None ->
  exists trainset w1 text,
    Dspy.generate_trainset interp service w = (Return trainset, w1)
    /\ length trainset = 60%nat
    /\ length (lm_log w1) = (length (lm_log w) + 60)%nat
    /\ fs w1 !! Dspy.DATASET_PATH = Some text
    /\ Dspy.generate_trainset interp service w1
       = (if exhausts_recursion interp text
          then Raise RecursionError
          else Return trainset, w1).
Proof.
  intros Hanswers Hscalar Habsent.
  destruct (generate_trainset_shape interp service Hanswers w Habsent)
    as (ev1 & ev2 & ev3 & ev4 & Hl1 & Hl2 & Hl3 & Hl4 & Hfrom & Hrun).
  cbn zeta in Hrun.
  set (pairs := map (fun event => (event, py "Wars")) ev1
                ++ map (fun event => (event, py "Politics")) ev2
                ++ map (fun event => (event, py "Science")) ev3
                ++ map (fun event => (event, py "Culture")) ev4) in *.
  assert (Hpairs :
    Forall (fun pair => forallb DatasetView.is_scalar (fst pair) = true
                        /\ forallb DatasetView.is_scalar (snd pair) = true)
      pairs).
  { rewrite !Forall_app in Hfrom. destruct Hfrom as (H1 & H2 & H3 & H4).
    subst pairs. rewrite !Forall_app.
    repeat split; apply List.Forall_forall; intros pair Hin;
      apply in_map_iff in Hin as (event & <- & Hin); cbn [fst snd];
      (split; [| reflexivity]).
    - rewrite List.Forall_forall in H1.
      destruct (H1 event Hin) as (n & r & Hr). exact (Hscalar _ _ _ Hr).
    - rewrite List.Forall_forall in H2.
      destruct (H2 event Hin) as (n & r & Hr). exact (Hscalar _ _ _ Hr).
    - rewrite List.Forall_forall in H3.
      destruct (H3 event Hin) as (n & r & Hr). exact (Hscalar _ _ _ Hr).
    - rewrite List.Forall_forall in H4.
      destruct (H4 event Hin) as (n & r & Hr). exact (Hscalar _ _ _ Hr). }
  eexists _, _, (DatasetView.file_text pairs).
  split; [exact Hrun |]. split; [| split; [| split]].
  - subst pairs. rewrite length_map, !length_app, !length_map.
    rewrite Hl1, Hl2, Hl3, Hl4. reflexivity.
  - cbn [lm_log]. rewrite length_app, length_map. reflexivity.
  - cbn [fs]. apply lookup_insert_eq.
  - rewrite (generate_trainset_existing interp service _
               (DatasetView.file_text pairs))
      by (cbn [fs]; apply lookup_insert_eq).
    rewrite (dataset_file_round_trip_core interp pairs Hpairs).
    destruct (exhausts_recursion interp (DatasetView.file_text pairs));
      [reflexivity |].
    rewrite examples_of_written_data. reflexivity.
Qed.

Lemma generate_trainset_twice_witness :
  exists trainset w1,
    Dspy.generate_trainset Scenario.cpython (Scenario.always (py "An event"))
      Scenario.fresh
    = (Return trainset, w1)
    /\ Dspy.generate_trainset Scenario.cpython
         (Scenario.always (py "An event")) w1
       = (Return trainset, w1).
Proof.
  destruct (generate_trainset_twice Scenario.cpython
              (Scenario.always (py "An event")) Scenario.fresh)
    as (trainset & w1 & text & Hfirst & _ & _ & Hfile & Hsecond).
  - intros n r. eexists. reflexivity.
  - intros n r reply [= <-]. reflexivity.
  - apply lookup_empty.
  - exists trainset, w1. split; [exact Hfirst |].
    rewrite Hsecond.
    assert (Hw1 :
      w1 = snd (Dspy.generate_trainset Scenario.cpython
                  (Scenario.always (py "An event")) Scenario.fresh))
      by (rewrite Hfirst; reflexivity).
    assert (Htext :
      match fs (snd (Dspy.generate_trainset Scenario.cpython
                       (Scenario.always (py "An event")) Scenario.fresh))
            !! Dspy.DATASET_PATH with
      | Some text => exhausts_recursion Scenario.cpython text
      | None => true
      end = false) by (vm_compute; reflexivity).
    rewrite <- Hw1, Hfile in Htext. rewrite Htext. reflexivity.
Defined.

(** X18.  prompt_engineering.py started without the file: when section
    1c returns examples whose characters are Unicode scalar values,
    section 5 reads back from the file exactly these examples, as the
    JSON array of their dicts, or raises [RecursionError] on an
    interpreter that runs out of recursion depth on the text of the
    file. *)
Theorem first_run_reads_back_what_it_built
    (interp : interpreter) (service : nat -> request -> outcome str)
    (w w1 : world) (pairs : list (str * str)) :
  fs w !! PromptEngineering.DATASET_PATH = None ->
  PromptEngineering.build_training_examples interp service w
  = (Return (map DatasetView.pe_example pairs), w1) ->
  Forall (fun pair => forallb DatasetView.is_scalar (fst pair) = true
                      /\ forallb DatasetView.is_scalar (snd pair) = true)
    pairs ->
  fs w1 !! PromptEngineering.DATASET_PATH = Some (DatasetView.file_text pairs)
  /\ PromptEngineering.load_labeled_event_examples interp w1
     = (if exhausts_recursion interp (DatasetView.file_text pairs)
        then Raise RecursionError
        else Return (PromptEngineering.json_of_examples
                       (map DatasetView.pe_example pairs)), w1).
Proof.
  intros Habsent Hrun Hscalar.
  pose proof (build_training_examples_writes_result interp service _ _ _
                Habsent Hrun)
    as Hfile.
  split; [exact Hfile |].
  unfold PromptEngineering.load_labeled_event_examples.
  rewrite (json_load_present interp _ _ _ Hfile).
  change (dumps_indent2
            (PromptEngineering.json_of_examples
               (map DatasetView.pe_example pairs)))
    with (DatasetView.file_text pairs).
  rewrite (dataset_file_round_trip_core interp pairs Hscalar). reflexivity.
Qed.

Lemma first_run_reads_back_what_it_built_witness :
  fst (PromptEngineering.load_labeled_event_examples Scenario.cpython
         (snd (PromptEngineering.build_training_examples Scenario.cpython
                 (Scenario.always Scenario.two_events) Scenario.fresh)))
  = Return
      (PromptEngineering.json_of_examples
         (map DatasetView.pe_example
            (flat_map
               (fun label => [(py "Armistice of 1918", label);
                              (py "Fall of Constantinople", label)])
               PromptEngineering.EVENT_CATEGORIES))).
Proof.
  destruct (first_run_reads_back_what_it_built Scenario.cpython
              (Scenario.always Scenario.two_events) Scenario.fresh
              (snd (PromptEngineering.build_training_examples Scenario.cpython
                      (Scenario.always Scenario.two_events) Scenario.fresh))
              (flat_map
                 (fun label => [(py "Armistice of 1918", label);
                                (py "Fall of Constantinople", label)])
                 PromptEngineering.EVENT_CATEGORIES))
    as [_ Hload].
  - apply lookup_empty.
  - vm_compute. reflexivity.
  - repeat constructor.
  - rewrite Hload. vm_compute. reflexivity.
Defined.

(* ===================================================================== *)
(** * The two evaluators side by side *)
(* ===================================================================== *)

Section Agreement.

(** Both loops count the same examples as correct: those that have both
    fields and whose event is answered with their label. *)
Lemma is_correct_agrees f (example : list (str * str)) :
  EvaluatorView.is_correct f example = EvaluatorView.pe_is_correct f example.
Proof.
  unfold EvaluatorView.is_correct, EvaluatorView.pe_is_correct,
    EvaluatorView.verdict, EvaluatorView.pe_verdict.
  destruct (dict_get (py "event") example) as [event|]; [| reflexivity].
  destruct (f event) as [label | e];
    destruct (dict_get (py "category") example); reflexivity.
Qed.

Lemma filter_is_correct_agrees f (examples : list (list (str * str))) :
  List.filter (EvaluatorView.is_correct f) examples
  = List.filter (EvaluatorView.pe_is_correct f) examples.
Proof.
  apply filter_ext. intros example. apply is_correct_agrees.
Qed.

End Agreement.

(** X19.  The two evaluators agree when nothing fails: for a classifier
    without effects that answers every example of a non-empty list, the
    accuracy [evaluate_classification_function] prints is the accuracy
    [evaluate_dspy_model] returns. *)
Theorem evaluators_agree_without_failures
    (name model_name : str) (f : str -> outcome str)
    (examples : list (list (str * str))) (w : world) :
  examples <> [] ->
  (forall example, In example examples ->
                   exists b, EvaluatorView.pe_verdict f example = Return b) ->
  exists accuracy,
    fst (Dspy.evaluate_dspy_model (EvaluatorView.stateless_module f)
           examples model_name w) = Return accuracy
    /\ stdout (snd (PromptEngineering.evaluate_classification_function
                      (EvaluatorView.stateless_classifier name f) examples w))
       = stdout w ++ [ReportFunction name; ReportAccuracy accuracy;
                      ReportElapsed; BlankLine].
Proof.
  intros Hne Hall. eexists. split.
  - apply evaluate_dspy_model_stateless. exact Hne.
  - unfold PromptEngineering.evaluate_classification_function,
      PromptEngineering.count_correct, bind.
    rewrite (pe_loop_stateless name f examples Hall).
    rewrite filter_is_correct_agrees.
    destruct examples as [|example rest]; [congruence |].
    cbn [length true_divide]. unfold print, ret, add_stdout.
    cbn [fs stdout lm_log snd PromptEngineering.fn_name
         EvaluatorView.stateless_classifier Nat.add].
    rewrite <- !app_assoc. reflexivity.
Qed.

Lemma evaluators_agree_without_failures_witness :
  exists accuracy,
    fst (Dspy.evaluate_dspy_model
           (EvaluatorView.stateless_module (fun _ => Return (py "Wars")))
           [Scenario.treaty; Scenario.moon_landing] (py "Stub")
           Scenario.fresh) = Return accuracy
    /\ stdout (snd (PromptEngineering.evaluate_classification_function
                      (EvaluatorView.stateless_classifier (py "stub")
                         (fun _ => Return (py "Wars")))
                      [Scenario.treaty; Scenario.moon_landing]
                      Scenario.fresh))
       = stdout Scenario.fresh
         ++ [ReportFunction (py "stub"); ReportAccuracy accuracy;
             ReportElapsed; BlankLine].
Proof.
  apply (evaluators_agree_without_failures (py "stub") (py "Stub")
           (fun _ => Return (py "Wars"))
           [Scenario.treaty; Scenario.moon_landing] Scenario.fresh).
  - discriminate.
  - intros example [<- | [<- | []]]; eexists; vm_compute; reflexivity.
Defined.
